(** * local-db-viewer: the connector layer and the query history store

    A shallow embedding of
      - app/core/connectors/base_connector.py
          (modules [ColumnInfo], [IndexInfo], [TableSchema], [QueryResult],
           the exceptions in [exn])
      - app/core/connectors/sqlite_connector.py   (module [SQLiteConnector])
      - app/core/connectors/connector_factory.py  (module [ConnectorFactory])
      - app/db/query_history.py   (modules [QueryRecord], [QueryHistoryDB])
    together with the Python built-ins they call (module [Py]) and the
    sqlite3 driver as these sources use it (module [Sqlite3]).

    Text is 7-bit: a Python [str] is a [string] whose characters are code
    points below 128.  Python's [int] is [Z], [float] is the IEEE double of
    [PrimFloat].

    The connector hands SQL text to the driver, so it is modelled over an
    arbitrary driver ([Sqlite3.Env]); module [MiniSqlite] is one small
    driver to run it on.  The history store issues fixed statements, which
    are modelled by what they do to the rows of its one table. *)

From Stdlib Require Import ZArith List String Ascii Bool Lia Floats.
From Stdlib Require Import DecimalString DecimalPos DecimalZ Sorted.
Import ListNotations.

Local Open Scope string_scope.
Local Open Scope Z_scope.

(* ------------------------------------------------------------------ *)
(** ** Python built-ins used by the sources *)

Module Py.

(** [str.isspace] on one character (code points below 128): TAB..CR,
    FS..US and the blank. *)
Definition isspace (c : ascii) : bool :=
  let n := nat_of_ascii c in
  (((9 <=? n) && (n <=? 13)) || ((28 <=? n) && (n <=? 32)))%nat.

Definition is_lower (c : ascii) : bool :=
  let n := nat_of_ascii c in ((97 <=? n) && (n <=? 122))%nat.

Definition is_upper (c : ascii) : bool :=
  let n := nat_of_ascii c in ((65 <=? n) && (n <=? 90))%nat.

Definition upper_char (c : ascii) : ascii :=
  if is_lower c then ascii_of_nat (nat_of_ascii c - 32) else c.

Definition lower_char (c : ascii) : ascii :=
  if is_upper c then ascii_of_nat (nat_of_ascii c + 32) else c.

Fixpoint map_chars (f : ascii -> ascii) (s : string) : string :=
  match s with
  | EmptyString => EmptyString
  | String c s' => String (f c) (map_chars f s')
  end.

(** [s.upper()], [s.lower()] *)
Definition upper : string -> string := map_chars upper_char.
Definition lower : string -> string := map_chars lower_char.

(** [s.lstrip()], [s.rstrip()], [s.strip()] *)
Fixpoint lstrip (s : string) : string :=
  match s with
  | EmptyString => EmptyString
  | String c s' => if isspace c then lstrip s' else s
  end.

Fixpoint rstrip (s : string) : string :=
  match s with
  | EmptyString => EmptyString
  | String c s' =>
      match rstrip s' with
      | EmptyString => if isspace c then EmptyString else String c EmptyString
      | r => String c r
      end
  end.

Definition strip (s : string) : string := rstrip (lstrip s).

(** [s.startswith(p)] *)
Definition startswith (s p : string) : bool := String.prefix p s.

(** [sep.join(xs)] *)
Definition join (sep : string) (xs : list string) : string :=
  String.concat sep xs.

(** The decimal digits of an [int], with its sign. *)
Definition decimal (n : Z) : string := NilZero.string_of_int (Z.to_int n).

(** [sys.int_max_str_digits], at its default, and the least number with
    more digits than that: 10 ** 4300. *)
Definition int_max_str_digits : Z := 4300.

Definition int_str_bound : Z := Eval vm_compute in (10 ^ int_max_str_digits).

(** [str(n)] and [f"{n}"] for an [int]: its decimal digits.  CPython (3.11
    here) raises ValueError when there are more than
    [sys.int_max_str_digits] of them; [None] stands for that. *)
Definition str_int (n : Z) : option string :=
  if Z.abs n <? int_str_bound then Some (decimal n) else None.

(** The text of that ValueError. *)
Definition int_too_long : string :=
  "Exceeds the limit (4300 digits) for integer string conversion; "
  ++ "use sys.set_int_max_str_digits() to increase the limit".

(** [x in xs] for a list (or the keys of a dict) of strings *)
Definition str_in (x : string) (xs : list string) : bool :=
  existsb (String.eqb x) xs.

(** [needle in haystack] for two strings *)
Fixpoint contains (haystack needle : string) : bool :=
  String.prefix needle haystack ||
  match haystack with
  | EmptyString => false
  | String _ h' => contains h' needle
  end.

(** *** pathlib: the final component and its suffix (POSIX flavour) *)

(** [s.split(sep)] for a one-character separator *)
Fixpoint split (sep : ascii) (s : string) : list string :=
  match s with
  | EmptyString => [EmptyString]
  | String c s' =>
      if Ascii.eqb c sep then EmptyString :: split sep s'
      else match split sep s' with
           | [] => [String c EmptyString]
           | p :: ps => String c p :: ps
           end
  end.

(** [PurePath.name]: the last component; empty components and "." are
    dropped when the path is parsed. *)
Definition path_name (path : string) : string :=
  last (filter (fun p => negb (p =? "") && negb (p =? "."))%string
               (split "/" path)) "".

(** [s.rfind(c)]: index of the last occurrence, [None] for -1 *)
Fixpoint rfind (c : ascii) (s : string) : option nat :=
  match s with
  | EmptyString => None
  | String d s' =>
      match rfind c s' with
      | Some i => Some (S i)
      | None => if Ascii.eqb d c then Some O else None
      end
  end.

(** [PurePath.suffix]:
      i = name.rfind('.')
      name[i:] if 0 < i < len(name) - 1 else '' *)
Definition path_suffix (path : string) : string :=
  let name := path_name path in
  match rfind "." name with
  | Some i =>
      if ((0 <? i) && (i <? String.length name - 1))%nat
      then substring i (String.length name - i) name
      else ""
  | None => ""
  end.

End Py.

(* ------------------------------------------------------------------ *)
(** ** The sqlite3 driver, as the sources see it *)

Module Sqlite3.

(** A cell handed out by the driver: None, int, float, str or bytes. *)
Inductive value : Type :=
| VNone
| VInt (n : Z)
| VFloat (x : float)
| VStr (s : string)
| VBytes (b : list Byte.byte).

Definition row : Type := list value.

(** Python truthiness ([bool(v)], [if v], [not v], [v or d]) *)
Definition truthy (v : value) : bool :=
  match v with
  | VNone => false
  | VInt n => negb (n =? 0)
  | VFloat x => negb (PrimFloat.eqb x 0)
  | VStr s => negb (s =? "")%string
  | VBytes b => match b with [] => false | _ :: _ => true end
  end.

(** An [sqlite3.Error] is kept as its text, [str(e)].  The connector hands
    the driver 7-bit texts only, as statements and as parameters, and on
    these the driver raises nothing else. *)
Inductive result (A : Type) : Type :=
| Ok (a : A)
| Error (msg : string).
Arguments Ok {A} a.
Arguments Error {A} msg.

(** A cursor after [execute]: the first component of each entry of
    [description] ([None] for a statement without result columns), the rows
    still to be fetched, and [rowcount].  Faults the driver would report
    while rows are fetched are reported by [execute]. *)
Record Cursor : Type := mkCursor {
  description : option (list string);
  pending : list row;
  rowcount : Z;
}.

Definition fetchall (c : Cursor) : list row := pending c.
Definition fetchone (c : Cursor) : option row := hd_error (pending c).

(** The environment a connector runs in: the file system, the driver with
    the state of an open connection (which carries the database it sees),
    the wall clock read at a state of that connection, and Python's [str()]
    and [==] on cells. *)
Record Env : Type := mkEnv {
  filesystem : Type;
  connection : Type;
  path_exists : filesystem -> string -> bool;
  sqlite3_connect : filesystem -> string -> result connection;
  execute : connection -> string -> list value -> result Cursor * connection;
  commit : connection -> result unit * connection;
  close : connection -> result unit;
  time_time : connection -> float;
  py_str : value -> string;
  py_eq : value -> value -> bool;
}.

End Sqlite3.
Import Sqlite3.

(* ------------------------------------------------------------------ *)
(** ** Exceptions and the monad of a method body *)

(** The exception classes of base_connector.py, [sqlite3.Error] (with its
    subclasses), and the built-in ones a body can raise. *)
Inductive exn : Type :=
| ConnectionError (msg : string)
| QueryError (msg : string)
| UnsupportedDatabaseError (msg : string)
| Sqlite3Error (msg : string)
| ValueError (msg : string)
| IndexError (msg : string)
| KeyError (msg : string)
| OverflowError (msg : string).

Inductive outcome (A : Type) : Type :=
| Returned (a : A)
| Raised (e : exn).
Arguments Returned {A} a.
Arguments Raised {A} e.

(** A body run on a state [S]: it returns or raises, and leaves a state. *)
Definition M (S A : Type) : Type := S -> outcome A * S.

Definition ret {S A : Type} (a : A) : M S A := fun s => (Returned a, s).

Definition raise {S A : Type} (e : exn) : M S A := fun s => (Raised e, s).

Definition bind {S A B : Type} (m : M S A) (k : A -> M S B) : M S B :=
  fun s =>
    match m s with
    | (Returned a, s') => k a s'
    | (Raised e, s') => (Raised e, s')
    end.

Declare Scope py_scope.
Delimit Scope py_scope with py.
Notation "x <- m ;; k" := (bind m (fun x => k))
  (at level 61, m at next level, right associativity) : py_scope.
Notation "' pat <- m ;; k" := (bind m (fun pat => k))
  (at level 61, pat pattern, m at next level, right associativity) : py_scope.
Notation "m ;;; k" := (bind m (fun _ => k))
  (at level 61, right associativity) : py_scope.
Local Open Scope py_scope.

(** [try: body  except sqlite3.Error as e: handler(str(e))] *)
Definition try_except_sqlite3 {S A : Type}
    (body : M S A) (handler : string -> M S A) : M S A :=
  fun s =>
    match body s with
    | (Raised (Sqlite3Error msg), s') => handler msg s'
    | other => other
    end.

(** [for x in xs: acc = body(acc, x)] *)
Fixpoint for_each {S X B : Type}
    (xs : list X) (acc : B) (body : B -> X -> M S B) : M S B :=
  match xs with
  | [] => ret acc
  | x :: xs' => acc' <- body acc x ;; for_each xs' acc' body
  end.

(** [f"{n}"] for an [int] in a method body. *)
Definition format_int {S : Type} (n : Z) : M S string :=
  match Py.str_int n with
  | Some digits => ret digits
  | None => raise (ValueError Py.int_too_long)
  end.

(** The double quote, for the SQL texts that quote identifiers. *)
Definition DQ : string := String "034"%char EmptyString.

(** The line break. *)
Definition NL : string := String "010"%char EmptyString.

(* ------------------------------------------------------------------ *)
(** ** base_connector.py: the schema model *)

Module ColumnInfo.
Record t : Type := mk {
  name : value;
  data_type : value;
  nullable : bool;
  default_value : value;
  is_primary_key : bool;
  foreign_key : option string;
}.
Definition set_foreign_key (c : t) (fk : option string) : t :=
  mk (name c) (data_type c) (nullable c) (default_value c)
     (is_primary_key c) fk.
End ColumnInfo.

Module IndexInfo.
Record t : Type := mk {
  name : value;
  columns : list value;
  is_unique : bool;
}.
End IndexInfo.

(** One entry of [TableSchema.foreign_keys], the dict with the keys
    'column', 'ref_table' and 'ref_column'. *)
Module ForeignKey.
Record t : Type := mk {
  column : value;
  ref_table : value;
  ref_column : value;
}.
End ForeignKey.

Module TableSchema.
Record t : Type := mk {
  name : string;
  columns : list ColumnInfo.t;
  primary_keys : list value;
  foreign_keys : list ForeignKey.t;
  indexes : list IndexInfo.t;
  row_count : value;
  ddl : value;
}.
End TableSchema.

Module QueryResult.
Record t : Type := mk {
  columns : list string;
  rows : list row;
  row_count : Z;
  execution_time : float;
  error : option string;
}.

(** [success]: [self.error is None] *)
Definition success (r : t) : bool :=
  match error r with
  | None => true
  | Some _ => false
  end.

(** [QueryResult(error=msg)] and [QueryResult(execution_time=dt, error=msg)]:
    the other fields keep their defaults. *)
Definition failed (dt : float) (msg : string) : t :=
  mk [] [] 0 dt (Some msg).
End QueryResult.

(* ------------------------------------------------------------------ *)
(** ** sqlite_connector.py *)

Module SQLiteConnector.
Section WithEnv.

Variable env : Env.

Definition SUPPORTED_EXTENSIONS : list string := [".db"; ".sqlite"; ".sqlite3"].

(** The two attributes of a connector; [_connection] holds the driver's
    connection in its current state. *)
Record t : Type := mk {
  _connection : option (connection env);
  _file_path : option string;
}.

(** [__init__] *)
Definition __init__ : t := mk None None.

(** [is_connected], [file_path], [database_type] *)
Definition is_connected (self : t) : bool :=
  match _connection self with
  | Some _ => true
  | None => false
  end.

Definition file_path (self : t) : option string := _file_path self.

Definition database_type (self : t) : string := "SQLite".

(** *** Calls on the open connection *)

Definition cursor_execute (sql : string) (params : list value)
  : M (connection env) Cursor :=
  fun h =>
    match execute env h sql params with
    | (Ok cur, h') => (Returned cur, h')
    | (Error msg, h') => (Raised (Sqlite3Error msg), h')
    end.

Definition connection_commit : M (connection env) unit :=
  fun h =>
    match commit env h with
    | (Ok u, h') => (Returned u, h')
    | (Error msg, h') => (Raised (Sqlite3Error msg), h')
    end.

Definition now : M (connection env) float :=
  fun h => (Returned (time_time env h), h).

(** A method whose first lines are
      if not self._connection: <not_connected>
    and whose remaining lines are [body], run on the open connection. *)
Definition on_connection {A : Type}
    (not_connected : M t A) (body : M (connection env) A) : M t A :=
  fun self =>
    match _connection self with
    | None => not_connected self
    | Some h =>
        let (r, h') := body h in (r, mk (Some h') (_file_path self))
    end.

(** *** disconnect *)

Definition disconnect (self : t) : t :=
  match _connection self with
  | Some h =>
      (* try: close()  except sqlite3.Error: pass  finally: reset both *)
      match close env h with
      | Ok _ | Error _ => mk None None
      end
  | None => self
  end.

(** *** connect *)

Definition connect (fs : filesystem env) (file_path : string) : M t bool :=
  fun self =>
    if negb (path_exists env fs file_path) then
      (Raised (ConnectionError ("File not found: " ++ file_path)), self)
    else if negb (Py.str_in (Py.lower (Py.path_suffix file_path))
                            SUPPORTED_EXTENSIONS) then
      (Raised (ConnectionError
         ("Unsupported file extension: " ++ Py.path_suffix file_path ++ ". "
          ++ "Supported: " ++ Py.join ", " SUPPORTED_EXTENSIONS)), self)
    else
      try_except_sqlite3
        (fun self =>
           let self := if is_connected self then disconnect self else self in
           match sqlite3_connect env fs file_path with
           | Error msg => (Raised (Sqlite3Error msg), self)
           | Ok h =>
               match execute env h "PRAGMA foreign_keys = ON" [] with
               | (Error msg, h') =>
                   (Raised (Sqlite3Error msg), mk (Some h') (_file_path self))
               | (Ok _, h') => (Returned true, mk (Some h') (Some file_path))
               end
           end)
        (fun e => raise (ConnectionError
                           ("Failed to connect to database: " ++ e)))
        self.

(** *** get_row_count *)

Definition count_statement (table_name : string) : string :=
  "SELECT COUNT(*) FROM " ++ DQ ++ table_name ++ DQ.

Definition get_row_count_body (table_name : string)
  : M (connection env) value :=
  try_except_sqlite3
    (cursor <- cursor_execute (count_statement table_name) [] ;;
     ret match fetchone cursor with
         | Some (n :: _) => n
         | _ => VInt 0
         end)
    (fun _ => ret (VInt 0)).

Definition get_row_count (table_name : string) : M t value :=
  on_connection (ret (VInt 0)) (get_row_count_body table_name).

(** *** execute_query *)

(** [f"PRAGMA busy_timeout = {timeout * 1000}"] *)
Definition busy_timeout_statement (timeout : Z)
  : M (connection env) string :=
  ms <- format_int (timeout * 1000) ;;
  ret ("PRAGMA busy_timeout = " ++ ms).

(** [query.strip().upper().startswith("SELECT")] *)
Definition is_select (query : string) : bool :=
  Py.startswith (Py.upper (Py.strip query)) "SELECT".

Definition execute_query_body (query : string) (timeout : Z)
  : M (connection env) QueryResult.t :=
  start_time <- now ;;
  try_except_sqlite3
    (pragma <- busy_timeout_statement timeout ;;
     cursor_execute pragma [] ;;;
     cursor <- cursor_execute query [] ;;
     if is_select query then
       let columns := match description cursor with
                      | Some (d :: ds) => d :: ds
                      | _ => []
                      end in
       let rows := fetchall cursor in
       end_time <- now ;;
       ret (QueryResult.mk columns rows (Z.of_nat (List.length rows))
              (end_time - start_time)%float None)
     else
       connection_commit ;;;
       end_time <- now ;;
       ret (QueryResult.mk ["affected_rows"] [[VInt (rowcount cursor)]]
              (rowcount cursor) (end_time - start_time)%float None))
    (fun e =>
       end_time <- now ;;
       ret (QueryResult.failed (end_time - start_time)%float e)).

Definition execute_query (query : string) (timeout : Z)
  : M t QueryResult.t :=
  on_connection
    (ret (QueryResult.failed 0 "Not connected to database"))
    (execute_query_body query timeout).

(** *** get_table_data *)

(** The query [get_table_data] builds, line by line; the last f-string
    formats [limit], then [offset]. *)
Definition page_statement (table_name : string) (offset limit : Z)
    (order_by : option string) (order_desc : bool) : M t string :=
  let query := "SELECT * FROM " ++ DQ ++ table_name ++ DQ in
  let query :=
    match order_by with
    | Some col =>
        if (col =? "")%string then query
        else
          let direction := if order_desc then "DESC" else "ASC" in
          query ++ " ORDER BY " ++ DQ ++ col ++ DQ ++ " " ++ direction
    | None => query
    end in
  lim <- format_int limit ;;
  off <- format_int offset ;;
  ret (query ++ " LIMIT " ++ lim ++ " OFFSET " ++ off).

Definition get_table_data (table_name : string) (offset limit : Z)
    (order_by : option string) (order_desc : bool) : M t QueryResult.t :=
  fun self =>
    if negb (is_connected self) then
      (Raised (QueryError "Not connected to database"), self)
    else
      (query <- page_statement table_name offset limit order_by order_desc ;;
       execute_query query 30) self.

(** *** get_schema *)

Definition table_info_statement (table_name : string) : string :=
  "PRAGMA table_info('" ++ table_name ++ "')".

Definition foreign_key_list_statement (table_name : string) : string :=
  "PRAGMA foreign_key_list('" ++ table_name ++ "')".

Definition index_list_statement (table_name : string) : string :=
  "PRAGMA index_list('" ++ table_name ++ "')".

Definition index_info_statement (idx_name : value) : string :=
  "PRAGMA index_info('" ++ py_str env idx_name ++ "')".

Definition ddl_statement : string :=
  "SELECT sql FROM sqlite_master WHERE type='table' AND name=?".

Definition unpack_error (expected : Z) : exn :=
  ValueError ("not enough or too many values to unpack (expected "
              ++ Py.decimal expected ++ ")").

(** The loop over the rows of [PRAGMA table_info]: one ColumnInfo per row,
    and the name appended to [primary_keys] when [pk] is truthy. *)
Definition read_column (acc : list ColumnInfo.t * list value) (r : row)
  : M (connection env) (list ColumnInfo.t * list value) :=
  let (columns, primary_keys) := acc in
  match r with
  | [cid; name; data_type; notnull; default_value; pk] =>
      let column :=
        ColumnInfo.mk name
          (if truthy data_type then data_type else VStr "BLOB")
          (negb (truthy notnull))
          default_value
          (truthy pk)
          None in
      ret ((columns ++ [column])%list,
           if truthy pk then (primary_keys ++ [name])%list else primary_keys)
  | _ => raise (unpack_error 6)
  end.

(** The loop over the rows of [PRAGMA foreign_key_list]: one descriptor per
    row, and every column named [from_col] gets its [foreign_key] text. *)
Definition read_foreign_key (acc : list ForeignKey.t * list ColumnInfo.t)
    (r : row) : M (connection env) (list ForeignKey.t * list ColumnInfo.t) :=
  let (foreign_keys, columns) := acc in
  match r with
  | [fk_id; seq; ref_table; from_col; to_col; on_update; on_delete; match_] =>
      ret ((foreign_keys ++ [ForeignKey.mk from_col ref_table to_col])%list,
           map (fun col =>
                  if py_eq env (ColumnInfo.name col) from_col then
                    ColumnInfo.set_foreign_key col
                      (Some (py_str env ref_table ++ "." ++ py_str env to_col))
                  else col)
               columns)
  | _ => raise (unpack_error 8)
  end.

(** [[r[2] for r in cursor.fetchall()]]; a tuple shorter than three cells
    cannot be indexed. *)
Definition third_cell (acc : list value) (r : row)
  : M (connection env) (list value) :=
  match nth_error r 2 with
  | Some c => ret (acc ++ [c])%list
  | None => raise (IndexError "tuple index out of range")
  end.

(** The loop over the rows of [PRAGMA index_list]. *)
Definition read_index (indexes : list IndexInfo.t) (r : row)
  : M (connection env) (list IndexInfo.t) :=
  match r with
  | [idx_seq; idx_name; is_unique; origin; partial] =>
      cursor <- cursor_execute (index_info_statement idx_name) [] ;;
      idx_columns <- for_each (fetchall cursor) [] third_cell ;;
      ret (indexes ++ [IndexInfo.mk idx_name idx_columns (truthy is_unique)])%list
  | _ => raise (unpack_error 5)
  end.

Definition get_schema_body (table_name : string)
  : M (connection env) TableSchema.t :=
  try_except_sqlite3
    (cursor <- cursor_execute (table_info_statement table_name) [] ;;
     '(columns, primary_keys) <-
        for_each (fetchall cursor) ([], []) read_column ;;
     cursor <- cursor_execute (foreign_key_list_statement table_name) [] ;;
     '(foreign_keys, columns) <-
        for_each (fetchall cursor) ([], columns) read_foreign_key ;;
     cursor <- cursor_execute (index_list_statement table_name) [] ;;
     indexes <- for_each (fetchall cursor) [] read_index ;;
     (* self.get_row_count(table_name): the connection is open here *)
     row_count <- get_row_count_body table_name ;;
     cursor <- cursor_execute ddl_statement [VStr table_name] ;;
     let ddl := match fetchone cursor with
                | Some (sql :: _) => sql
                | _ => VStr ""
                end in
     ret (TableSchema.mk table_name columns primary_keys foreign_keys
            indexes row_count ddl))
    (fun e => raise (QueryError ("Failed to get schema for " ++ table_name
                                 ++ ": " ++ e))).

Definition get_schema (table_name : string) : M t TableSchema.t :=
  on_connection
    (raise (QueryError "Not connected to database"))
    (get_schema_body table_name).

(** *** get_tables, get_views *)

(** The texts between the triple quotes, line breaks and indentation
    included. *)
Definition tables_statement : string :=
  NL ++ "                SELECT name FROM sqlite_master"
  ++ NL ++ "                WHERE type='table' AND name NOT LIKE 'sqlite_%'"
  ++ NL ++ "                ORDER BY name"
  ++ NL ++ "            ".

Definition views_statement : string :=
  NL ++ "                SELECT name FROM sqlite_master"
  ++ NL ++ "                WHERE type='view'"
  ++ NL ++ "                ORDER BY name"
  ++ NL ++ "            ".

(** [[row[0] for row in cursor.fetchall()]]; an empty tuple cannot be
    indexed. *)
Definition first_cell (acc : list value) (r : row)
  : M (connection env) (list value) :=
  match r with
  | c :: _ => ret (acc ++ [c])%list
  | [] => raise (IndexError "tuple index out of range")
  end.

Definition get_tables : M t (list value) :=
  on_connection
    (ret [])
    (try_except_sqlite3
       (cursor <- cursor_execute tables_statement [] ;;
        for_each (fetchall cursor) [] first_cell)
       (fun e => raise (QueryError ("Failed to get tables: " ++ e)))).

Definition get_views : M t (list value) :=
  on_connection
    (ret [])
    (try_except_sqlite3
       (cursor <- cursor_execute views_statement [] ;;
        for_each (fetchall cursor) [] first_cell)
       (fun _ => ret [])).

End WithEnv.
End SQLiteConnector.

(* ------------------------------------------------------------------ *)
(** ** connector_factory.py *)

Module ConnectorFactory.
Section WithEnv.

Variable env : Env.

(** [Type[BaseConnector]]: the concrete connector classes of the
    repository; calling one runs its [__init__]. *)
Inductive connector_class : Type :=
| SQLiteConnector_class.

Definition instantiate (c : connector_class) : SQLiteConnector.t env :=
  match c with
  | SQLiteConnector_class => SQLiteConnector.__init__ env
  end.

(** The class attribute [_connectors]: a dict, kept as its items in
    insertion order. *)
Definition registry : Type := list (string * connector_class).

Definition _connectors : registry :=
  [ (".db", SQLiteConnector_class);
    (".sqlite", SQLiteConnector_class);
    (".sqlite3", SQLiteConnector_class) ].

(** [d[k]] *)
Fixpoint getitem (d : registry) (k : string) : option connector_class :=
  match d with
  | [] => None
  | (k', v) :: d' => if (k' =? k)%string then Some v else getitem d' k
  end.

(** [d[k] = v]: an existing key keeps its place. *)
Fixpoint setitem (d : registry) (k : string) (v : connector_class)
  : registry :=
  match d with
  | [] => [(k, v)]
  | (k', v') :: d' =>
      if (k' =? k)%string then (k, v) :: d' else (k', v') :: setitem d' k v
  end.

(** [list(cls._connectors.keys())] *)
Definition get_supported_extensions (d : registry) : list string :=
  map fst d.

Definition create_connector (d : registry) (file_path : string)
  : outcome (SQLiteConnector.t env) :=
  let ext := Py.lower (Py.path_suffix file_path) in
  if negb (Py.str_in ext (map fst d)) then
    let supported := Py.join ", " (get_supported_extensions d) in
    Raised (UnsupportedDatabaseError
              ("Unsupported file type: " ++ ext
               ++ ". Supported types: " ++ supported))
  else
    match getitem d ext with
    | Some connector_class => Returned (instantiate connector_class)
    | None => Raised (KeyError ext)
    end.

Definition is_supported (d : registry) (file_path : string) : bool :=
  Py.str_in (Py.lower (Py.path_suffix file_path)) (map fst d).

Definition register_connector (d : registry) (extension : string)
    (c : connector_class) : registry :=
  let extension :=
    if negb (Py.startswith extension ".") then "." ++ extension
    else extension in
  setitem d (Py.lower extension) c.

(** The states of the registry: the seeded mapping and whatever
    [register_connector] makes of it. *)
Inductive reachable : registry -> Prop :=
| reachable_seed : reachable _connectors
| reachable_register d extension c :
    reachable d -> reachable (register_connector d extension c).

(** [get_file_filter], [get_all_filters] *)
Definition get_file_filter (d : registry) : string :=
  let exts := Py.join " " (map (fun ext => "*" ++ ext) (map fst d)) in
  "Database Files (" ++ exts ++ ")".

Definition get_all_filters (d : registry) : string :=
  Py.join ";;"
    [ get_file_filter d;
      "SQLite Database (*.db *.sqlite *.sqlite3)";
      "All Files (*)" ].

(** [get_database_type]: [create_connector(file_path).database_type] *)
Definition get_database_type (d : registry) (file_path : string)
  : outcome string :=
  match create_connector d file_path with
  | Returned connector => Returned (SQLiteConnector.database_type env connector)
  | Raised e => Raised e
  end.

End WithEnv.
End ConnectorFactory.

(* ------------------------------------------------------------------ *)
(** ** query_history.py *)

(** [execution_time] is a float; [None] is Python's None, which is what a
    NULL in the column reads back as. *)
Module QueryRecord.
Record t : Type := mk {
  id : option Z;
  database_path : string;
  query_text : string;
  timestamp : string;
  execution_time : option float;
  row_count : Z;
  success : bool;
  error_message : string;
}.
Definition set_timestamp (r : t) (ts : string) : t :=
  mk (id r) (database_path r) (query_text r) ts (execution_time r)
     (row_count r) (success r) (error_message r).
End QueryRecord.

Module QueryHistoryDB.

(** *** The store behind [self.db_path]

    One row of table [query_history], with the columns of its CREATE TABLE
    statement, and the database file: the rows in rowid order and the
    counter AUTOINCREMENT keeps of the largest id ever given out. *)
Record stored : Type := mkStored {
  col_id : Z;
  col_database_path : string;
  col_query_text : string;
  col_timestamp : string;
  col_execution_time : option float;   (* REAL; None is NULL *)
  col_row_count : Z;
  col_success : Z;
  col_error_message : string;
}.

Record database : Type := mkDatabase {
  query_history : list stored;
  sqlite_sequence : Z;
}.

(** [_ensure_db_exists] on a fresh file: CREATE TABLE IF NOT EXISTS. *)
Definition empty : database := mkDatabase [] 0.

(** Where the driver raises an [sqlite3.Error] during one method call, if
    it does: while connecting, while executing the statement, or at
    [commit].  Nothing of the call is kept in the database then. *)
Inductive stage : Type := AtConnect | AtExecute | AtCommit.
Definition fault : Type := option (stage * string).

(** *** The SQL of the statements *)

(** The id AUTOINCREMENT gives the next row: one more than the largest id
    ever used. *)
Definition next_id (db : database) : Z :=
  fold_right Z.max (sqlite_sequence db) (map col_id (query_history db)) + 1.

(** [ORDER BY timestamp DESC]: text compared code point by code point; rows
    with equal timestamps stay in rowid order. *)
Fixpoint insert_desc (r : stored) (l : list stored) : list stored :=
  match l with
  | [] => [r]
  | x :: xs =>
      if String.leb (col_timestamp x) (col_timestamp r) then r :: l
      else x :: insert_desc r xs
  end.

Definition order_by_timestamp_desc (l : list stored) : list stored :=
  fold_right insert_desc [] l.

(** [LIMIT ?]: a negative bound is no bound. *)
Definition sql_limit {A : Type} (n : Z) (l : list A) : list A :=
  if n <? 0 then l else firstn (Z.to_nat n) l.

(** [text LIKE pattern]: [%] stands for any run of characters, [_] for any
    one character, and letters match without regard to case. *)
Fixpoint like (pattern : string) : string -> bool :=
  match pattern with
  | EmptyString =>
      fun text => match text with EmptyString => true | _ => false end
  | String c pattern' =>
      if Ascii.eqb c "%" then
        fix any_run (text : string) : bool :=
          like pattern' text ||
          match text with
          | EmptyString => false
          | String _ text' => any_run text'
          end
      else
        fun text =>
          match text with
          | EmptyString => false
          | String d text' =>
              (Ascii.eqb c "_"
               || Ascii.eqb (Py.upper_char c) (Py.upper_char d))
              && like pattern' text'
          end
  end.

(** The QueryRecord built from [row[0]] .. [row[7]]. *)
Definition to_record (r : stored) : QueryRecord.t :=
  QueryRecord.mk (Some (col_id r)) (col_database_path r) (col_query_text r)
    (col_timestamp r) (col_execution_time r) (col_row_count r)
    (negb (col_success r =? 0)) (col_error_message r).

(** [int(b)] *)
Definition int_of_bool (b : bool) : Z := if b then 1 else 0.

(** What the driver stores of a float bound to a REAL column: NULL for
    NaN, and for a double that is a whole number the integer, so that
    -0.0 comes back as 0.0; every other double as it is.  None is stored
    as NULL. *)
Definition bind_real (x : option float) : option float :=
  match x with
  | None => None
  | Some v =>
      match PrimFloat.classify v with
      | FloatClass.NaN => None
      | FloatClass.NZero => Some 0%float
      | _ => Some v
      end
  end.

(** The integers the driver binds: 64 bits, signed.  For any other [int]
    it raises OverflowError, which is no [sqlite3.Error]. *)
Definition fits_int64 (n : Z) : bool :=
  (-9223372036854775808 <=? n) && (n <=? 9223372036854775807).

Definition int_too_large : exn :=
  OverflowError "Python int too large to convert to SQLite INTEGER".

(** *** add_query

    [now] is [datetime.now().isoformat()].  The record passed in is
    updated in place when it has no timestamp, so it is returned too.
    [cursor.execute] prepares the statement, binds the parameters and
    then runs it: a row count beyond 64 bits raises OverflowError at the
    binding, past the handler for [sqlite3.Error], and nothing is written.
    A fault at execute that meets such a count is therefore one of
    preparing the statement; the statement is not run and [commit] is not
    reached. *)
Definition add_query (f : fault) (now : string) (record : QueryRecord.t)
    (db : database) : outcome Z * QueryRecord.t * database :=
  match f with
  | Some (AtConnect, _) => (Returned (-1), record, db)
  | _ =>
      let record :=
        if (QueryRecord.timestamp record =? "")%string
        then QueryRecord.set_timestamp record now else record in
      match f with
      | Some (AtExecute, _) => (Returned (-1), record, db)
      | _ =>
          if negb (fits_int64 (QueryRecord.row_count record))
          then (Raised int_too_large, record, db)
          else
            match f with
            | Some _ => (Returned (-1), record, db)
            | None =>
                let record_id := next_id db in
                let r := mkStored record_id
                           (QueryRecord.database_path record)
                           (QueryRecord.query_text record)
                           (QueryRecord.timestamp record)
                           (bind_real (QueryRecord.execution_time record))
                           (QueryRecord.row_count record)
                           (int_of_bool (QueryRecord.success record))
                           (QueryRecord.error_message record) in
                (Returned record_id, record,
                 mkDatabase (query_history db ++ [r])%list record_id)
            end
      end
  end.

(** *** get_history *)
Definition get_history (f : fault) (limit : Z)
    (database_path : option string) (db : database) : list QueryRecord.t :=
  match f with
  | Some _ => []
  | None =>
      let selected :=
        match database_path with
        | Some p =>
            if (p =? "")%string then query_history db
            else filter (fun r => (col_database_path r =? p)%string)
                        (query_history db)
        | None => query_history db
        end in
      map to_record (sql_limit limit (order_by_timestamp_desc selected))
  end.

(** *** search_history *)
Definition search_history (f : fault) (search_term : string) (limit : Z)
    (db : database) : list QueryRecord.t :=
  match f with
  | Some _ => []
  | None =>
      let selected :=
        filter (fun r => like ("%" ++ search_term ++ "%") (col_query_text r))
               (query_history db) in
      map to_record (sql_limit limit (order_by_timestamp_desc selected))
  end.

(** *** delete_record *)
Definition delete_record (f : fault) (record_id : Z) (db : database)
  : bool * database :=
  match f with
  | Some _ => (false, db)
  | None =>
      let kept := filter (fun r => negb (col_id r =? record_id))
                         (query_history db) in
      let rowcount :=
        Z.of_nat (List.length (query_history db) - List.length kept) in
      (0 <? rowcount, mkDatabase kept (sqlite_sequence db))
  end.

(** *** clear_history *)
Definition clear_history (f : fault) (db : database) : bool * database :=
  match f with
  | Some _ => (false, db)
  | None => (true, mkDatabase [] (sqlite_sequence db))
  end.

(** *** get_statistics

    The dict it returns, [None] for the empty dict of the failure case.
    [AVG] is the driver's aggregate over the selected doubles that are
    not NULL, NULL when there is none; it is left to the driver. *)
Record statistics : Type := mkStatistics {
  total : Z;
  success : Z;
  failed : Z;
  avg_execution_time : float;
  unique_databases : Z;
}.

Section Statistics.

Variable AVG : list float -> option float.

Definition get_statistics (f : fault) (db : database) : option statistics :=
  match f with
  | Some _ => None
  | None =>
      let rows := query_history db in
      let total := Z.of_nat (List.length rows) in
      let succeeded := filter (fun r => col_success r =? 1) rows in
      let success := Z.of_nat (List.length succeeded) in
      (* cursor.fetchone()[0] or 0.0 *)
      let avg_time :=
        match AVG (flat_map (fun r => match col_execution_time r with
                                      | Some x => [x]
                                      | None => []
                                      end) succeeded) with
        | Some x => if truthy (VFloat x) then x else 0%float
        | None => 0%float
        end in
      let unique_dbs :=
        Z.of_nat (List.length
                    (nodup string_dec (map col_database_path rows))) in
      Some (mkStatistics total success (total - success) avg_time unique_dbs)
  end.

End Statistics.

(** *** Sequences of calls

    One call that may change the store, and the store a sequence of such
    calls leaves, with the ids its [add_query] calls returned. *)
Inductive call : Type :=
| AddQuery (f : fault) (now : string) (record : QueryRecord.t)
| DeleteRecord (f : fault) (record_id : Z)
| ClearHistory (f : fault).

Definition after_call (db : database) (c : call) : database :=
  match c with
  | AddQuery f now record => snd (add_query f now record db)
  | DeleteRecord f record_id => snd (delete_record f record_id db)
  | ClearHistory f => snd (clear_history f db)
  end.

Definition after_calls (db : database) (cs : list call) : database :=
  fold_left after_call cs db.

Fixpoint ids_returned (db : database) (cs : list call) : list Z :=
  match cs with
  | [] => []
  | c :: cs' =>
      match c with
      | AddQuery f now record =>
          match fst (fst (add_query f now record db)) with
          | Returned i => i :: ids_returned (after_call db c) cs'
          | Raised _ => ids_returned (after_call db c) cs'
          end
      | _ => ids_returned (after_call db c) cs'
      end
  end.

End QueryHistoryDB.

(* ------------------------------------------------------------------ *)
(** ** ui/data_viewer.py: the pagination of DataViewer

    The attributes that decide which page is asked of the connector, and
    what each slot does to them.  Of [self.connector] only whether it is
    set is kept; the Qt widgets, which show these attributes, are left
    out. *)

Module DataViewer.

Definition PAGE_SIZES : list Z := [50; 100; 200; 500; 1000].

Record t : Type := mk {
  connector : bool;
  table_name : option string;
  current_page : Z;
  page_size : Z;
  total_rows : Z;
  order_by : option string;
  order_desc : bool;
}.

Definition set_current_page (self : t) (page : Z) : t :=
  mk (connector self) (table_name self) page (page_size self)
     (total_rows self) (order_by self) (order_desc self).

(** [max(1, (self.total_rows + self.page_size - 1) // self.page_size)] *)
Definition total_pages (self : t) : Z :=
  Z.max 1 ((total_rows self + page_size self - 1) / page_size self).

(** The arguments [_load_data] passes to [get_table_data]: table, offset,
    limit, order_by, order_desc; none when no table is set. *)
Definition _load_data (self : t)
  : option (string * Z * Z * option string * bool) :=
  if negb (connector self) then None
  else
    match table_name self with
    | None => None
    | Some name =>
        if (name =? "")%string then None
        else
          let offset := (current_page self - 1) * page_size self in
          Some (name, offset, page_size self, order_by self, order_desc self)
    end.

Definition _on_first_page (self : t) : t :=
  if negb (current_page self =? 1) then set_current_page self 1 else self.

Definition _on_prev_page (self : t) : t :=
  if 1 <? current_page self
  then set_current_page self (current_page self - 1) else self.

Definition _on_next_page (self : t) : t :=
  if current_page self <? total_pages self
  then set_current_page self (current_page self + 1) else self.

Definition _on_last_page (self : t) : t :=
  if negb (current_page self =? total_pages self)
  then set_current_page self (total_pages self) else self.

Definition _on_page_changed (self : t) (page : Z) : t :=
  if negb (page =? current_page self) && (1 <=? page) then
    if page <=? total_pages self then set_current_page self page else self
  else self.

Definition _on_header_clicked (self : t) (column_name : string) : t :=
  match table_name self with
  | None => self
  | Some name =>
      if (name =? "")%string then self
      else
        match order_by self with
        | Some current =>
            if (current =? column_name)%string then
              mk (connector self) (table_name self) 1 (page_size self)
                 (total_rows self) (order_by self) (negb (order_desc self))
            else
              mk (connector self) (table_name self) 1 (page_size self)
                 (total_rows self) (Some column_name) false
        | None =>
            mk (connector self) (table_name self) 1 (page_size self)
               (total_rows self) (Some column_name) false
        end
  end.

End DataViewer.

(* ------------------------------------------------------------------ *)
(** ** ui/history_viewer.py: the query text shown in the history table *)

Module HistoryViewer.

(** [s.replace('\n', ' ')] *)
Definition replace_newlines (s : string) : string :=
  Py.map_chars (fun c => if Ascii.eqb c "010" then " "%char else c) s.

(** In [_display_records]:
      query_text = record.query_text.replace('\n', ' ').strip()
      if len(query_text) > 100: query_text = query_text[:100] + "..." *)
Definition shown_query_text (query_text : string) : string :=
  let query_text := Py.strip (replace_newlines query_text) in
  if (100 <? String.length query_text)%nat
  then substring 0 100 query_text ++ "..."
  else query_text.

End HistoryViewer.

(** Every character of a text satisfies a test. *)
Fixpoint all_chars (p : ascii -> bool) (s : string) : bool :=
  match s with
  | EmptyString => true
  | String c s' => p c && all_chars p s'
  end.

(* ------------------------------------------------------------------ *)
(** ** A small driver to run the connector on

    An instance of [Env] over databases held as lists.  It reads the
    statements listed below, written as one word after another with the
    names of tables and columns either bare or between double quotes, and
    answers them as SQLite 3.40 does under Python's sqlite3 module:

      - [PRAGMA busy_timeout = <n>], [PRAGMA foreign_keys = ON|OFF],
        [PRAGMA table_info('<t>')], [foreign_key_list('<t>')],
        [index_list('<t>')], [index_info('<i>')];
      - the count of the rows of <t>, as [get_row_count] writes it;
      - [SELECT * FROM <t>], with [ORDER BY <c> ASC|DESC] if wanted;
      - [SELECT sql FROM sqlite_master WHERE type='table' AND name=?];
      - [SELECT <integer>];
      - any of these SELECTs followed by [LIMIT <n> OFFSET <m>];
      - [DELETE FROM <t>], which fails on a locked database and, with
        foreign keys switched on, when a row of another table refers to a
        row of <t>;
      - [CREATE TABLE <t> (<c>)];
      - a text whose first word is a name that begins no statement.

    Every other text is outside what it reads and is answered with the
    error of [not_read], which names the driver: nothing is claimed of
    SQLite there. *)

Module MiniSqlite.

Record column : Type := mkColumn {
  c_name : string;
  c_type : string;
  c_notnull : bool;
  c_pk : Z;   (* 0, or the 1-based position in the primary key *)
}.

Record index : Type := mkIndex {
  i_name : string;
  i_unique : bool;
  i_origin : string;
  i_columns : list string;
}.

Record fkey : Type := mkFkey {
  f_from : string;
  f_table : string;
  f_to : value;   (* None when the parent column is left out *)
}.

Record table : Type := mkTable {
  t_name : string;
  t_sql : string;
  t_columns : list column;
  t_fkeys : list fkey;
  t_indexes : list index;
  t_rows : list row;
}.

Record conn : Type := mkConn {
  tables : list table;
  locked : bool;         (* another connection holds the write lock *)
  foreign_keys : bool;   (* PRAGMA foreign_keys, off on a new connection *)
  clock : float;         (* seconds; every call of the driver takes one *)
}.

Definition files : Type := list (string * list table).

(** *** Names *)

(** Names of tables, columns and indexes are compared without regard to
    case. *)
Definition same_name (a b : string) : bool :=
  (Py.lower a =? Py.lower b)%string.

Fixpoint find_table (n : string) (ts : list table) : option table :=
  match ts with
  | [] => None
  | t :: ts' => if same_name (t_name t) n then Some t else find_table n ts'
  end.

Fixpoint find_index (n : string) (ts : list table)
  : option (table * index) :=
  match ts with
  | [] => None
  | t :: ts' =>
      match find (fun i => same_name (i_name i) n) (t_indexes t) with
      | Some i => Some (t, i)
      | None => find_index n ts'
      end
  end.

Fixpoint position (n : string) (cs : list column) : option nat :=
  match cs with
  | [] => None
  | c :: cs' =>
      if same_name (c_name c) n then Some O
      else option_map S (position n cs')
  end.

(** The keywords of SQLite. *)
Definition keywords : list string :=
  [ "ABORT"; "ACTION"; "ADD"; "AFTER"; "ALL"; "ALTER"; "ALWAYS"; "ANALYZE";
    "AND"; "AS"; "ASC"; "ATTACH"; "AUTOINCREMENT"; "BEFORE"; "BEGIN";
    "BETWEEN"; "BY"; "CASCADE"; "CASE"; "CAST"; "CHECK"; "COLLATE";
    "COLUMN"; "COMMIT"; "CONFLICT"; "CONSTRAINT"; "CREATE"; "CROSS";
    "CURRENT"; "CURRENT_DATE"; "CURRENT_TIME"; "CURRENT_TIMESTAMP";
    "DATABASE"; "DEFAULT"; "DEFERRABLE"; "DEFERRED"; "DELETE"; "DESC";
    "DETACH"; "DISTINCT"; "DO"; "DROP"; "EACH"; "ELSE"; "END"; "ESCAPE";
    "EXCEPT"; "EXCLUDE"; "EXCLUSIVE"; "EXISTS"; "EXPLAIN"; "FAIL"; "FILTER";
    "FIRST"; "FOLLOWING"; "FOR"; "FOREIGN"; "FROM"; "FULL"; "GENERATED";
    "GLOB"; "GROUP"; "GROUPS"; "HAVING"; "IF"; "IGNORE"; "IMMEDIATE"; "IN";
    "INDEX"; "INDEXED"; "INITIALLY"; "INNER"; "INSERT"; "INSTEAD";
    "INTERSECT"; "INTO"; "IS"; "ISNULL"; "JOIN"; "KEY"; "LAST"; "LEFT";
    "LIKE"; "LIMIT"; "MATCH"; "MATERIALIZED"; "NATURAL"; "NO"; "NOT";
    "NOTHING"; "NOTNULL"; "NULL"; "NULLS"; "OF"; "OFFSET"; "ON"; "OR";
    "ORDER"; "OTHERS"; "OUTER"; "OVER"; "PARTITION"; "PLAN"; "PRAGMA";
    "PRECEDING"; "PRIMARY"; "QUERY"; "RAISE"; "RANGE"; "RECURSIVE";
    "REFERENCES"; "REGEXP"; "REINDEX"; "RELEASE"; "RENAME"; "REPLACE";
    "RESTRICT"; "RETURNING"; "RIGHT"; "ROLLBACK"; "ROW"; "ROWS";
    "SAVEPOINT"; "SELECT"; "SET"; "TABLE"; "TEMP"; "TEMPORARY"; "THEN";
    "TIES"; "TO"; "TRANSACTION"; "TRIGGER"; "UNBOUNDED"; "UNION"; "UNIQUE";
    "UPDATE"; "USING"; "VACUUM"; "VALUES"; "VIEW"; "VIRTUAL"; "WHEN";
    "WHERE"; "WINDOW"; "WITH"; "WITHOUT" ].

(** The keywords a statement can begin with. *)
Definition statement_keywords : list string :=
  [ "ALTER"; "ANALYZE"; "ATTACH"; "BEGIN"; "COMMIT"; "CREATE"; "DELETE";
    "DETACH"; "DROP"; "END"; "EXPLAIN"; "INSERT"; "PRAGMA"; "REINDEX";
    "RELEASE"; "REPLACE"; "ROLLBACK"; "SAVEPOINT"; "SELECT"; "UPDATE";
    "VACUUM"; "VALUES"; "WITH" ].

Definition is_letter (c : ascii) : bool :=
  Py.is_lower c || Py.is_upper c || Ascii.eqb c "_".

Definition is_digit (c : ascii) : bool :=
  let n := nat_of_ascii c in ((48 <=? n) && (n <=? 57))%nat.

(** A word of letters, digits and underscores that begins with no digit. *)
Definition is_word (w : string) : bool :=
  match w with
  | EmptyString => false
  | String c w' =>
      is_letter c && all_chars (fun d => is_letter d || is_digit d) w'
  end.

(** Names the engine keeps for itself: its catalog and its table-valued
    functions. *)
Definition system_name (n : string) : bool :=
  let n := Py.lower n in
  String.prefix "sqlite_" n || String.prefix "pragma_" n
  || String.prefix "json_" n || (n =? "dbstat")%string.

(** [s] without the given prefix and suffix, when it has both. *)
Definition between (pre suf s : string) : option string :=
  let n := String.length s in
  let a := String.length pre in
  let b := String.length suf in
  if (String.prefix pre s
      && (a + b <=? n)%nat
      && (substring (n - b) b s =? suf)%string)%bool
  then Some (substring a (n - a - b) s) else None.

(** The name a word stands for: a word that is no keyword, or any text
    without a double quote between double quotes. *)
Definition name_of (w : string) : option string :=
  match between DQ DQ w with
  | Some n =>
      if (n =? "")%string || Py.contains n DQ || system_name n then None
      else Some n
  | None =>
      if is_word w && negb (Py.str_in (Py.upper w) keywords)
         && negb (system_name w)
      then Some w else None
  end.

(** *** Words and numbers *)

(** Words of a statement, split at blanks. *)
Fixpoint words_aux (cur : string) (s : string) : list string :=
  let flush := if (cur =? "")%string then [] else [cur] in
  match s with
  | EmptyString => flush
  | String c s' =>
      if Py.isspace c then (flush ++ words_aux "" s')%list
      else words_aux (cur ++ String c "") s'
  end.

Definition words (s : string) : list string := words_aux "" s.

(** An integer written in digits, with a minus sign if negative. *)
Definition integer (s : string) : option Z :=
  option_map Z.of_int (NilZero.int_of_string s).

(** The integers of the engine: 64 bits, signed. *)
Definition int64 (n : Z) : bool :=
  (-9223372036854775808 <=? n) && (n <=? 9223372036854775807).

(** *** Cursors *)

Definition no_rows : Cursor := mkCursor None [] (-1).

Definition result_set (names : list string) (rs : list row) : Cursor :=
  mkCursor (Some names) rs (-1).

(** The answer to a text the driver does not read. *)
Definition not_read (sql : string) : result Cursor :=
  Error ("MiniSqlite does not read: " ++ sql).

Definition no_such_table (n : string) : result Cursor :=
  Error ("no such table: " ++ n).

(** *** Sorting and cutting *)

(** The order of cells: NULL first, then numbers, then text byte by
    byte. *)
Definition cell_leb (a b : value) : bool :=
  match a, b with
  | VNone, _ => true
  | _, VNone => false
  | VInt x, VInt y => x <=? y
  | VInt _, _ => true
  | _, VInt _ => false
  | VStr x, VStr y => String.leb x y
  | _, _ => true
  end.

Fixpoint insert_row (le : row -> row -> bool) (r : row) (l : list row)
  : list row :=
  match l with
  | [] => [r]
  | x :: xs => if le r x then r :: l else x :: insert_row le r xs
  end.

Definition sort_rows (k : nat) (desc : bool) (l : list row) : list row :=
  let key r := nth k r VNone in
  let le a b := if desc then cell_leb (key b) (key a)
                else cell_leb (key a) (key b) in
  fold_right (insert_row le) [] l.

(** The first [n] rows of a list, and the rows after them. *)
Fixpoint take (n : Z) (l : list row) : list row :=
  match l with
  | [] => []
  | r :: l' => if n <=? 0 then [] else r :: take (n - 1) l'
  end.

Fixpoint drop (n : Z) (l : list row) : list row :=
  match l with
  | [] => []
  | r :: l' => if n <=? 0 then l else drop (n - 1) l'
  end.

(** [LIMIT n OFFSET m]: a negative limit is no limit, a negative offset is
    no offset. *)
Definition window (limit offset : Z) (l : list row) : list row :=
  let l := drop offset l in
  if limit <? 0 then l else take limit l.

(** The last four words of a statement, when they are a LIMIT and an
    OFFSET clause, and the words before them. *)
Definition split_window (ws : list string)
  : option (list string * string * string) :=
  match rev ws with
  | off :: kw2 :: lim :: kw1 :: body =>
      if ((Py.upper kw1 =? "LIMIT") && (Py.upper kw2 =? "OFFSET"))%string
      then Some (rev body, lim, off) else None
  | _ => None
  end.

(** *** The pragmas that describe a table *)

Definition table_info (t : table) : list row :=
  map (fun '(i, c) =>
         [VInt (Z.of_nat i); VStr (c_name c); VStr (c_type c);
          VInt (if c_notnull c then 1 else 0); VNone; VInt (c_pk c)])
      (combine (seq 0 (List.length (t_columns t))) (t_columns t)).

Definition foreign_key_list (t : table) : list row :=
  map (fun '(i, f) =>
         [VInt (Z.of_nat i); VInt 0; VStr (f_table f); VStr (f_from f);
          f_to f; VStr "NO ACTION"; VStr "NO ACTION"; VStr "NONE"])
      (combine (seq 0 (List.length (t_fkeys t))) (t_fkeys t)).

Definition index_list (t : table) : list row :=
  map (fun '(i, x) =>
         [VInt (Z.of_nat i); VStr (i_name x);
          VInt (if i_unique x then 1 else 0); VStr (i_origin x); VInt 0])
      (combine (seq 0 (List.length (t_indexes t))) (t_indexes t)).

Definition index_info (t : table) (x : index) : list row :=
  map (fun '(i, n) =>
         [VInt (Z.of_nat i);
          VInt match position n (t_columns t) with
               | Some k => Z.of_nat k
               | None => -1
               end;
          VStr n])
      (combine (seq 0 (List.length (i_columns x))) (i_columns x)).

(** The name between the quotes of a pragma's argument: of a table, or of
    an index. *)
Definition pragma_argument (pragma p : string) (of_table : bool)
  : option string :=
  match between (pragma ++ "('") "')" p with
  | Some n =>
      if Py.contains n "'" || (of_table && system_name n) then None
      else Some n
  | None => None
  end.

Definition run_pragma (ts : list table) (sql p : string) : result Cursor :=
  match pragma_argument "table_info" p true,
        pragma_argument "foreign_key_list" p true,
        pragma_argument "index_list" p true,
        pragma_argument "index_info" p false with
  | Some n, _, _, _ =>
      Ok (result_set ["cid"; "name"; "type"; "notnull"; "dflt_value"; "pk"]
            match find_table n ts with
            | Some t => table_info t
            | None => []
            end)
  | _, Some n, _, _ =>
      Ok (result_set ["id"; "seq"; "table"; "from"; "to"; "on_update";
                      "on_delete"; "match"]
            match find_table n ts with
            | Some t => foreign_key_list t
            | None => []
            end)
  | _, _, Some n, _ =>
      Ok (result_set ["seq"; "name"; "unique"; "origin"; "partial"]
            match find_table n ts with
            | Some t => index_list t
            | None => []
            end)
  | _, _, _, Some n =>
      Ok (result_set ["seqno"; "cid"; "name"]
            match find_index n ts with
            | Some (t, x) => index_info t x
            | None => []
            end)
  | _, _, _, _ => not_read sql
  end.

(** *** SELECT * FROM <t> [ORDER BY <c> ASC|DESC]

    A quoted name that is no column of the table is read as a text, by
    which nothing is sorted; a bare one is an error.  The hidden column
    of row ids is not read. *)
Definition select_all (ts : list table) (sql qt : string)
    (order : option (string * string)) : result Cursor :=
  match name_of qt with
  | None => not_read sql
  | Some n =>
      match find_table n ts with
      | None => no_such_table n
      | Some t =>
          let names := map c_name (t_columns t) in
          match order with
          | None => Ok (result_set names (t_rows t))
          | Some (qc, dir) =>
              let desc := (dir =? "DESC")%string in
              match name_of qc with
              | None => not_read sql
              | Some c =>
                  if negb (desc || (dir =? "ASC")%string) then not_read sql
                  else
                    match position c (t_columns t) with
                    | Some k =>
                        Ok (result_set names (sort_rows k desc (t_rows t)))
                    | None =>
                        if Py.str_in (Py.lower c) ["rowid"; "oid"; "_rowid_"]
                        then not_read sql
                        else if String.prefix DQ qc
                        then Ok (result_set names (t_rows t))
                        else Error ("no such column: " ++ c)
                    end
              end
          end
      end
  end.

(** *** DELETE FROM <t> *)

Definition is_null (v : value) : bool :=
  match v with VNone => true | _ => false end.

Definition same_cell (a b : value) : bool :=
  match a, b with
  | VInt x, VInt y => x =? y
  | VStr x, VStr y => (x =? y)%string
  | _, _ => false
  end.

(** The column of the parent a foreign key refers to: the one it names,
    or the parent's primary key. *)
Definition parent_column (f : fkey) (parent : table) : option nat :=
  match f_to f with
  | VStr c => position c (t_columns parent)
  | _ =>
      match filter (fun c => negb (c_pk c =? 0)) (t_columns parent) with
      | [c] => position (c_name c) (t_columns parent)
      | _ => None
      end
  end.

(** Whether a row of another table refers to a row of [parent], through a
    foreign key of that table; [None] when a key names a column that does
    not exist. *)
Definition referred_to_by (parent child : table) (f : fkey) : option bool :=
  if negb (same_name (f_table f) (t_name parent)) then Some false
  else
    match position (f_from f) (t_columns child), parent_column f parent with
    | Some i, Some j =>
        Some (existsb
                (fun r =>
                   negb (is_null (nth i r VNone))
                   && existsb (fun p => same_cell (nth j p VNone)
                                                  (nth i r VNone))
                              (t_rows parent))
                (t_rows child))
    | _, _ => None
    end.

Definition referred_to (parent : table) (ts : list table) : option bool :=
  fold_right
    (fun child acc =>
       if same_name (t_name child) (t_name parent) then acc
       else
         fold_right
           (fun f acc =>
              match referred_to_by parent child f, acc with
              | Some b, Some b' => Some (b || b')
              | _, _ => None
              end)
           acc (t_fkeys child))
    (Some false) ts.

Definition without_rows (n : string) (ts : list table) : list table :=
  map (fun u =>
         if same_name (t_name u) n
         then mkTable (t_name u) (t_sql u) (t_columns u) (t_fkeys u)
                (t_indexes u) []
         else u) ts.

Definition delete_from (h : conn) (sql qt : string) : result Cursor * conn :=
  match name_of qt with
  | None => (not_read sql, h)
  | Some n =>
      match find_table n (tables h) with
      | None => (no_such_table n, h)
      | Some t =>
          if locked h then (Error "database is locked", h)
          else
            match (if foreign_keys h then referred_to t (tables h)
                   else Some false) with
            | None => (not_read sql, h)
            | Some true => (Error "FOREIGN KEY constraint failed", h)
            | Some false =>
                (Ok (mkCursor None [] (Z.of_nat (List.length (t_rows t)))),
                 mkConn (without_rows n (tables h)) (locked h)
                   (foreign_keys h) (clock h))
            end
      end
  end.

(** *** CREATE TABLE <t> (<c>), written just so *)

Definition create_table (h : conn) (sql n paren : string)
  : result Cursor * conn :=
  match name_of n, between "(" ")" paren with
  | Some _, Some c =>
      if negb (is_word n) || negb (is_word c)
         || Py.str_in (Py.upper c) keywords
         || negb (Py.strip sql =? "CREATE TABLE " ++ n ++ " (" ++ c ++ ")")%string
      then (not_read sql, h)
      else
        match find_table n (tables h) with
        | Some _ => (Error ("table " ++ n ++ " already exists"), h)
        | None =>
            if locked h then (Error "database is locked", h)
            else
              (Ok no_rows,
               mkConn (tables h
                       ++ [mkTable n (Py.strip sql) [mkColumn c "" false 0]
                             [] [] []])%list
                 (locked h) (foreign_keys h) (clock h))
        end
  | _, _ => (not_read sql, h)
  end.

(** *** One statement *)

(** A statement without LIMIT and OFFSET, as its words: the cursor, and
    the connection afterwards. *)
Definition run_plain (h : conn) (sql : string) (ws : list string)
    (params : list value) : result Cursor * conn :=
  let ts := tables h in
  match params, map (fun w => (Py.upper w, w)) ws with
  | [VStr n],
    [("SELECT", _); ("SQL", _); ("FROM", _); ("SQLITE_MASTER", _);
     ("WHERE", _); ("TYPE='TABLE'", _); ("AND", _); ("NAME=?", _)] =>
      (Ok (result_set ["sql"]
             match find (fun t => (t_name t =? n)%string) ts with
             | Some t => [[VStr (t_sql t)]]
             | None => []
             end), h)
  | [], [("PRAGMA", _); ("BUSY_TIMEOUT", _); ("=", _); (_, n)] =>
      match integer n with
      | Some ms =>
          if (0 <=? ms) && (ms <=? 2147483647)
          then (Ok (result_set ["timeout"] [[VInt ms]]), h)
          else (not_read sql, h)
      | None => (not_read sql, h)
      end
  | [], [("PRAGMA", _); ("FOREIGN_KEYS", _); ("=", _); (flag, _)] =>
      if (flag =? "ON")%string
      then (Ok no_rows, mkConn ts (locked h) true (clock h))
      else if (flag =? "OFF")%string
      then (Ok no_rows, mkConn ts (locked h) false (clock h))
      else (not_read sql, h)
  | [], [("PRAGMA", _); (_, p)] => (run_pragma ts sql p, h)
  | [], [("SELECT", _); ("COUNT(*)", count); ("FROM", _); (_, qt)] =>
      match name_of qt with
      | Some n =>
          match find_table n ts with
          | Some t =>
              (Ok (result_set [count]
                     [[VInt (Z.of_nat (List.length (t_rows t)))]]), h)
          | None => (no_such_table n, h)
          end
      | None => (not_read sql, h)
      end
  | [], [("SELECT", _); ("*", _); ("FROM", _); (_, qt)] =>
      (select_all ts sql qt None, h)
  | [], [("SELECT", _); ("*", _); ("FROM", _); (_, qt);
         ("ORDER", _); ("BY", _); (_, qc); (dir, _)] =>
      (select_all ts sql qt (Some (qc, dir)), h)
  | [], [("SELECT", _); (_, lit)] =>
      match integer lit with
      | Some n =>
          if int64 n then (Ok (result_set [lit] [[VInt n]]), h)
          else (not_read sql, h)
      | None => (not_read sql, h)
      end
  | [], [("DELETE", _); ("FROM", _); (_, qt)] => delete_from h sql qt
  | [], [("CREATE", _); ("TABLE", _); (_, n); (_, paren)] =>
      create_table h sql n paren
  | [], (first, w) :: _ =>
      if is_word w && negb (Py.str_in first statement_keywords)
      then (Error ("near " ++ DQ ++ w ++ DQ ++ ": syntax error"), h)
      else (not_read sql, h)
  | _, _ => (not_read sql, h)
  end.

(** The rows of a cursor cut by [LIMIT limit OFFSET offset]; numbers
    beyond 64 bits are no integers to the engine. *)
Definition cut (limit offset : Z) (answer : result Cursor * conn)
  : result Cursor * conn :=
  match answer with
  | (Ok c, h) =>
      if int64 limit && int64 offset
      then (Ok (mkCursor (description c) (window limit offset (pending c))
                  (rowcount c)), h)
      else (Error "datatype mismatch", h)
  | (Error msg, h) => (Error msg, h)
  end.

(** One statement on a connection. *)
Definition run (h : conn) (sql : string) (params : list value)
  : result Cursor * conn :=
  match split_window (words sql) with
  | Some (body, lim, off) =>
      match body, integer lim, integer off with
      | first :: _, Some limit, Some offset =>
          if (Py.upper first =? "SELECT")%string
          then cut limit offset (run_plain h sql body params)
          else (not_read sql, h)
      | _, _, _ => (not_read sql, h)
      end
  | None => run_plain h sql (words sql) params
  end.

Definition tick (h : conn) : conn :=
  mkConn (tables h) (locked h) (foreign_keys h) (clock h + 1)%float.

Definition mini_execute (h : conn) (sql : string) (params : list value)
  : result Cursor * conn :=
  let (r, h') := run h sql params in (r, tick h').

Definition mini_connect (fs : files) (path : string) : result conn :=
  match find (fun f => (fst f =? path)%string) fs with
  | Some (_, ts) => Ok (mkConn ts false false 0%float)
  | None => Error "unable to open database file"
  end.

(** [str()] of a cell; the engine's integers have 19 digits at most. *)
Definition mini_str (v : value) : string :=
  match v with
  | VNone => "None"
  | VInt n => Py.decimal n
  | VStr s => s
  | VFloat _ => "<float>"
  | VBytes _ => "<bytes>"
  end.

Definition mini_eq (a b : value) : bool :=
  match a, b with
  | VNone, VNone => true
  | VInt x, VInt y => x =? y
  | VStr x, VStr y => (x =? y)%string
  | VFloat x, VFloat y => PrimFloat.eqb x y
  | _, _ => false
  end.

Definition env : Env :=
  mkEnv files conn
    (fun fs path => existsb (fun f => (fst f =? path)%string) fs)
    mini_connect
    mini_execute
    (fun h => (Ok tt, tick h))
    (fun _ => Ok tt)
    clock
    mini_str
    mini_eq.

(** *** A sample database *)

Definition people : table :=
  mkTable "t" "CREATE TABLE t (id INTEGER PRIMARY KEY, name TEXT)"
    [ mkColumn "id" "INTEGER" false 1; mkColumn "name" "TEXT" false 0 ]
    [] []
    [ [VInt 1; VStr "ada"]; [VInt 2; VStr "bob"]; [VInt 3; VStr "cy"] ].

Definition orders : table :=
  mkTable "orders"
    "CREATE TABLE orders (region TEXT, no INTEGER, who INTEGER REFERENCES t(id), note, PRIMARY KEY (region, no))"
    [ mkColumn "region" "TEXT" false 1; mkColumn "no" "INTEGER" false 2;
      mkColumn "who" "INTEGER" false 0; mkColumn "note" "" false 0 ]
    [ mkFkey "who" "t" (VStr "id") ]
    [ mkIndex "sqlite_autoindex_orders_1" true "pk" ["region"; "no"] ]
    [ [VStr "north"; VInt 1; VInt 2; VNone] ].

Definition sample : list table := [people; orders].

Definition disk : files :=
  [("/data/sample.db", sample); ("/data/notes.txt", [])].

(** The connection [connect] leaves on the sample file, with foreign keys
    switched on, and the same while another connection holds the write
    lock. *)
Definition fresh : conn := mkConn sample false true 1%float.

Definition opened : SQLiteConnector.t env :=
  SQLiteConnector.mk env (Some fresh) (Some "/data/sample.db").

Definition opened_locked : SQLiteConnector.t env :=
  SQLiteConnector.mk env (Some (mkConn sample true true 1%float))
                     (Some "/data/sample.db").

(** The state a statement leaves and the cursor it yields (an empty one
    when the statement fails). *)
Definition state_after (h : conn) (sql : string) : conn :=
  snd (mini_execute h sql []).

Definition cursor_after (h : conn) (sql : string) : Cursor :=
  match fst (mini_execute h sql []) with
  | Ok c => c
  | Error _ => no_rows
  end.

(** Every row of every table, table by table. *)
Definition all_rows (ts : list table) : list row :=
  List.concat (map t_rows ts).

Definition tables_of (c : SQLiteConnector.t env) : list table :=
  match SQLiteConnector._connection env c with
  | Some h => tables h
  | None => []
  end.

End MiniSqlite.

(* ------------------------------------------------------------------ *)
(** ** A sample history *)

Module SampleHistory.
Import QueryHistoryDB.

Definition selected_one : QueryRecord.t :=
  QueryRecord.mk None "/data/sample.db" "SELECT 1"
    "2024-05-01T10:00:00" (Some 0.5%float) 1 true "".

Definition failed_delete : QueryRecord.t :=
  QueryRecord.mk None "/data/sample.db" "DELETE FROM nope"
    "" (Some 0.25%float) 0 false "no such table: nope".

(** A record timed at the negative zero, as [0.0 * -1] is. *)
Definition timed_negative_zero : QueryRecord.t :=
  QueryRecord.mk None "/data/sample.db" "SELECT 1"
    "2024-05-01T10:00:00" (Some (-0)%float) 1 true "".

Definition one : database :=
  snd (add_query None "2024-05-01T10:00:01" selected_one empty).

Definition two : database :=
  snd (add_query None "2024-05-02T09:30:00" failed_delete one).

End SampleHistory.

(* ------------------------------------------------------------------ *)
(** ** More samples *)

Module Samples.
Import MiniSqlite.

(** The driver [env] once the files on disk can no longer be opened. *)
Definition unreadable : Env :=
  mkEnv files conn
    (path_exists env)
    (fun _ _ => Error "unable to open database file")
    mini_execute
    (commit env)
    (close env)
    clock
    mini_str
    mini_eq.

(** A connector opened on the sample file before that. *)
Definition opened_before : SQLiteConnector.t unreadable :=
  SQLiteConnector.mk unreadable (Some fresh) (Some "/data/sample.db").

(** A viewer on page 2 of table [t], of 120 rows shown 50 a page. *)
Definition viewer : DataViewer.t :=
  DataViewer.mk true (Some "t") 2 50 120 None false.

(** The registry after [register_connector("MDB", SQLiteConnector)]. *)
Definition with_mdb : ConnectorFactory.registry :=
  ConnectorFactory.register_connector ConnectorFactory._connectors "MDB"
    ConnectorFactory.SQLiteConnector_class.

End Samples.

(* ------------------------------------------------------------------ *)
(** ** Vocabulary of the statements below *)


(** A number Python turns into text: one of at most 4300 digits. *)
Definition formats (n : Z) : Prop := Z.abs n < Py.int_str_bound.

(** SQL: every row of a table, sorted by one column if that is asked. *)
Definition select_rows (table_name : string) (order : option (string * bool))
  : string :=
  "SELECT * FROM " ++ DQ ++ table_name ++ DQ
  ++ match order with
     | Some (col, desc) =>
         " ORDER BY " ++ DQ ++ col ++ DQ ++ (if desc then " DESC" else " ASC")
     | None => ""
     end.

(** SQL: the clause that keeps [limit] rows after the first [offset]. *)
Definition limit_offset (limit offset : Z) : string :=
  " LIMIT " ++ Py.decimal limit ++ " OFFSET " ++ Py.decimal offset.

(** The order a call of [get_table_data] asks for: none when no column or
    the empty name is given. *)
Definition asked_order (order_by : option string) (order_desc : bool)
  : option (string * bool) :=
  match order_by with
  | Some col => if (col =? "")%string then None else Some (col, order_desc)
  | None => None
  end.


(** A statement begins with the keyword [kw] (given in capitals), without
    regard to case and after any leading whitespace. *)
Definition begins_with_keyword (kw query : string) : Prop :=
  exists ws word rest : string,
    query = ws ++ word ++ rest
    /\ all_chars Py.isspace ws = true
    /\ Py.upper word = kw.

(** Most recent first, on stored rows and on the records read back: the
    first of two neighbours is not older than the second. *)
Definition stored_not_older (a b : QueryHistoryDB.stored) : Prop :=
  String.leb (QueryHistoryDB.col_timestamp b) (QueryHistoryDB.col_timestamp a)
  = true.

Definition not_older (a b : QueryRecord.t) : Prop :=
  String.leb (QueryRecord.timestamp b) (QueryRecord.timestamp a) = true.

(** A search term free of the two wildcards of LIKE. *)
Definition plain (term : string) : bool :=
  all_chars (fun c => negb (Ascii.eqb c "%") && negb (Ascii.eqb c "_")) term.

(** The two lists [get_schema] builds side by side agree. *)
Definition keys_agree (columns : list ColumnInfo.t)
    (primary_keys : list value) : Prop :=
  primary_keys
  = map ColumnInfo.name (filter ColumnInfo.is_primary_key columns).

(** A connector has a file path only while it is connected. *)
Definition coherent {env : Env} (self : SQLiteConnector.t env) : Prop :=
  SQLiteConnector.is_connected env self = false ->
  SQLiteConnector._file_path env self = None.

(** Two states of a connector are both connected or both closed, with the
    same file path. *)
Definition same_link {env : Env} (a b : SQLiteConnector.t env) : Prop :=
  SQLiteConnector.is_connected env a = SQLiteConnector.is_connected env b
  /\ SQLiteConnector._file_path env a = SQLiteConnector._file_path env b.

(** The ColumnInfo that [get_schema] builds from one row of
    [PRAGMA table_info]: cid, name, type, notnull, dflt_value, pk. *)
Definition column_of_row (r : row) : ColumnInfo.t :=
  ColumnInfo.mk (nth 1 r VNone)
    (if truthy (nth 2 r VNone) then nth 2 r VNone else VStr "BLOB")
    (negb (truthy (nth 3 r VNone)))
    (nth 4 r VNone)
    (truthy (nth 5 r VNone))
    None.

(** A column but for its [foreign_key]. *)
Definition column_core (c : ColumnInfo.t) : ColumnInfo.t :=
  ColumnInfo.set_foreign_key c None.

(** Each column is marked exactly when a foreign key names it. *)
Definition marked_by (env : Env) (foreign_keys : list ForeignKey.t)
    (columns : list ColumnInfo.t) : Prop :=
  forall c, In c columns ->
    (ColumnInfo.foreign_key c <> None <->
     exists fk, In fk foreign_keys
                /\ py_eq env (ColumnInfo.name c) (ForeignKey.column fk) = true).

(** The current page of a DataViewer is one of its pages. *)
Definition on_a_page (self : DataViewer.t) : Prop :=
  1 <= DataViewer.current_page self <= DataViewer.total_pages self.

(** No line break in a text. *)
Definition one_line (s : string) : bool :=
  all_chars (fun c => negb (Ascii.eqb c "010")) s.

(** The key [register_connector] files an extension under: with its
    leading dot, in lower case. *)
Definition registry_key (extension : string) : string :=
  Py.lower (if negb (Py.startswith extension ".") then "." ++ extension
            else extension).

(** What every call keeps true of the store: the counter is not
    negative, every stored id lies between 1 and the counter, no id is
    stored twice, and the success column holds 0 or 1. *)
Definition well_formed (db : QueryHistoryDB.database) : Prop :=
  0 <= QueryHistoryDB.sqlite_sequence db
  /\ (forall x, In x (QueryHistoryDB.query_history db) ->
        1 <= QueryHistoryDB.col_id x <= QueryHistoryDB.sqlite_sequence db)
  /\ NoDup (map QueryHistoryDB.col_id (QueryHistoryDB.query_history db))
  /\ (forall x, In x (QueryHistoryDB.query_history db) ->
        QueryHistoryDB.col_success x = 0 \/ QueryHistoryDB.col_success x = 1).

(** The ids among the values [add_query] returned: all but the -1 of a
    failed call. *)
Definition real_ids (returned : list Z) : list Z :=
  filter (fun i => negb (i =? -1)) returned.

(** A value a REAL column hands back as it was written: None, or a double
    that is neither NaN nor the negative zero. *)
Definition kept_by_real (x : option float) : Prop :=
  match x with
  | None => True
  | Some v =>
      PrimFloat.classify v <> FloatClass.NaN
      /\ PrimFloat.classify v <> FloatClass.NZero
  end.

(** A record is one [get_history] lists under the given path: any
    record when no path or the empty path is given. *)
Definition admits (path : option string) (r : QueryRecord.t) : bool :=
  match path with
  | Some p =>
      if (p =? "")%string then true
      else (QueryRecord.database_path r =? p)%string
  | None => true
  end.

(* ------------------------------------------------------------------ *)
(** ** Properties *)

(** *** Text *)

Lemma append_assoc (a b c : string) : (a ++ b) ++ c = a ++ (b ++ c).
Proof. induction a as [ | x a IH]; cbn; [ reflexivity | now rewrite IH ]. Qed.

Lemma append_empty_r (a : string) : a ++ "" = a.
Proof. induction a as [ | x a IH]; cbn; [ reflexivity | now rewrite IH ]. Qed.

Lemma prefix_append (p s : string) : String.prefix p (p ++ s) = true.
Proof.
  induction p as [ | c p IH]; cbn.
  - destruct s; reflexivity.
  - destruct (ascii_dec c c) as [_ | n]; [ exact IH | now elim n ].
Qed.

Lemma prefix_cons (c d : ascii) (p s : string) :
  String.prefix (String c p) (String d s) = true <->
  c = d /\ String.prefix p s = true.
Proof.
  cbn. destruct (ascii_dec c d) as [e | n]; split.
  - intros H. split; assumption.
  - intros [_ H]. exact H.
  - discriminate.
  - intros [e _]. now elim n.
Qed.

Lemma upper_append (a b : string) :
  Py.upper (a ++ b) = Py.upper a ++ Py.upper b.
Proof.
  unfold Py.upper.
  induction a as [ | x a IH]; cbn; [ reflexivity | now rewrite IH ].
Qed.

Lemma upper_letter_not_space (c : ascii) :
  Py.is_upper (Py.upper_char c) = true -> Py.isspace c = false.
Proof.
  destruct c as [[] [] [] [] [] [] [] []]; vm_compute;
    first [ reflexivity | discriminate ].
Qed.

Lemma lstrip_skips (ws s : string) :
  all_chars Py.isspace ws = true -> Py.lstrip (ws ++ s) = Py.lstrip s.
Proof.
  induction ws as [ | c ws IH]; cbn; [ reflexivity | ].
  intros H. apply andb_prop in H. destruct H as [Hc Hws].
  rewrite Hc. exact (IH Hws).
Qed.

Lemma lstrip_split (s : string) :
  exists ws, s = ws ++ Py.lstrip s /\ all_chars Py.isspace ws = true.
Proof.
  induction s as [ | c s (ws & Hs & Hws)]; cbn.
  - exists "". split; reflexivity.
  - destruct (Py.isspace c) eqn:Hc.
    + exists (String c ws). cbn. rewrite Hc, Hws. split; [ | reflexivity ].
      now rewrite <- Hs.
    + exists "". split; reflexivity.
Qed.

Lemma rstrip_cons (c : ascii) (s : string) :
  Py.isspace c = false -> Py.rstrip (String c s) = String c (Py.rstrip s).
Proof.
  intros Hc. cbn. rewrite Hc. destruct (Py.rstrip s); reflexivity.
Qed.

Lemma rstrip_split (s : string) : exists tail, s = Py.rstrip s ++ tail.
Proof.
  induction s as [ | c s (tail & Hs)].
  - exists "". reflexivity.
  - cbn. destruct (Py.rstrip s) as [ | d r] eqn:Hr.
    + destruct (Py.isspace c).
      * exists (String c s). reflexivity.
      * exists s. reflexivity.
    + exists tail. cbn. cbn in Hs. now rewrite <- Hs.
Qed.

Lemma upper_prefix_split (kw s : string) :
  String.prefix kw (Py.upper s) = true ->
  exists word rest, s = word ++ rest /\ Py.upper word = kw.
Proof.
  revert s. induction kw as [ | k kw IH]; intros s H.
  - exists "", s. split; reflexivity.
  - destruct s as [ | c s]; [ discriminate | ].
    change (Py.upper (String c s))
      with (String (Py.upper_char c) (Py.upper s)) in H.
    apply prefix_cons in H. destruct H as [Hk H].
    destruct (IH s H) as (word & rest & Hs & Hw).
    exists (String c word), rest. split.
    + cbn. now rewrite <- Hs.
    + change (Py.upper (String c word))
        with (String (Py.upper_char c) (Py.upper word)).
      now rewrite Hw, Hk.
Qed.

(** [is_select] is the test "begins with SELECT, in any case, after any
    leading whitespace". *)
Lemma is_select_iff (query : string) :
  SQLiteConnector.is_select query = true <->
  begins_with_keyword "SELECT" query.
Proof.
  unfold SQLiteConnector.is_select, Py.startswith, Py.strip,
    begins_with_keyword.
  split.
  - intros H.
    destruct (lstrip_split query) as (ws & Hq & Hws).
    destruct (rstrip_split (Py.lstrip query)) as (tail & Ht).
    destruct (upper_prefix_split _ _ H) as (word & rest & Hr & Hw).
    exists ws, word, (rest ++ tail). split; [ | split; assumption ].
    rewrite <- (append_assoc word rest tail), <- Hr, <- Ht. exact Hq.
  - intros (ws & word & rest & Hq & Hws & Hw). subst query.
    rewrite (lstrip_skips ws _ Hws).
    destruct word as [ | c1 [ | c2 [ | c3 [ | c4 [ | c5 [ | c6 [ | c7 w]]]]]]];
      try discriminate.
    unfold Py.upper in Hw. cbn [Py.map_chars] in Hw.
    injection Hw as H1 H2 H3 H4 H5 H6.
    assert (N1 : Py.isspace c1 = false)
      by (apply upper_letter_not_space; now rewrite H1).
    assert (N2 : Py.isspace c2 = false)
      by (apply upper_letter_not_space; now rewrite H2).
    assert (N3 : Py.isspace c3 = false)
      by (apply upper_letter_not_space; now rewrite H3).
    assert (N4 : Py.isspace c4 = false)
      by (apply upper_letter_not_space; now rewrite H4).
    assert (N5 : Py.isspace c5 = false)
      by (apply upper_letter_not_space; now rewrite H5).
    assert (N6 : Py.isspace c6 = false)
      by (apply upper_letter_not_space; now rewrite H6).
    cbn [append Py.lstrip]. rewrite N1.
    rewrite !rstrip_cons by assumption.
    unfold Py.upper. cbn [Py.map_chars]. rewrite H1, H2, H3, H4, H5, H6.
    exact (prefix_append "SELECT" _).
Qed.

Lemma prefix_weaken (n h x : string) :
  String.prefix n h = true -> String.prefix n (h ++ x) = true.
Proof.
  revert h. induction n as [ | c n IH]; intros h H.
  - destruct (h ++ x); reflexivity.
  - destruct h as [ | d h]; [ discriminate | ].
    apply prefix_cons in H. destruct H as [Hc H].
    change (String d h ++ x) with (String d (h ++ x)).
    apply prefix_cons. split; [ exact Hc | exact (IH h H) ].
Qed.

Lemma contains_prefix (h n : string) :
  String.prefix n h = true -> Py.contains h n = true.
Proof. intros H. destruct h; cbn [Py.contains]; now rewrite H. Qed.

Lemma contains_refl (s : string) : Py.contains s s = true.
Proof.
  apply contains_prefix.
  rewrite <- (append_empty_r s) at 2. apply prefix_append.
Qed.

Lemma contains_append_r (x h n : string) :
  Py.contains h n = true -> Py.contains (x ++ h) n = true.
Proof.
  intros H. induction x as [ | c x IH]; [ exact H | ].
  change (String c x ++ h) with (String c (x ++ h)).
  cbn [Py.contains]. rewrite IH. apply orb_true_r.
Qed.

Lemma contains_append_l (h x n : string) :
  Py.contains h n = true -> Py.contains (h ++ x) n = true.
Proof.
  induction h as [ | c h IH]; intros H.
  - cbn [Py.contains] in H. rewrite orb_false_r in H.
    apply contains_prefix. now apply (prefix_weaken n "" x).
  - cbn [Py.contains] in H. apply orb_prop in H.
    change (String c h ++ x) with (String c (h ++ x)).
    cbn [Py.contains]. destruct H as [H | H].
    + pose proof (prefix_weaken n (String c h) x H) as Hp.
      change (String c h ++ x) with (String c (h ++ x)) in Hp.
      rewrite Hp. reflexivity.
    + rewrite (IH H). apply orb_true_r.
Qed.

(** Every item of a joined list can be read in the joined text. *)
Lemma contains_join (sep e : string) (l : list string) :
  In e l -> Py.contains (Py.join sep l) e = true.
Proof.
  unfold Py.join. induction l as [ | x l IH]; [ intros [] | ].
  intros Hin. destruct l as [ | y l].
  - destruct Hin as [-> | []]. cbn. apply contains_refl.
  - change (concat sep (x :: y :: l))
      with (x ++ sep ++ concat sep (y :: l)).
    destruct Hin as [-> | Hin].
    + apply contains_append_l, contains_refl.
    + apply contains_append_r, contains_append_r, IH, Hin.
Qed.

(** A text found in one item of a joined list is found in the joined
    text. *)
Lemma contains_join_item (sep x e : string) (l : list string) :
  In x l -> Py.contains x e = true -> Py.contains (Py.join sep l) e = true.
Proof.
  unfold Py.join. induction l as [ | y l IH]; [ intros [] | ].
  intros Hin He. destruct l as [ | z l].
  - destruct Hin as [-> | []]. exact He.
  - change (concat sep (y :: z :: l))
      with (y ++ sep ++ concat sep (z :: l)).
    destruct Hin as [-> | Hin].
    + now apply contains_append_l.
    + apply contains_append_r, contains_append_r, IH; assumption.
Qed.

Lemma str_in_iff (x : string) (l : list string) :
  Py.str_in x l = true <-> In x l.
Proof.
  unfold Py.str_in. rewrite existsb_exists. split.
  - intros (y & Hy & He). apply String.eqb_eq in He. now subst.
  - intros H. exists x. split; [ exact H | apply String.eqb_refl ].
Qed.

(** *** The monad *)

Section MonadFacts.

Context {S A B : Type}.

Lemma bind_returned (m : M S A) (k : A -> M S B) (s s' : S) (b : B) :
  bind m k s = (Returned b, s') ->
  exists a s1, m s = (Returned a, s1) /\ k a s1 = (Returned b, s').
Proof.
  unfold bind. destruct (m s) as [[a | e] s1]; intros H.
  - exists a, s1. split; [ reflexivity | exact H ].
  - discriminate.
Qed.

Lemma try_except_returned (body : M S A) (handler : string -> M S A)
    (s s' : S) (a : A) :
  try_except_sqlite3 body handler s = (Returned a, s') ->
  body s = (Returned a, s')
  \/ exists msg s1, body s = (Raised (Sqlite3Error msg), s1)
                    /\ handler msg s1 = (Returned a, s').
Proof.
  unfold try_except_sqlite3.
  destruct (body s) as [[a0 | e] s1]; intros H.
  - left. exact H.
  - destruct e; try discriminate. right. eauto.
Qed.

End MonadFacts.

(** A property of the accumulator that every round of a loop keeps holds
    when the loop returns. *)
Lemma for_each_invariant {S X B : Type} (P : B -> Prop)
    (body : B -> X -> M S B) :
  (forall acc x s acc' s',
      P acc -> body acc x s = (Returned acc', s') -> P acc') ->
  forall xs acc s acc' s',
    P acc -> for_each xs acc body s = (Returned acc', s') -> P acc'.
Proof.
  intros Hstep xs. induction xs as [ | x xs IH]; intros acc s acc' s' HP H.
  - cbn in H. inversion H; subst. exact HP.
  - cbn in H. apply bind_returned in H. destruct H as (a & s1 & H1 & H2).
    eapply IH; [ | exact H2 ]. eapply Hstep; eauto.
Qed.

Section ConnectorProperties.

Variable env : Env.

Lemma str_int_fits (n : Z) :
  formats n -> Py.str_int n = Some (Py.decimal n).
Proof.
  unfold formats, Py.str_int. intros H. apply Z.ltb_lt in H.
  now rewrite H.
Qed.

Lemma str_int_long (n : Z) : ~ formats n -> Py.str_int n = None.
Proof.
  unfold formats, Py.str_int. intros H.
  destruct (Z.abs n <? Py.int_str_bound) eqn:E; [ | reflexivity ].
  apply Z.ltb_lt in E. contradiction.
Qed.

Lemma format_int_fits {S : Type} (n : Z) (s : S) :
  formats n -> format_int n s = (Returned (Py.decimal n), s).
Proof. intros H. unfold format_int. now rewrite (str_int_fits n H). Qed.

Lemma format_int_long {S : Type} (n : Z) (s : S) :
  ~ formats n -> format_int n s = (Raised (ValueError Py.int_too_long), s).
Proof. intros H. unfold format_int. now rewrite (str_int_long n H). Qed.



Lemma execute_query_body_long (h : connection env) (query : string)
    (timeout : Z) :
  ~ formats (timeout * 1000) ->
  SQLiteConnector.execute_query_body env query timeout h
  = (Raised (ValueError Py.int_too_long), h).
Proof.
  intros Hlong.
  unfold SQLiteConnector.execute_query_body,
    SQLiteConnector.busy_timeout_statement, bind, try_except_sqlite3,
    SQLiteConnector.now.
  now rewrite (format_int_long _ h Hlong).
Qed.


(** C9.  On a closed connector [get_table_data] raises QueryError("Not
    connected to database"), while [execute_query] returns a QueryResult
    whose [error] holds the same text; neither changes the connector. *)
Theorem get_table_data_disconnected_raises :
  forall (self : SQLiteConnector.t env) (table_name : string) (offset limit : Z)
         (order_by : option string) (order_desc : bool)
         (query : string) (timeout : Z),
    SQLiteConnector.is_connected env self = false ->
    SQLiteConnector.get_table_data env table_name offset limit order_by
      order_desc self
    = (Raised (QueryError "Not connected to database"), self)
    /\ SQLiteConnector.execute_query env query timeout self
       = (Returned (QueryResult.mk [] [] 0 0
                      (Some "Not connected to database")), self).
Proof.
  intros self table_name offset limit order_by order_desc query timeout Hc.
  unfold SQLiteConnector.get_table_data, SQLiteConnector.execute_query,
    SQLiteConnector.on_connection.
  rewrite Hc. cbn.
  unfold SQLiteConnector.is_connected in Hc.
  destruct (SQLiteConnector._connection env self); [ discriminate | ].
  split; reflexivity.
Qed.

(** C10.  When [connect] is called with a path that does not exist, or
    whose suffix is not one of SUPPORTED_EXTENSIONS, it raises a
    ConnectionError and the connector is left exactly as it was: the same
    connection in the same state, the same [_file_path]. *)
Theorem connect_rejected_keeps_state :
  forall (fs : filesystem env) (path : string) (self : SQLiteConnector.t env),
    path_exists env fs path = false
    \/ Py.str_in (Py.lower (Py.path_suffix path))
         SQLiteConnector.SUPPORTED_EXTENSIONS = false ->
    exists msg : string,
      SQLiteConnector.connect env fs path self
      = (Raised (ConnectionError msg), self)
      /\ (path_exists env fs path = false ->
          msg = "File not found: " ++ path).
Proof.
  intros fs path self H.
  unfold SQLiteConnector.connect.
  destruct (path_exists env fs path) eqn:He.
  - destruct H as [H | H]; [ discriminate | ].
    rewrite H. eexists. split; [ reflexivity | discriminate ].
  - eexists. split; reflexivity.
Qed.

(** *** execute_query: reading and writing statements *)

(** C2 (amended).  [execute_query] reads a statement as a SELECT exactly
    when its text begins with that keyword, in any case and after any
    leading whitespace.  When the driver executes the statement without
    error: a SELECT returns the driver's result set as it is (the column
    names of the cursor's description, the rows fetched, their number),
    is not committed and gets no synthetic column; any other statement is
    committed and returns the single column "affected_rows" with one row
    holding the cursor's [rowcount], whatever the driver put there. *)
Theorem execute_query_classifies_by_select :
  forall (h h1 h2 : connection env) (path : option string) (query : string)
         (timeout : Z) (c0 cursor : Cursor),
    Z.abs (timeout * 1000) < Py.int_str_bound ->
    execute env h
      ("PRAGMA busy_timeout = " ++ Py.decimal (timeout * 1000)) []
      = (Ok c0, h1) ->
    execute env h1 query [] = (Ok cursor, h2) ->
    (begins_with_keyword "SELECT" query ->
     exists r : QueryResult.t,
       SQLiteConnector.execute_query env query timeout
         (SQLiteConnector.mk env (Some h) path)
       = (Returned r, SQLiteConnector.mk env (Some h2) path)
       /\ QueryResult.columns r
          = match description cursor with
            | Some (d :: ds) => d :: ds
            | _ => []
            end
       /\ QueryResult.rows r = fetchall cursor
       /\ QueryResult.row_count r = Z.of_nat (List.length (fetchall cursor))
       /\ QueryResult.error r = None)
    /\ (~ begins_with_keyword "SELECT" query ->
        forall (u : unit) (h3 : connection env),
          commit env h2 = (Ok u, h3) ->
          exists r : QueryResult.t,
            SQLiteConnector.execute_query env query timeout
              (SQLiteConnector.mk env (Some h) path)
            = (Returned r, SQLiteConnector.mk env (Some h3) path)
            /\ QueryResult.columns r = ["affected_rows"]
            /\ QueryResult.rows r = [[VInt (rowcount cursor)]]
            /\ QueryResult.row_count r = rowcount cursor
            /\ QueryResult.error r = None).
Proof.
  intros h h1 h2 path query timeout c0 cursor Hfits Hpragma Hexec.
  unfold SQLiteConnector.execute_query, SQLiteConnector.on_connection,
    SQLiteConnector.execute_query_body,
    SQLiteConnector.busy_timeout_statement, bind, try_except_sqlite3,
    SQLiteConnector.now, SQLiteConnector.cursor_execute,
    SQLiteConnector.connection_commit, ret.
  cbn [SQLiteConnector._connection SQLiteConnector._file_path].
  rewrite (format_int_fits _ h Hfits), Hpragma, Hexec.
  split.
  - intros Hsel. apply is_select_iff in Hsel. rewrite Hsel.
    eexists. split; [ reflexivity | ]. cbn. auto.
  - intros Hnot u h3 Hcommit.
    destruct (SQLiteConnector.is_select query) eqn:Hsel.
    + elim Hnot. now apply is_select_iff.
    + rewrite Hcommit. eexists. split; [ reflexivity | ]. cbn. auto.
Qed.

(** *** get_table_data *)

(** The text [get_table_data] hands to [execute_query]. *)
Lemma page_statement_text (table_name : string) (offset limit : Z)
    (order_by : option string) (order_desc : bool)
    (self : SQLiteConnector.t env) :
  formats limit -> formats offset ->
  SQLiteConnector.page_statement env table_name offset limit order_by
    order_desc self
  = (Returned (select_rows table_name (asked_order order_by order_desc)
               ++ limit_offset limit offset), self).
Proof.
  intros Hl Ho.
  unfold SQLiteConnector.page_statement, bind, ret.
  rewrite (format_int_fits _ self Hl), (format_int_fits _ self Ho).
  f_equal. f_equal.
  unfold select_rows, asked_order, limit_offset.
  destruct order_by as [col | ]; [ destruct (col =? "")%string | ];
    try destruct order_desc; cbn; rewrite ?append_assoc;
    repeat (cbn; rewrite ?append_assoc); reflexivity.
Qed.

Lemma page_statement_long (table_name : string) (offset limit : Z)
    (order_by : option string) (order_desc : bool)
    (self : SQLiteConnector.t env) :
  ~ (formats limit /\ formats offset) ->
  SQLiteConnector.page_statement env table_name offset limit order_by
    order_desc self
  = (Raised (ValueError Py.int_too_long), self).
Proof.
  intros Hlong.
  unfold SQLiteConnector.page_statement, bind, ret.
  destruct (Z.abs limit <? Py.int_str_bound) eqn:El.
  - apply Z.ltb_lt in El. rewrite (format_int_fits _ self El).
    rewrite format_int_long; [ reflexivity | ]. intros Ho. apply Hlong.
    split; assumption.
  - rewrite format_int_long; [ reflexivity | ].
    unfold formats. intros H. apply Z.ltb_lt in H. congruence.
Qed.



(** *** get_schema *)

Lemma read_column_keeps_agreement acc r h acc' h' :
  keys_agree (fst acc) (snd acc) ->
  SQLiteConnector.read_column env acc r h = (Returned acc', h') ->
  keys_agree (fst acc') (snd acc').
Proof.
  destruct acc as [columns primary_keys]. unfold keys_agree. cbn.
  intros Hagree H.
  destruct r as [ | cid [ | name [ | data_type [ | notnull
    [ | default_value [ | pk [ | extra r]]]]]]]; try discriminate.
  cbn in H. inversion H; subst; clear H. cbn.
  rewrite filter_app, map_app. cbn.
  destruct (truthy pk); cbn.
  - reflexivity.
  - now rewrite app_nil_r.
Qed.

Lemma annotate_keeps_keys (f : ColumnInfo.t -> ColumnInfo.t)
    (columns : list ColumnInfo.t) :
  (forall c, ColumnInfo.name (f c) = ColumnInfo.name c
             /\ ColumnInfo.is_primary_key (f c) = ColumnInfo.is_primary_key c) ->
  map ColumnInfo.name (filter ColumnInfo.is_primary_key (map f columns))
  = map ColumnInfo.name (filter ColumnInfo.is_primary_key columns).
Proof.
  intros Hf. induction columns as [ | c cs IH]; cbn; [ reflexivity | ].
  destruct (Hf c) as [Hn Hp]. rewrite Hp.
  destruct (ColumnInfo.is_primary_key c); cbn; rewrite IH; congruence.
Qed.

Lemma read_foreign_key_keeps_agreement (primary_keys : list value)
    acc r h acc' h' :
  keys_agree (snd acc) primary_keys ->
  SQLiteConnector.read_foreign_key env acc r h = (Returned acc', h') ->
  keys_agree (snd acc') primary_keys.
Proof.
  destruct acc as [foreign_keys columns]. unfold keys_agree. cbn.
  intros Hagree H.
  destruct r as [ | fk_id [ | seq [ | ref_table [ | from_col [ | to_col
    [ | on_update [ | on_delete [ | match_ [ | extra r]]]]]]]]];
    try discriminate.
  cbn in H. inversion H; subst; clear H. cbn.
  rewrite annotate_keeps_keys; [ reflexivity | ].
  intros c. destruct (py_eq env (ColumnInfo.name c) from_col); split; reflexivity.
Qed.

(** C6.  Whenever [get_schema] returns a schema, its [primary_keys] are the
    names of the columns whose [is_primary_key] is true, in the order of
    [columns], and nothing else. *)
Theorem get_schema_primary_keys_agree :
  forall (self self' : SQLiteConnector.t env) (table_name : string)
         (schema : TableSchema.t),
    SQLiteConnector.get_schema env table_name self = (Returned schema, self') ->
    TableSchema.primary_keys schema
    = map ColumnInfo.name
        (filter ColumnInfo.is_primary_key (TableSchema.columns schema)).
Proof.
  intros self self' table_name schema H.
  unfold SQLiteConnector.get_schema, SQLiteConnector.on_connection in H.
  destruct (SQLiteConnector._connection env self) as [h | ];
    [ | discriminate ].
  destruct (SQLiteConnector.get_schema_body env table_name h)
    as [res h'] eqn:Hbody.
  inversion H; subst; clear H.
  unfold SQLiteConnector.get_schema_body in Hbody.
  apply try_except_returned in Hbody.
  destruct Hbody as [Hbody | (msg & s1 & _ & Hraise)]; [ | discriminate ].
  apply bind_returned in Hbody. destruct Hbody as (c1 & h1 & _ & Hbody).
  apply bind_returned in Hbody.
  destruct Hbody as ([columns primary_keys] & h2 & Hcols & Hbody).
  apply bind_returned in Hbody. destruct Hbody as (c2 & h3 & _ & Hbody).
  apply bind_returned in Hbody.
  destruct Hbody as ([foreign_keys columns'] & h4 & Hfks & Hbody).
  apply bind_returned in Hbody. destruct Hbody as (c3 & h5 & _ & Hbody).
  apply bind_returned in Hbody. destruct Hbody as (indexes & h6 & _ & Hbody).
  apply bind_returned in Hbody. destruct Hbody as (n & h7 & _ & Hbody).
  apply bind_returned in Hbody. destruct Hbody as (c4 & h8 & _ & Hbody).
  inversion Hbody; subst; clear Hbody. cbn.
  assert (Hfirst : keys_agree columns primary_keys).
  { change (keys_agree (fst (columns, primary_keys))
                       (snd (columns, primary_keys))).
    eapply (for_each_invariant (fun acc => keys_agree (fst acc) (snd acc)));
      [ | | exact Hcols ].
    - intros acc x s acc' s' HP Hstep.
      exact (read_column_keeps_agreement acc x s acc' s' HP Hstep).
    - reflexivity. }
  change (keys_agree (snd (foreign_keys, columns')) primary_keys).
  eapply (for_each_invariant (fun acc => keys_agree (snd acc) primary_keys));
    [ | | exact Hfks ].
  - intros acc x s acc' s' HP Hstep.
    exact (read_foreign_key_keeps_agreement primary_keys acc x s acc' s'
             HP Hstep).
  - exact Hfirst.
Qed.

End ConnectorProperties.

Section FactoryProperties.

Variable env : Env.

Lemma setitem_keeps_keys d k v k' :
  In k' (map fst d) ->
  In k' (map fst (ConnectorFactory.setitem d k v)).
Proof.
  induction d as [ | [k0 v0] d IH]; cbn; [ intros [] | ].
  intros [H | H].
  - destruct (k0 =? k)%string eqn:E; cbn.
    + apply String.eqb_eq in E. left. congruence.
    + left. exact H.
  - destruct (k0 =? k)%string; cbn; [ right; exact H | right; exact (IH H) ].
Qed.

Lemma reachable_keeps_seed d :
  ConnectorFactory.reachable d ->
  forall e, In e [".db"; ".sqlite"; ".sqlite3"] ->
            In e (ConnectorFactory.get_supported_extensions d).
Proof.
  induction 1 as [ | d extension c _ IH]; intros e He.
  - exact He.
  - unfold ConnectorFactory.register_connector,
      ConnectorFactory.get_supported_extensions.
    apply setitem_keeps_keys. exact (IH e He).
Qed.

Lemma getitem_of_key d k :
  In k (map fst d) -> exists c, ConnectorFactory.getitem d k = Some c.
Proof.
  induction d as [ | [k0 v0] d IH]; cbn; [ intros [] | ].
  intros H. destruct (k0 =? k)%string eqn:E; [ eauto | ].
  destruct H as [H | H]; [ | exact (IH H) ].
  subst. rewrite String.eqb_refl in E. discriminate.
Qed.

(** C4.  In every state of the registry, [create_connector] on a path
    whose lower-cased suffix has no entry raises UnsupportedDatabaseError
    with a message that names this suffix and every registered extension
    (".db" among them); on a path whose suffix has an entry it returns a new
    instance of the class registered for it, which is not connected and has
    no file path. *)
Theorem create_connector_unsupported_or_fresh :
  forall (d : ConnectorFactory.registry) (file_path : string),
    ConnectorFactory.reachable d ->
    (ConnectorFactory.is_supported d file_path = false ->
     exists msg : string,
       ConnectorFactory.create_connector env d file_path
       = Raised (UnsupportedDatabaseError msg)
       /\ msg = "Unsupported file type: "
                ++ Py.lower (Py.path_suffix file_path)
                ++ ". Supported types: "
                ++ Py.join ", " (ConnectorFactory.get_supported_extensions d)
       /\ Py.contains msg (Py.lower (Py.path_suffix file_path)) = true
       /\ (forall e, In e (ConnectorFactory.get_supported_extensions d) ->
                     Py.contains msg e = true)
       /\ Py.contains msg ".db" = true)
    /\ (ConnectorFactory.is_supported d file_path = true ->
        exists c : ConnectorFactory.connector_class,
          ConnectorFactory.getitem d (Py.lower (Py.path_suffix file_path))
          = Some c
          /\ ConnectorFactory.create_connector env d file_path
             = Returned (ConnectorFactory.instantiate env c)
          /\ SQLiteConnector.is_connected env
               (ConnectorFactory.instantiate env c) = false
          /\ SQLiteConnector.file_path env
               (ConnectorFactory.instantiate env c) = None).
Proof.
  intros d file_path Hd.
  unfold ConnectorFactory.is_supported, ConnectorFactory.create_connector.
  set (ext := Py.lower (Py.path_suffix file_path)).
  split; intros Hsup; rewrite Hsup; cbn [negb].
  - eexists. split; [ reflexivity | ]. split; [ reflexivity | ].
    assert (Hall : forall e,
               In e (ConnectorFactory.get_supported_extensions d) ->
               Py.contains
                 ("Unsupported file type: " ++ ext ++ ". Supported types: "
                  ++ Py.join ", " (ConnectorFactory.get_supported_extensions d))
                 e = true).
    { intros e He.
      apply (contains_append_r "Unsupported file type: ").
      apply (contains_append_r ext).
      apply (contains_append_r ". Supported types: ").
      apply contains_join, He. }
    split; [ | split; [ exact Hall | ] ].
    + apply (contains_append_r "Unsupported file type: ").
      apply contains_append_l, contains_refl.
    + apply Hall. apply (reachable_keeps_seed d Hd). now left.
  - apply str_in_iff in Hsup.
    destruct (getitem_of_key d ext Hsup) as [c Hc].
    exists c. rewrite Hc. destruct c. repeat split; reflexivity.
Qed.

End FactoryProperties.

(** *** The history store *)

Module HistoryFacts.
Import QueryHistoryDB.

Lemma in_insert_desc (x r : stored) (l : list stored) :
  In x (insert_desc r l) <-> x = r \/ In x l.
Proof.
  induction l as [ | y l IH]; cbn.
  - intuition congruence.
  - destruct (String.leb (col_timestamp y) (col_timestamp r)); cbn.
    + intuition congruence.
    + rewrite IH. intuition congruence.
Qed.

Lemma in_order_by (x : stored) (l : list stored) :
  In x (order_by_timestamp_desc l) <-> In x l.
Proof.
  unfold order_by_timestamp_desc.
  induction l as [ | y l IH]; cbn; [ reflexivity | ].
  rewrite in_insert_desc, IH. intuition congruence.
Qed.

Lemma length_insert_desc (r : stored) (l : list stored) :
  List.length (insert_desc r l) = S (List.length l).
Proof.
  induction l as [ | y l IH]; cbn; [ reflexivity | ].
  destruct (String.leb (col_timestamp y) (col_timestamp r)); cbn;
    [ reflexivity | now rewrite IH ].
Qed.

Lemma length_order_by (l : list stored) :
  List.length (order_by_timestamp_desc l) = List.length l.
Proof.
  unfold order_by_timestamp_desc.
  induction l as [ | y l IH]; cbn; [ reflexivity | ].
  now rewrite length_insert_desc, IH.
Qed.

Lemma in_sql_limit {A : Type} (n : Z) (x : A) (l : list A) :
  In x (sql_limit n l) -> In x l.
Proof.
  unfold sql_limit. destruct (n <? 0); [ auto | ].
  intros H. rewrite <- (firstn_skipn (Z.to_nat n) l).
  apply in_or_app. now left.
Qed.

Lemma sql_limit_all {A : Type} (n : Z) (l : list A) :
  n < 0 \/ Z.of_nat (List.length l) <= n -> sql_limit n l = l.
Proof.
  unfold sql_limit. intros H. destruct (n <? 0) eqn:E; [ reflexivity | ].
  apply Z.ltb_ge in E. apply firstn_all2. lia.
Qed.

Lemma sql_limit_head {A : Type} (n : Z) (x : A) (l : list A) :
  0 < n -> In x (sql_limit n (x :: l)).
Proof.
  unfold sql_limit. intros H.
  destruct (n <? 0) eqn:E; [ now left | ].
  destruct (Z.to_nat n) as [ | k] eqn:Ek; [ lia | now left ].
Qed.

Lemma ltb_not_leb (a b : string) :
  String.ltb a b = true -> String.leb b a = false.
Proof.
  unfold String.ltb, String.leb. rewrite (String.compare_antisym b a).
  destruct (String.compare a b); cbn; congruence.
Qed.

(** A row later than every row of [l] comes first when it is sorted in
    with them. *)
Lemma newest_first (r : stored) (l : list stored) :
  (forall x, In x l ->
             String.ltb (col_timestamp x) (col_timestamp r) = true) ->
  exists rest, order_by_timestamp_desc (l ++ [r]) = r :: rest.
Proof.
  unfold order_by_timestamp_desc.
  induction l as [ | y l IH]; intros Hl; cbn.
  - now exists [].
  - destruct IH as [rest Hrest]; [ intros x Hx; apply Hl; now right | ].
    rewrite Hrest. cbn.
    rewrite (ltb_not_leb _ _ (Hl y (or_introl eq_refl))).
    eauto.
Qed.

Lemma ids_below_next (db : database) (x : stored) :
  In x (query_history db) -> col_id x < next_id db.
Proof.
  unfold next_id. generalize (sqlite_sequence db).
  induction (query_history db) as [ | y l IH]; intros s; [ intros [] | ].
  cbn. intros [-> | H].
  - lia.
  - specialize (IH s H). lia.
Qed.

Lemma success_round_trip (b : bool) : negb (int_of_bool b =? 0) = b.
Proof. now destruct b. Qed.

Lemma bind_real_kept (x : option float) :
  kept_by_real x -> bind_real x = x.
Proof.
  destruct x as [v | ]; [ | reflexivity ]. cbn. intros [Hnan Hzero].
  destruct (PrimFloat.classify v); try reflexivity; contradiction.
Qed.

(** Stamping a record leaves its execution time and its row count. *)
Lemma stamped_time (record : QueryRecord.t) (now : string) (c : bool) :
  QueryRecord.execution_time
    (if c then QueryRecord.set_timestamp record now else record)
  = QueryRecord.execution_time record.
Proof. now destruct c. Qed.

Lemma stamped_row_count (record : QueryRecord.t) (now : string) (c : bool) :
  QueryRecord.row_count
    (if c then QueryRecord.set_timestamp record now else record)
  = QueryRecord.row_count record.
Proof. now destruct c. Qed.



End HistoryFacts.

Section HistoryProperties.
Import QueryHistoryDB HistoryFacts.

(** C5 (amended).  A record that [add_query] has written (it returned an
    id, which it does when the row count fits 64 bits), and whose
    execution time is a double other than NaN and the negative zero, is
    read back by [get_history] with its database path, query text,
    execution time, row count, success flag and error message equal to the
    written ones; its id is the one [add_query] returned, and its
    timestamp is the written one, or [now] when none was written.  It is
    read back whenever the call can reach it: the path filter is absent,
    empty or the record's own path, and the limit is negative (no limit),
    or exceeds the number of rows stored before, or is positive while the
    record is later than every stored row.  No other record of the result
    carries its id. *)
Theorem add_query_get_history_round_trip :
  forall (now : string) (record record' : QueryRecord.t) (db db' : database)
         (record_id limit : Z) (database_path : option string),
    add_query None now record db = (Returned record_id, record', db') ->
    kept_by_real (QueryRecord.execution_time record) ->
    (database_path = None \/ database_path = Some ""
     \/ database_path = Some (QueryRecord.database_path record)) ->
    (limit < 0
     \/ Z.of_nat (List.length (query_history db)) < limit
     \/ (0 < limit /\
         forall x, In x (query_history db) ->
           String.ltb (col_timestamp x) (QueryRecord.timestamp record')
           = true)) ->
    exists r : QueryRecord.t,
      In r (get_history None limit database_path db')
      /\ QueryRecord.id r = Some record_id
      /\ QueryRecord.database_path r = QueryRecord.database_path record
      /\ QueryRecord.query_text r = QueryRecord.query_text record
      /\ QueryRecord.execution_time r = QueryRecord.execution_time record
      /\ QueryRecord.row_count r = QueryRecord.row_count record
      /\ QueryRecord.success r = QueryRecord.success record
      /\ QueryRecord.error_message r = QueryRecord.error_message record
      /\ QueryRecord.timestamp r
         = (if (QueryRecord.timestamp record =? "")%string then now
            else QueryRecord.timestamp record)
      /\ (forall r' : QueryRecord.t,
            In r' (get_history None limit database_path db') ->
            QueryRecord.id r' = Some record_id -> r' = r).
Proof.
  intros now record record' db db' record_id limit database_path
    Hadd Hkept Hfilter Hlimit.
  unfold add_query in Hadd.
  rewrite stamped_time, (bind_real_kept _ Hkept) in Hadd.
  rewrite <- (stamped_time record now
                (QueryRecord.timestamp record =? "")%string) in Hadd.
  destruct (fits_int64 _) in Hadd; cbn [negb] in Hadd;
    [ | discriminate Hadd ].
  set (stamped := if (QueryRecord.timestamp record =? "")%string
                  then QueryRecord.set_timestamp record now else record)
    in Hadd.
  inversion Hadd; subst record_id record' db'; clear Hadd.
  set (row := mkStored (next_id db) (QueryRecord.database_path stamped)
                (QueryRecord.query_text stamped)
                (QueryRecord.timestamp stamped)
                (QueryRecord.execution_time stamped)
                (QueryRecord.row_count stamped)
                (int_of_bool (QueryRecord.success stamped))
                (QueryRecord.error_message stamped)).
  assert (Hpath : QueryRecord.database_path stamped
                  = QueryRecord.database_path record)
    by (unfold stamped; destruct (QueryRecord.timestamp record =? "")%string;
        reflexivity).
  unfold get_history. cbn [query_history].
  set (selected :=
         match database_path with
         | Some p =>
             if (p =? "")%string then (query_history db ++ [row])%list
             else filter (fun r => (col_database_path r =? p)%string)
                    (query_history db ++ [row])%list
         | None => (query_history db ++ [row])%list
         end).
  (* what the statement selects: earlier rows, then the new one *)
  assert (Hsel : exists before,
             selected = (before ++ [row])%list
             /\ (forall x, In x before -> In x (query_history db))).
  { unfold selected.
    destruct Hfilter as [-> | [-> | ->]].
    - exists (query_history db). split; auto.
    - cbn. exists (query_history db). split; auto.
    - destruct (QueryRecord.database_path record =? "")%string.
      + exists (query_history db). split; auto.
      + rewrite filter_app. cbn. rewrite Hpath, String.eqb_refl.
        eexists. split; [ reflexivity | ].
        intros x Hx. apply filter_In in Hx. tauto. }
  destruct Hsel as (before & Hsel & Hbefore).
  assert (Hin : In row (sql_limit limit (order_by_timestamp_desc selected))).
  { destruct Hlimit as [Hneg | [Hbig | [Hpos Hnew]]].
    - rewrite sql_limit_all by (left; exact Hneg).
      apply in_order_by. rewrite Hsel. apply in_or_app. right. now left.
    - rewrite sql_limit_all.
      + apply in_order_by. rewrite Hsel. apply in_or_app. right. now left.
      + right. rewrite length_order_by, Hsel, length_app. cbn.
        assert (List.length before <= List.length (query_history db))%nat.
        { unfold selected in Hsel.
          destruct database_path as [p | ];
            [ destruct (p =? "")%string | ].
          - apply app_inj_tail in Hsel. destruct Hsel as [<- _]. lia.
          - pose proof (filter_length_le
                          (fun r => (col_database_path r =? p)%string)
                          (query_history db ++ [row])) as Hle.
            rewrite Hsel, !length_app in Hle. cbn in Hle. lia.
          - apply app_inj_tail in Hsel. destruct Hsel as [<- _]. lia. }
        lia.
    - rewrite Hsel.
      destruct (newest_first row before) as [rest Hrest].
      + intros x Hx. exact (Hnew x (Hbefore x Hx)).
      + rewrite Hrest. apply sql_limit_head, Hpos. }
  exists (to_record row).
  split; [ apply in_map, Hin | ].
  unfold to_record, row. cbn.
  rewrite success_round_trip.
  unfold stamped.
  destruct (QueryRecord.timestamp record =? "")%string eqn:Ets; cbn;
    (repeat (split; [ reflexivity | ]));
    intros r' Hr' Hid;
    apply in_map_iff in Hr'; destruct Hr' as (x & <- & Hx);
    apply in_sql_limit in Hx; apply (proj1 (in_order_by _ _)) in Hx;
    rewrite Hsel in Hx; apply in_app_or in Hx;
    (destruct Hx as [Hx | [<- | []]];
     [ apply Hbefore, ids_below_next in Hx; cbn in Hid;
       injection Hid as Hid; lia
     | unfold to_record, row, stamped; rewrite ?Ets; cbn;
       rewrite success_round_trip; reflexivity ]).
Qed.


(** *** LIKE on a term without wildcards *)

Lemma like_any_run (q text : string) :
  like (String "%" q) text
  = like q text
    || match text with
       | EmptyString => false
       | String _ text' => like (String "%" q) text'
       end.
Proof. destruct text; reflexivity. Qed.

Lemma like_percent (text : string) : like "%" text = true.
Proof.
  induction text as [ | c text IH]; [ reflexivity | ].
  rewrite like_any_run, IH. apply orb_true_r.
Qed.

Lemma prefix_cons_eqb (a b : ascii) (p s : string) :
  String.prefix (String a p) (String b s) = Ascii.eqb a b && String.prefix p s.
Proof.
  cbn. destruct (ascii_dec a b) as [e | n].
  - subst. now rewrite Ascii.eqb_refl.
  - apply Ascii.eqb_neq in n. now rewrite n.
Qed.

Lemma like_plain_prefix (term text : string) :
  plain term = true ->
  like (term ++ "%") text = String.prefix (Py.upper term) (Py.upper text).
Proof.
  revert text. induction term as [ | c term IH]; intros text Hplain.
  - cbn [append]. rewrite like_percent. now destruct (Py.upper text).
  - unfold plain in Hplain. cbn [all_chars] in Hplain.
    apply andb_prop in Hplain. destruct Hplain as [Hc Hterm].
    apply andb_prop in Hc. destruct Hc as [Hpercent Hunder].
    apply negb_true_iff in Hpercent, Hunder.
    change (String c term ++ "%") with (String c (term ++ "%")).
    cbn [like]. rewrite Hpercent.
    destruct text as [ | d text]; [ reflexivity | ].
    rewrite Hunder. cbn [orb].
    change (Py.upper (String c term))
      with (String (Py.upper_char c) (Py.upper term)).
    change (Py.upper (String d text))
      with (String (Py.upper_char d) (Py.upper text)).
    rewrite prefix_cons_eqb, (IH text Hterm). reflexivity.
Qed.

(** With a term free of wildcards, the pattern [%term%] matches the texts
    that contain the term, letters compared without regard to case. *)
Lemma like_plain_contains (term text : string) :
  plain term = true ->
  like ("%" ++ term ++ "%") text
  = Py.contains (Py.upper text) (Py.upper term).
Proof.
  intros Hplain. change ("%" ++ term ++ "%") with (String "%" (term ++ "%")).
  induction text as [ | d text IH].
  - rewrite like_any_run, (like_plain_prefix term "" Hplain). reflexivity.
  - rewrite like_any_run, (like_plain_prefix term _ Hplain), IH.
    reflexivity.
Qed.

(** *** Most recent first *)

Lemma hdrel_insert_desc (x r : stored) (l : list stored) :
  stored_not_older x r -> HdRel stored_not_older x l ->
  HdRel stored_not_older x (insert_desc r l).
Proof.
  intros Hxr Hl. destruct l as [ | y l]; cbn.
  - now constructor.
  - destruct (String.leb (col_timestamp y) (col_timestamp r));
      constructor; [ exact Hxr | now inversion Hl ].
Qed.

Lemma sorted_insert_desc (r : stored) (l : list stored) :
  Sorted stored_not_older l -> Sorted stored_not_older (insert_desc r l).
Proof.
  induction l as [ | x l IH]; intros Hl; cbn.
  - repeat constructor.
  - destruct (String.leb (col_timestamp x) (col_timestamp r)) eqn:E.
    + constructor; [ exact Hl | constructor; exact E ].
    + inversion Hl as [ | ? ? Hs Hh]; subst.
      constructor; [ exact (IH Hs) | ].
      apply hdrel_insert_desc; [ | exact Hh ].
      unfold stored_not_older.
      destruct (String.leb_total (col_timestamp x) (col_timestamp r));
        congruence.
Qed.

Lemma sorted_order_by (l : list stored) :
  Sorted stored_not_older (order_by_timestamp_desc l).
Proof.
  unfold order_by_timestamp_desc.
  induction l as [ | x l IH]; cbn; [ constructor | ].
  now apply sorted_insert_desc.
Qed.

Lemma sorted_firstn {A : Type} (R : A -> A -> Prop) (n : nat) (l : list A) :
  Sorted R l -> Sorted R (firstn n l).
Proof.
  revert l. induction n as [ | n IH]; intros l Hl; [ constructor | ].
  destruct l as [ | x l]; [ constructor | ].
  inversion Hl as [ | ? ? Hs Hh]; subst. cbn.
  constructor; [ exact (IH l Hs) | ].
  destruct l as [ | y l]; [ rewrite firstn_nil; constructor | ].
  destruct n; cbn; constructor. now inversion Hh.
Qed.

Lemma sorted_sql_limit {A : Type} (R : A -> A -> Prop) (n : Z) (l : list A) :
  Sorted R l -> Sorted R (sql_limit n l).
Proof.
  unfold sql_limit. destruct (n <? 0); [ auto | apply sorted_firstn ].
Qed.

Lemma sorted_to_record (l : list stored) :
  Sorted stored_not_older l -> Sorted not_older (map to_record l).
Proof.
  induction 1 as [ | x l Hs IH Hh]; cbn; constructor; [ exact IH | ].
  destruct Hh; cbn; constructor. assumption.
Qed.

Lemma length_sql_limit {A : Type} (n : Z) (l : list A) :
  0 <= n -> Z.of_nat (List.length (sql_limit n l)) <= n.
Proof.
  unfold sql_limit. intros Hn.
  destruct (n <? 0) eqn:E; [ apply Z.ltb_lt in E; lia | ].
  pose proof (firstn_le_length (Z.to_nat n) l). lia.
Qed.

(** What [search_history] does with a term free of wildcards: it selects
    the records whose query text contains the term, letters compared
    without regard to case, puts the most recent first and keeps the first
    [limit] of them. *)
Lemma search_history_plain_term (term : string) (limit : Z) (db : database) :
  plain term = true ->
  search_history None term limit db
  = map to_record
      (sql_limit limit
         (order_by_timestamp_desc
            (filter (fun r => Py.contains (Py.upper (col_query_text r))
                                          (Py.upper term))
                    (query_history db))))
  /\ Sorted not_older (search_history None term limit db)
  /\ (0 <= limit ->
      Z.of_nat (List.length (search_history None term limit db)) <= limit).
Proof.
  intros Hplain. unfold search_history. split; [ | split ].
  - f_equal. f_equal. f_equal. apply filter_ext.
    intros r. apply like_plain_contains, Hplain.
  - apply sorted_to_record, sorted_sql_limit, sorted_order_by.
  - intros Hl. rewrite length_map. now apply length_sql_limit.
Qed.

End HistoryProperties.

(* ------------------------------------------------------------------ *)
(** ** The small driver reads LIMIT and OFFSET *)

Module MiniSqliteFacts.
Import MiniSqlite.















End MiniSqliteFacts.

(* ------------------------------------------------------------------ *)
(** ** The properties at work on the small driver and the sample history *)

Section Runs.
Import MiniSqlite MiniSqliteFacts.

(** A syntax error, a lock timeout, a missing table and a broken foreign
    key all end up in [error]. *)
Example syntax_error_is_captured :
  fst (SQLiteConnector.execute_query env "SELEC 1" 30 opened)
  = Returned (QueryResult.mk [] [] 0 2
                (Some ("near " ++ DQ ++ "SELEC" ++ DQ ++ ": syntax error"))).
Proof. reflexivity. Qed.

Example lock_timeout_is_captured :
  fst (SQLiteConnector.execute_query env "DELETE FROM orders" 30
         opened_locked)
  = Returned (QueryResult.mk [] [] 0 2 (Some "database is locked")).
Proof. reflexivity. Qed.

Example missing_table_is_captured :
  fst (SQLiteConnector.execute_query env "SELECT * FROM nope" 30 opened)
  = Returned (QueryResult.mk [] [] 0 2 (Some "no such table: nope")).
Proof. reflexivity. Qed.

Example foreign_key_failure_is_captured :
  fst (SQLiteConnector.execute_query env "DELETE FROM t" 30 opened)
  = Returned (QueryResult.mk [] [] 0 2
                (Some "FOREIGN KEY constraint failed")).
Proof. reflexivity. Qed.

Example select_one :
  fst (SQLiteConnector.execute_query env "SELECT 1" 30 opened)
  = Returned (QueryResult.mk ["1"] [[VInt 1]] 1 2 None).
Proof. reflexivity. Qed.

Example select_in_any_case :
  fst (SQLiteConnector.execute_query env "  select 1" 30 opened)
  = Returned (QueryResult.mk ["1"] [[VInt 1]] 1 2 None).
Proof. reflexivity. Qed.

Example connect_gives_the_sample_connector :
  SQLiteConnector.connect env disk "/data/sample.db"
    (SQLiteConnector.__init__ env)
  = (Returned true, opened).
Proof. reflexivity. Qed.



(** C2 as the specification states it fails: CREATE TABLE is not read as a SELECT,
    is executed and committed, and changes no row of any table, yet the
    value under "affected_rows" is -1, not the number of rows changed. *)
Lemma create_table_reports_minus_one :
  ~ begins_with_keyword "SELECT" "CREATE TABLE u (a)"
  /\ exists (r : QueryResult.t) (self' : SQLiteConnector.t env),
       SQLiteConnector.execute_query env "CREATE TABLE u (a)" 30 opened
       = (Returned r, self')
       /\ QueryResult.columns r = ["affected_rows"]
       /\ QueryResult.rows r = [[VInt (-1)]]
       /\ QueryResult.rows r <> [[VInt 0]]
       /\ QueryResult.error r = None
       /\ all_rows (tables_of self') = all_rows (tables_of opened).
Proof.
  split.
  - intros H. apply is_select_iff in H. discriminate H.
  - eexists. eexists. split; [ reflexivity | ].
    repeat split; try reflexivity. discriminate.
Qed.

(** C2, at work: DELETE FROM orders on the one row of [orders], to which
    no other table refers. *)
Lemma delete_reports_rows_removed :
  exists (r : QueryResult.t) (self' : SQLiteConnector.t env),
    SQLiteConnector.execute_query env "DELETE FROM orders" 30 opened
    = (Returned r, self')
    /\ QueryResult.columns r = ["affected_rows"]
    /\ QueryResult.rows r = [[VInt 1]]
    /\ QueryResult.row_count r = 1
    /\ QueryResult.error r = None
    /\ all_rows (tables_of self') = t_rows people.
Proof.
  pose (pragma := "PRAGMA busy_timeout = 30000").
  pose (h1 := state_after fresh pragma).
  pose (h2 := state_after h1 "DELETE FROM orders").
  assert (Hnot : ~ begins_with_keyword "SELECT" "DELETE FROM orders").
  { intros H. apply is_select_iff in H. discriminate H. }
  assert (H0 : execute env fresh
                 ("PRAGMA busy_timeout = " ++ Py.decimal (30 * 1000)) []
               = (Ok (cursor_after fresh pragma), h1))
    by (vm_compute; reflexivity).
  assert (H1 : execute env h1 "DELETE FROM orders" []
               = (Ok (mkCursor None [] 1), h2))
    by (vm_compute; reflexivity).
  assert (H2 : commit env h2 = (Ok tt, tick h2))
    by (vm_compute; reflexivity).
  destruct (proj2 (execute_query_classifies_by_select env fresh h1 h2
                     (Some "/data/sample.db") "DELETE FROM orders" 30
                     _ _ eq_refl H0 H1)
              Hnot tt _ H2)
    as (r & Hr & Hcols & Hrows & Hcount & Herr).
  exists r. eexists. split; [ exact Hr | ].
  repeat split; try assumption.
Defined.




(** C4, at work. *)
Lemma unsupported_extension_is_named :
  ConnectorFactory.reachable ConnectorFactory._connectors
  /\ exists msg : string,
       ConnectorFactory.create_connector env ConnectorFactory._connectors
         "file.XYZ"
       = Raised (UnsupportedDatabaseError msg)
       /\ msg = "Unsupported file type: .xyz. Supported types: .db, .sqlite, .sqlite3"
       /\ Py.contains msg ".xyz" = true
       /\ Py.contains msg ".db" = true.
Proof.
  split; [ constructor | ].
  destruct (proj1 (create_connector_unsupported_or_fresh env
                     ConnectorFactory._connectors "file.XYZ"
                     (ConnectorFactory.reachable_seed)) eq_refl)
    as (msg & Hraise & Hmsg & Hext & _ & Hdb).
  exists msg. repeat split; assumption.
Defined.

Example supported_extension_gives_fresh_connector :
  ConnectorFactory.create_connector env ConnectorFactory._connectors
    "/data/Sample.DB"
  = Returned (SQLiteConnector.mk env None None).
Proof. reflexivity. Qed.

(** C6, at work: table [orders] has a two-column primary key. *)
Lemma orders_primary_keys :
  exists (schema : TableSchema.t) (self' : SQLiteConnector.t env),
    SQLiteConnector.get_schema env "orders" opened = (Returned schema, self')
    /\ TableSchema.primary_keys schema = [VStr "region"; VStr "no"]
    /\ TableSchema.primary_keys schema
       = map ColumnInfo.name
           (filter ColumnInfo.is_primary_key (TableSchema.columns schema)).
Proof.
  eexists. eexists. split; [ reflexivity | ]. split; [ reflexivity | ].
  exact (get_schema_primary_keys_agree env opened _ "orders" _ eq_refl).
Defined.

(** C9, at work on a connector that was never connected. *)
Lemma never_connected_raises_or_reports :
  SQLiteConnector.is_connected env (SQLiteConnector.__init__ env) = false
  /\ SQLiteConnector.get_table_data env "t" 0 100 None false
       (SQLiteConnector.__init__ env)
     = (Raised (QueryError "Not connected to database"),
        SQLiteConnector.__init__ env)
  /\ SQLiteConnector.execute_query env "SELECT 1" 30
       (SQLiteConnector.__init__ env)
     = (Returned (QueryResult.mk [] [] 0 0
                    (Some "Not connected to database")),
        SQLiteConnector.__init__ env).
Proof.
  split; [ reflexivity | ].
  exact (get_table_data_disconnected_raises env
           (SQLiteConnector.__init__ env) "t" 0 100 None false "SELECT 1" 30
           eq_refl).
Defined.

(** C10, at work: a missing file and a file with a foreign suffix, tried
    on an open connector. *)
Lemma missing_file_keeps_connection :
  path_exists env disk "/data/missing.db" = false
  /\ exists msg : string,
       SQLiteConnector.connect env disk "/data/missing.db" opened
       = (Raised (ConnectionError msg), opened)
       /\ (path_exists env disk "/data/missing.db" = false ->
           msg = "File not found: /data/missing.db").
Proof.
  split; [ reflexivity | ].
  exact (connect_rejected_keeps_state env disk "/data/missing.db" opened
           (or_introl eq_refl)).
Defined.

Example foreign_suffix_keeps_connection :
  SQLiteConnector.connect env disk "/data/notes.txt" opened
  = (Raised (ConnectionError
       "Unsupported file extension: .txt. Supported: .db, .sqlite, .sqlite3"),
     opened).
Proof. reflexivity. Qed.

End Runs.

Section HistoryRuns.
Import QueryHistoryDB SampleHistory.

(** C5 as the specification states it fails: a record whose execution time is
    the negative zero is written and read back, and the execution time
    read is 0.0, another double. *)
Lemma negative_zero_is_read_back_positive :
  exists r : QueryRecord.t,
    add_query None "2024-05-01T10:00:01" timed_negative_zero empty
    = (Returned 1, timed_negative_zero,
       snd (add_query None "2024-05-01T10:00:01" timed_negative_zero empty))
    /\ get_history None 100 None
         (snd (add_query None "2024-05-01T10:00:01" timed_negative_zero
                 empty))
       = [r]
    /\ QueryRecord.id r = Some 1
    /\ QueryRecord.execution_time r = Some 0%float
    /\ QueryRecord.execution_time r
       <> QueryRecord.execution_time timed_negative_zero.
Proof.
  eexists. split; [ reflexivity | ]. split; [ reflexivity | ].
  split; [ reflexivity | ]. split; [ reflexivity | ].
  intros H.
  apply (f_equal (fun x => match x with
                           | Some v => PrimFloat.classify v
                           | None => FloatClass.NaN
                           end)) in H.
  vm_compute in H. discriminate H.
Qed.

(** C5, at work: the record without a timestamp, written into the store
    that holds one earlier record. *)
Lemma failed_delete_round_trip :
  exists r : QueryRecord.t,
    In r (get_history None 100 None two)
    /\ QueryRecord.id r = Some 2
    /\ QueryRecord.database_path r = "/data/sample.db"
    /\ QueryRecord.query_text r = "DELETE FROM nope"
    /\ QueryRecord.execution_time r = Some 0.25%float
    /\ QueryRecord.row_count r = 0
    /\ QueryRecord.success r = false
    /\ QueryRecord.error_message r = "no such table: nope"
    /\ QueryRecord.timestamp r = "2024-05-02T09:30:00".
Proof.
  assert (Hadd : add_query None "2024-05-02T09:30:00" failed_delete one
                 = (Returned 2,
                    QueryRecord.set_timestamp failed_delete
                      "2024-05-02T09:30:00",
                    two)) by (vm_compute; reflexivity).
  assert (Hkept : kept_by_real (QueryRecord.execution_time failed_delete))
    by (vm_compute; split; discriminate).
  assert (Hlimit : Z.of_nat (List.length (query_history one)) < 100)
    by (vm_compute; reflexivity).
  destruct (add_query_get_history_round_trip "2024-05-02T09:30:00"
              failed_delete _ one two 2 100 None Hadd Hkept
              (or_introl eq_refl) (or_intror (or_introl Hlimit)))
    as (r & Hin & Hid & Hpath & Htext & Htime & Hcount & Hok & Herr & Hts & _).
  exists r. repeat split; assumption.
Defined.


Example delete_record_twice :
  delete_record None 1 two
  = (true, mkDatabase (tl (query_history two)) 2)
  /\ delete_record None 1 (snd (delete_record None 1 two))
     = (false, snd (delete_record None 1 two)).
Proof. split; reflexivity. Qed.

(** C8, the failing input: the term "_" is read by LIKE as "any one
    character", so the search returns the record of "SELECT 1", whose text
    has no underscore. *)
Lemma search_history_underscore :
  map QueryRecord.query_text (search_history None "_" 100 one) = ["SELECT 1"]
  /\ Py.contains (Py.upper "SELECT 1") (Py.upper "_") = false.
Proof. split; reflexivity. Qed.

Example search_history_in_any_case :
  map QueryRecord.query_text (search_history None "select" 100 two)
  = ["SELECT 1"].
Proof. reflexivity. Qed.

End HistoryRuns.

(* ------------------------------------------------------------------ *)
(** ** Further properties of the connector *)

Section ConnectorLifecycle.

Variable env : Env.

Lemma disconnect_closes (self : SQLiteConnector.t env) :
  SQLiteConnector.is_connected env (SQLiteConnector.disconnect env self)
  = false.
Proof.
  destruct self as [[h | ] path]; unfold SQLiteConnector.disconnect; cbn;
    [ destruct (close env h) | ]; reflexivity.
Qed.

Lemma disconnect_coherent (self : SQLiteConnector.t env) :
  coherent self ->
  SQLiteConnector.disconnect env self = SQLiteConnector.__init__ env.
Proof.
  destruct self as [[h | ] path]; unfold SQLiteConnector.disconnect, coherent;
    cbn.
  - destruct (close env h); reflexivity.
  - intros H. rewrite (H eq_refl). reflexivity.
Qed.

(** X1.  [disconnect] always leaves the connector closed, a second call
    changes nothing, and a connector that had a file path only while
    connected is back in the state [__init__] gives. *)
Theorem disconnect_is_idempotent :
  forall self : SQLiteConnector.t env,
    SQLiteConnector.disconnect env (SQLiteConnector.disconnect env self)
    = SQLiteConnector.disconnect env self
    /\ SQLiteConnector.is_connected env (SQLiteConnector.disconnect env self)
       = false
    /\ (coherent self ->
        SQLiteConnector.disconnect env self = SQLiteConnector.__init__ env).
Proof.
  intros [[h | ] path]; unfold SQLiteConnector.disconnect, coherent; cbn.
  - destruct (close env h); cbn; repeat split; reflexivity.
  - repeat split; try reflexivity.
    intros H. rewrite (H eq_refl). reflexivity.
Qed.

Lemma on_connection_same_link {A : Type}
    (not_connected : M (SQLiteConnector.t env) A)
    (body : M (connection env) A) (self : SQLiteConnector.t env) :
  (forall s, snd (not_connected s) = s) ->
  same_link (snd (SQLiteConnector.on_connection env not_connected body self))
            self.
Proof.
  intros Hnc. unfold SQLiteConnector.on_connection, same_link.
  destruct self as [[h | ] path]; cbn.
  - destruct (body h) as [r h']. cbn. split; reflexivity.
  - rewrite Hnc. split; reflexivity.
Qed.

(** X2.  No query method opens or closes the connection or touches the
    file path, whether it returns or raises: [execute_query],
    [get_table_data], [get_row_count], [get_schema], [get_tables] and
    [get_views] leave [is_connected] and [file_path] as they were. *)
Theorem queries_keep_the_link :
  forall (self : SQLiteConnector.t env) (query table_name : string)
         (timeout offset limit : Z) (order_by : option string)
         (order_desc : bool),
    same_link (snd (SQLiteConnector.execute_query env query timeout self)) self
    /\ same_link
         (snd (SQLiteConnector.get_table_data env table_name offset limit
                 order_by order_desc self)) self
    /\ same_link (snd (SQLiteConnector.get_row_count env table_name self)) self
    /\ same_link (snd (SQLiteConnector.get_schema env table_name self)) self
    /\ same_link (snd (SQLiteConnector.get_tables env self)) self
    /\ same_link (snd (SQLiteConnector.get_views env self)) self.
Proof.
  intros self query table_name timeout offset limit order_by order_desc.
  assert (Hq : forall q t,
             same_link (snd (SQLiteConnector.execute_query env q t self)) self)
    by (intros q t; apply on_connection_same_link; reflexivity).
  split; [ apply Hq | ].
  split.
  { unfold SQLiteConnector.get_table_data.
    destruct (negb (SQLiteConnector.is_connected env self));
      [ split; reflexivity | ].
    unfold bind.
    destruct (Z_lt_dec (Z.abs limit) Py.int_str_bound) as [Hl | Hl];
      [ destruct (Z_lt_dec (Z.abs offset) Py.int_str_bound) as [Ho | Ho] | ].
    - rewrite (page_statement_text env _ _ _ _ _ _ Hl Ho). apply Hq.
    - rewrite page_statement_long; [ split; reflexivity | ].
      intros [_ H]. exact (Ho H).
    - rewrite page_statement_long; [ split; reflexivity | ].
      intros [H _]. exact (Hl H). }
  repeat split; apply on_connection_same_link; reflexivity.
Qed.

(** X3.  A connector has a file path only while it is connected: this
    holds after [__init__], and [connect] and [disconnect] keep it, however
    [connect] ends. *)
Theorem file_path_only_while_connected :
  forall (fs : filesystem env) (path : string) (self : SQLiteConnector.t env),
    coherent self ->
    coherent (SQLiteConnector.__init__ env)
    /\ coherent (SQLiteConnector.disconnect env self)
    /\ coherent (snd (SQLiteConnector.connect env fs path self)).
Proof.
  intros fs path self Hself.
  split; [ intros _; reflexivity | ].
  split.
  { rewrite (disconnect_coherent self Hself). intros _. reflexivity. }
  unfold SQLiteConnector.connect.
  destruct (negb (path_exists env fs path)); [ exact Hself | ].
  destruct (negb (Py.str_in (Py.lower (Py.path_suffix path))
                    SQLiteConnector.SUPPORTED_EXTENSIONS)); [ exact Hself | ].
  unfold try_except_sqlite3, raise.
  assert (Hclosed : coherent
            (if SQLiteConnector.is_connected env self
             then SQLiteConnector.disconnect env self else self)).
  { destruct (SQLiteConnector.is_connected env self) eqn:E; [ | exact Hself ].
    rewrite (disconnect_coherent self Hself). intros _. reflexivity. }
  set (self1 := if SQLiteConnector.is_connected env self
                then SQLiteConnector.disconnect env self else self) in *.
  assert (Hoff : SQLiteConnector.is_connected env self1 = false).
  { unfold self1. destruct (SQLiteConnector.is_connected env self) eqn:E;
      [ apply disconnect_closes | exact E ]. }
  destruct (sqlite3_connect env fs path) as [h | msg]; cbn.
  - destruct (execute env h "PRAGMA foreign_keys = ON" [])
      as [[c | msg] h']; cbn; intros H; discriminate H.
  - exact Hclosed.
Qed.

(** X4.  Once the file has passed both checks, [connect] starts afresh:
    called on a connector that is already connected it does exactly what
    it does on a new one, the old connection being dropped first. *)
Theorem connect_starts_afresh :
  forall (fs : filesystem env) (path : string) (self : SQLiteConnector.t env),
    path_exists env fs path = true ->
    Py.str_in (Py.lower (Py.path_suffix path))
      SQLiteConnector.SUPPORTED_EXTENSIONS = true ->
    coherent self ->
    SQLiteConnector.connect env fs path self
    = SQLiteConnector.connect env fs path (SQLiteConnector.__init__ env).
Proof.
  intros fs path self Hexists Hsuffix Hself.
  unfold SQLiteConnector.connect, try_except_sqlite3.
  rewrite Hexists, Hsuffix. cbn [negb].
  assert (Hclosed : (if SQLiteConnector.is_connected env self
                     then SQLiteConnector.disconnect env self else self)
                    = SQLiteConnector.__init__ env).
  { destruct (SQLiteConnector.is_connected env self) eqn:E.
    - apply disconnect_coherent, Hself.
    - destruct self as [[h | ] p]; [ discriminate | ].
      unfold coherent in Hself. cbn in Hself.
      rewrite (Hself eq_refl). reflexivity. }
  rewrite Hclosed. reflexivity.
Qed.

(** X5.  When the file passes both checks but the driver cannot open it,
    [connect] raises ConnectionError("Failed to connect to database: ...")
    and the connector ends closed and without a path: a connection that
    was open before is gone.  When the driver opens the file but rejects
    the foreign-key pragma, the same error is raised and the connector is
    left holding the new connection with no file path. *)
Theorem connect_driver_failure_loses_the_connection :
  forall (fs : filesystem env) (path msg : string)
         (self : SQLiteConnector.t env),
    path_exists env fs path = true ->
    Py.str_in (Py.lower (Py.path_suffix path))
      SQLiteConnector.SUPPORTED_EXTENSIONS = true ->
    coherent self ->
    (sqlite3_connect env fs path = Error msg ->
     SQLiteConnector.connect env fs path self
     = (Raised (ConnectionError ("Failed to connect to database: " ++ msg)),
        SQLiteConnector.__init__ env))
    /\ (forall h h' : connection env,
          sqlite3_connect env fs path = Ok h ->
          execute env h "PRAGMA foreign_keys = ON" [] = (Error msg, h') ->
          SQLiteConnector.connect env fs path self
          = (Raised (ConnectionError
                       ("Failed to connect to database: " ++ msg)),
             SQLiteConnector.mk env (Some h') None)).
Proof.
  intros fs path msg self Hexists Hsuffix Hself.
  unfold SQLiteConnector.connect, try_except_sqlite3, raise.
  rewrite Hexists, Hsuffix. cbn [negb].
  assert (Hclosed : (if SQLiteConnector.is_connected env self
                     then SQLiteConnector.disconnect env self else self)
                    = SQLiteConnector.__init__ env).
  { destruct (SQLiteConnector.is_connected env self) eqn:E.
    - apply disconnect_coherent, Hself.
    - destruct self as [[h | ] p]; [ discriminate | ].
      unfold coherent in Hself. cbn in Hself.
      rewrite (Hself eq_refl). reflexivity. }
  rewrite Hclosed. split.
  - intros Hopen. rewrite Hopen. reflexivity.
  - intros h h' Hopen Hpragma. rewrite Hopen, Hpragma. reflexivity.
Qed.


Lemma try_except_never_sqlite3 {S A : Type} (body : M S A)
    (handler : string -> M S A) (s : S) :
  (forall msg s' msg', fst (handler msg s') <> Raised (Sqlite3Error msg')) ->
  forall msg', fst (try_except_sqlite3 body handler s)
               <> Raised (Sqlite3Error msg').
Proof.
  intros Hh msg'. unfold try_except_sqlite3.
  destruct (body s) as [[a | e] s']; cbn; [ discriminate | ].
  destruct e; cbn; try discriminate. apply Hh.
Qed.

Lemma on_connection_never_sqlite3 {A : Type}
    (not_connected : M (SQLiteConnector.t env) A)
    (body : M (connection env) A) (self : SQLiteConnector.t env)
    (msg : string) :
  (forall s, fst (not_connected s) <> Raised (Sqlite3Error msg)) ->
  (forall h, fst (body h) <> Raised (Sqlite3Error msg)) ->
  fst (SQLiteConnector.on_connection env not_connected body self)
  <> Raised (Sqlite3Error msg).
Proof.
  intros Hnc Hbody. unfold SQLiteConnector.on_connection.
  destruct (SQLiteConnector._connection env self) as [h | ]; [ | apply Hnc ].
  specialize (Hbody h). destruct (body h) as [r h']. exact Hbody.
Qed.

(** X7.  No [sqlite3.Error] leaves [get_schema] or [get_tables]: on a
    closed connector [get_schema] raises QueryError("Not connected to
    database") and [get_tables] returns the empty list, and a failure of
    the driver on their first statement comes out as a QueryError that
    carries the driver's message.  [get_views] returns the empty list in
    both cases. *)
Theorem catalog_errors_are_query_errors :
  forall (self : SQLiteConnector.t env) (table_name : string),
    (forall msg,
        fst (SQLiteConnector.get_schema env table_name self)
        <> Raised (Sqlite3Error msg)
        /\ fst (SQLiteConnector.get_tables env self)
           <> Raised (Sqlite3Error msg)
        /\ fst (SQLiteConnector.get_views env self)
           <> Raised (Sqlite3Error msg))
    /\ (SQLiteConnector.is_connected env self = false ->
        SQLiteConnector.get_schema env table_name self
        = (Raised (QueryError "Not connected to database"), self)
        /\ SQLiteConnector.get_tables env self = (Returned [], self)
        /\ SQLiteConnector.get_views env self = (Returned [], self))
    /\ (forall h h' msg,
          SQLiteConnector._connection env self = Some h ->
          (execute env h (SQLiteConnector.table_info_statement table_name) []
           = (Error msg, h') ->
           fst (SQLiteConnector.get_schema env table_name self)
           = Raised (QueryError ("Failed to get schema for " ++ table_name
                                 ++ ": " ++ msg)))
          /\ (execute env h SQLiteConnector.tables_statement []
              = (Error msg, h') ->
              fst (SQLiteConnector.get_tables env self)
              = Raised (QueryError ("Failed to get tables: " ++ msg)))
          /\ (execute env h SQLiteConnector.views_statement []
              = (Error msg, h') ->
              fst (SQLiteConnector.get_views env self) = Returned [])).
Proof.
  intros self table_name.
  split; [ | split ].
  - intros msg.
    repeat split; apply on_connection_never_sqlite3;
      try (intros; cbn; discriminate);
      intros h0; apply try_except_never_sqlite3;
      intros; cbn; discriminate.
  - intros Hc. destruct self as [[h | ] path]; [ discriminate | ].
    repeat split; reflexivity.
  - intros h h' msg Hh. destruct self as [c path]. cbn in Hh. subst c.
    unfold SQLiteConnector.get_schema, SQLiteConnector.get_tables,
      SQLiteConnector.get_views, SQLiteConnector.on_connection,
      SQLiteConnector.get_schema_body, try_except_sqlite3, bind,
      SQLiteConnector.cursor_execute, raise, ret.
    cbn [SQLiteConnector._connection SQLiteConnector._file_path].
    repeat split; intros Hx; rewrite Hx; reflexivity.
Qed.


(** *** The columns of a schema *)

Lemma for_each_read_column (rows : list row) :
  forall (columns columns' : list ColumnInfo.t)
         (primary_keys primary_keys' : list value) (h h' : connection env),
    for_each rows (columns, primary_keys) (SQLiteConnector.read_column env) h
    = (Returned (columns', primary_keys'), h') ->
    h' = h /\ columns' = (columns ++ map column_of_row rows)%list.
Proof.
  induction rows as [ | r rows IH];
    intros columns columns' primary_keys primary_keys' h h' H.
  - cbn in H. inversion H; subst. split; [ reflexivity | ].
    now rewrite app_nil_r.
  - cbn [for_each] in H. apply bind_returned in H.
    destruct H as ([cols1 pks1] & h1 & Hstep & Hrest).
    destruct r as [ | cid [ | name [ | data_type [ | notnull
      [ | default_value [ | pk [ | extra r]]]]]]]; try discriminate.
    cbn in Hstep. inversion Hstep; subst; clear Hstep.
    destruct (IH _ _ _ _ _ _ Hrest) as [-> ->].
    split; [ reflexivity | ].
    rewrite <- app_assoc. reflexivity.
Qed.

Lemma read_foreign_key_keeps_core acc r h acc' h' :
  SQLiteConnector.read_foreign_key env acc r h = (Returned acc', h') ->
  map column_core (snd acc') = map column_core (snd acc).
Proof.
  destruct acc as [foreign_keys columns]. intros H.
  destruct r as [ | fk_id [ | seq [ | ref_table [ | from_col [ | to_col
    [ | on_update [ | on_delete [ | match_ [ | extra r]]]]]]]]];
    try discriminate.
  cbn in H. inversion H; subst; clear H. cbn.
  rewrite map_map. apply map_ext. intros c.
  destruct (py_eq env (ColumnInfo.name c) from_col); reflexivity.
Qed.

(** X9.  The columns of a schema follow the rows of [PRAGMA table_info]
    one to one and in order: each column has the name, not-null flag
    (inverted into [nullable]), default and primary-key flag of its row,
    and the row's declared type, or "BLOB" where the catalog declares
    none; so no column of a schema has an empty type. *)
Theorem get_schema_columns_follow_table_info :
  forall (h h1 : connection env) (path : option string) (table_name : string)
         (cursor : Cursor) (schema : TableSchema.t)
         (self' : SQLiteConnector.t env),
    execute env h (SQLiteConnector.table_info_statement table_name) []
      = (Ok cursor, h1) ->
    SQLiteConnector.get_schema env table_name
      (SQLiteConnector.mk env (Some h) path)
    = (Returned schema, self') ->
    TableSchema.name schema = table_name
    /\ map column_core (TableSchema.columns schema)
       = map column_of_row (fetchall cursor)
    /\ Forall (fun c => truthy (ColumnInfo.data_type c) = true)
         (TableSchema.columns schema).
Proof.
  intros h h1 path table_name cursor schema self' Hinfo H.
  unfold SQLiteConnector.get_schema, SQLiteConnector.on_connection in H.
  cbn [SQLiteConnector._connection] in H.
  destruct (SQLiteConnector.get_schema_body env table_name h)
    as [res h'] eqn:Hbody.
  inversion H; subst; clear H.
  unfold SQLiteConnector.get_schema_body in Hbody.
  apply try_except_returned in Hbody.
  destruct Hbody as [Hbody | (msg & s1 & _ & Hraise)]; [ | discriminate ].
  apply bind_returned in Hbody. destruct Hbody as (c1 & h2 & Hc1 & Hbody).
  unfold SQLiteConnector.cursor_execute in Hc1. rewrite Hinfo in Hc1.
  inversion Hc1; subst c1 h2; clear Hc1.
  apply bind_returned in Hbody.
  destruct Hbody as ([columns primary_keys] & h2 & Hcols & Hbody).
  apply for_each_read_column in Hcols. destruct Hcols as [-> Hcols].
  cbn [app] in Hcols. subst columns.
  apply bind_returned in Hbody. destruct Hbody as (c2 & h3 & _ & Hbody).
  apply bind_returned in Hbody.
  destruct Hbody as ([foreign_keys columns'] & h4 & Hfks & Hbody).
  apply bind_returned in Hbody. destruct Hbody as (c3 & h5 & _ & Hbody).
  apply bind_returned in Hbody. destruct Hbody as (indexes & h6 & _ & Hbody).
  apply bind_returned in Hbody. destruct Hbody as (n & h7 & _ & Hbody).
  apply bind_returned in Hbody. destruct Hbody as (c4 & h8 & _ & Hbody).
  inversion Hbody; subst; clear Hbody. cbn.
  assert (Hcore : map column_core columns'
                  = map column_core (map column_of_row (fetchall cursor))).
  { change (map column_core (snd (foreign_keys, columns'))
            = map column_core (map column_of_row (fetchall cursor))).
    eapply (for_each_invariant
              (fun acc => map column_core (snd acc)
                          = map column_core
                              (map column_of_row (fetchall cursor))));
      [ | | exact Hfks ].
    - intros acc x s acc' s' HP Hstep.
      rewrite (read_foreign_key_keeps_core acc x s acc' s' Hstep).
      exact HP.
    - reflexivity. }
  split; [ reflexivity | ]. split.
  - rewrite Hcore, map_map. apply map_ext. intros r. reflexivity.
  - assert (Hall : Forall (fun c => truthy (ColumnInfo.data_type c) = true)
                     (map column_core columns')).
    { rewrite Hcore, map_map. apply Forall_forall. intros c Hc.
      apply in_map_iff in Hc. destruct Hc as (r & <- & _).
      cbn. destruct (truthy (nth 2 r VNone)) eqn:E; [ exact E | reflexivity ]. }
    apply Forall_forall. intros c Hc.
    rewrite Forall_forall in Hall.
    exact (Hall (column_core c) (in_map column_core _ c Hc)).
Qed.

(** *** Foreign keys *)

Lemma read_foreign_key_keeps_marks acc r h acc' h' :
  marked_by env (fst acc) (snd acc) ->
  SQLiteConnector.read_foreign_key env acc r h = (Returned acc', h') ->
  marked_by env (fst acc') (snd acc').
Proof.
  destruct acc as [foreign_keys columns]. cbn. intros Hm H.
  destruct r as [ | fk_id [ | seq [ | ref_table [ | from_col [ | to_col
    [ | on_update [ | on_delete [ | match_ [ | extra r]]]]]]]]];
    try discriminate.
  cbn in H. inversion H; subst; clear H. cbn.
  intros c' Hc'. apply in_map_iff in Hc'. destruct Hc' as (c & <- & Hc).
  destruct (py_eq env (ColumnInfo.name c) from_col) eqn:E.
  - cbn. split; [ intros _ | discriminate ].
    exists (ForeignKey.mk from_col ref_table to_col).
    split; [ apply in_or_app; right; now left | exact E ].
  - rewrite (Hm c Hc). split.
    + intros (fk & Hfk & Hp). exists fk.
      split; [ apply in_or_app; now left | exact Hp ].
    + intros (fk & Hfk & Hp). apply in_app_or in Hfk.
      destruct Hfk as [Hfk | [<- | []]]; [ eauto | ].
      cbn in Hp. congruence.
Qed.

(** X10.  In a schema the two records of foreign keys agree: a column
    has its [foreign_key] text set exactly when some entry of
    [foreign_keys] names it as its column. *)
Theorem get_schema_foreign_keys_agree :
  forall (self self' : SQLiteConnector.t env) (table_name : string)
         (schema : TableSchema.t),
    SQLiteConnector.get_schema env table_name self = (Returned schema, self') ->
    forall c, In c (TableSchema.columns schema) ->
      (ColumnInfo.foreign_key c <> None <->
       exists fk, In fk (TableSchema.foreign_keys schema)
                  /\ py_eq env (ColumnInfo.name c) (ForeignKey.column fk)
                     = true).
Proof.
  intros self self' table_name schema H.
  unfold SQLiteConnector.get_schema, SQLiteConnector.on_connection in H.
  destruct (SQLiteConnector._connection env self) as [h | ];
    [ | discriminate ].
  destruct (SQLiteConnector.get_schema_body env table_name h)
    as [res h'] eqn:Hbody.
  inversion H; subst; clear H.
  unfold SQLiteConnector.get_schema_body in Hbody.
  apply try_except_returned in Hbody.
  destruct Hbody as [Hbody | (msg & s1 & _ & Hraise)]; [ | discriminate ].
  apply bind_returned in Hbody. destruct Hbody as (c1 & h1 & _ & Hbody).
  apply bind_returned in Hbody.
  destruct Hbody as ([columns primary_keys] & h2 & Hcols & Hbody).
  apply for_each_read_column in Hcols. destruct Hcols as [-> Hcols].
  cbn [app] in Hcols. subst columns.
  apply bind_returned in Hbody. destruct Hbody as (c2 & h3 & _ & Hbody).
  apply bind_returned in Hbody.
  destruct Hbody as ([foreign_keys columns'] & h4 & Hfks & Hbody).
  apply bind_returned in Hbody. destruct Hbody as (c3 & h5 & _ & Hbody).
  apply bind_returned in Hbody. destruct Hbody as (indexes & h6 & _ & Hbody).
  apply bind_returned in Hbody. destruct Hbody as (n & h7 & _ & Hbody).
  apply bind_returned in Hbody. destruct Hbody as (c4 & h8 & _ & Hbody).
  inversion Hbody; subst; clear Hbody. cbn.
  change (marked_by env (fst (foreign_keys, columns'))
                    (snd (foreign_keys, columns'))).
  eapply (for_each_invariant (fun acc => marked_by env (fst acc) (snd acc)));
    [ | | exact Hfks ].
  - intros acc x s acc' s' HP Hstep.
    exact (read_foreign_key_keeps_marks acc x s acc' s' HP Hstep).
  - cbn. intros c Hc. apply in_map_iff in Hc. destruct Hc as (r & <- & _).
    cbn. split; [ intros Hn; now elim Hn | intros (fk & [] & _) ].
Qed.

End ConnectorLifecycle.

(* ------------------------------------------------------------------ *)
(** ** The pagination of DataViewer *)

Section Pagination.
Import DataViewer.

(** X11.  Every navigation slot keeps the current page among the pages:
    first, previous, next, last, a page number typed in (whatever the
    number), and a click on a column header. *)
Theorem navigation_stays_on_a_page :
  forall (self : DataViewer.t) (page : Z) (column_name : string),
    on_a_page self ->
    on_a_page (_on_first_page self)
    /\ on_a_page (_on_prev_page self)
    /\ on_a_page (_on_next_page self)
    /\ on_a_page (_on_last_page self)
    /\ on_a_page (_on_page_changed self page)
    /\ on_a_page (_on_header_clicked self column_name).
Proof.
  intros [conn name cp size rows ob desc] page column_name.
  unfold on_a_page, _on_first_page, _on_prev_page, _on_next_page,
    _on_last_page, _on_page_changed, _on_header_clicked, set_current_page,
    total_pages. cbn.
  set (pages := Z.max 1 ((rows + size - 1) / size)).
  assert (Hpages : 1 <= pages) by apply Z.le_max_l.
  intros Hcp.
  repeat split.
  all: repeat match goal with
         | |- context [if ?b then _ else _] => destruct b eqn:?
         | |- context [match ?o with Some _ => _ | None => _ end] =>
             destruct o eqn:?
         end; cbn; fold pages; try lia.
  all: rewrite ?andb_true_iff, ?negb_true_iff in *;
       repeat match goal with
         | H : _ /\ _ |- _ => destruct H
         | H : (_ <? _) = true |- _ => apply Z.ltb_lt in H
         | H : (_ <=? _) = true |- _ => apply Z.leb_le in H
         end; lia.
Qed.

(** X12.  The page [_load_data] asks of the connector starts inside the
    table: with a positive page size and the current page among the pages,
    the limit is the page size and the offset is non-negative and below the
    row count (it is 0 for an empty table). *)
Theorem page_starts_inside_the_table :
  forall (self : DataViewer.t) (name : string) (offset limit : Z)
         (order : option string) (desc : bool),
    0 < page_size self -> 0 <= total_rows self -> on_a_page self ->
    _load_data self = Some (name, offset, limit, order, desc) ->
    limit = page_size self
    /\ 0 <= offset
    /\ (0 < total_rows self -> offset < total_rows self)
    /\ (total_rows self = 0 -> offset = 0).
Proof.
  intros [conn tname cp size rows ob od] name offset limit order desc.
  unfold on_a_page, _load_data, total_pages. cbn.
  intros Hsize Hrows Hcp H.
  destruct conn; [ cbn in H | discriminate ].
  destruct tname as [n | ]; [ | discriminate ].
  destruct (n =? "")%string; [ discriminate | ].
  injection H as _ Hoffset Hlimit _ _. subst offset limit.
  pose proof (Z.mul_div_le (rows + size - 1) size Hsize) as Hdiv.
  split; [ reflexivity | ]. split; [ nia | ]. split.
  - intros Hpos.
    assert (1 <= (rows + size - 1) / size).
    { apply Z.div_le_lower_bound; lia. }
    rewrite Z.max_r in Hcp by lia. nia.
  - intros ->.
    assert ((0 + size - 1) / size = 0) by (apply Z.div_small; lia).
    rewrite H in Hcp. cbn in Hcp. assert (cp = 1) by lia. subst cp. lia.
Qed.

(** X13.  The pages partition the rows: with a positive page size, every
    row index below the row count lies in the window of exactly one page,
    and that page is one of the pages. *)
Theorem pages_cover_every_row :
  forall (self : DataViewer.t) (i : Z),
    0 < page_size self -> 0 <= i < total_rows self ->
    exists page : Z,
      1 <= page <= total_pages self
      /\ (page - 1) * page_size self <= i < page * page_size self
      /\ (forall other : Z,
            (other - 1) * page_size self <= i < other * page_size self ->
            other = page).
Proof.
  intros [conn tname cp size rows ob od] i. unfold total_pages. cbn.
  intros Hsize Hi.
  exists (i / size + 1).
  pose proof (Z.mul_div_le i size Hsize) as Hlow.
  pose proof (Z.mul_succ_div_gt i size Hsize) as Hhigh.
  assert (0 <= i / size) by (apply Z.div_pos; lia).
  assert (i / size + 1 <= (rows + size - 1) / size).
  { apply Z.div_le_lower_bound; [ lia | ]. nia. }
  split; [ lia | ]. split; [ nia | ].
  intros other Hother.
  assert (other - 1 = i / size); [ | lia ].
  apply (Z.div_unique i size (other - 1) (i - (other - 1) * size)).
  - left. lia.
  - lia.
Qed.

(** X14.  Next and previous undo one another: from a page that is not the
    last, next then previous comes back to it, and from a page that is not
    the first, previous then next does. *)
Theorem next_and_previous_undo :
  forall self : DataViewer.t,
    on_a_page self ->
    (current_page self < total_pages self ->
     _on_prev_page (_on_next_page self) = self)
    /\ (1 < current_page self ->
        _on_next_page (_on_prev_page self) = self).
Proof.
  intros [conn tname cp size rows ob od].
  unfold on_a_page, _on_prev_page, _on_next_page, set_current_page,
    total_pages. cbn.
  set (pages := Z.max 1 ((rows + size - 1) / size)).
  intros Hcp. split; intros H.
  - apply Z.ltb_lt in H. rewrite H. cbn. fold pages.
    assert (H1 : (1 <? cp + 1) = true) by (apply Z.ltb_lt; lia).
    rewrite H1. f_equal. lia.
  - apply Z.ltb_lt in H. rewrite H. cbn. fold pages.
    assert (H1 : (cp - 1 <? pages) = true) by (apply Z.ltb_lt; lia).
    rewrite H1. f_equal. lia.
Qed.

(** X15.  A click on a column header, with a table shown, goes back to
    page 1 and sorts by that column; clicking the same header again only
    flips the direction, so a third click gives what the first gave. *)
Theorem header_clicks_alternate :
  forall (self : DataViewer.t) (name column_name : string),
    table_name self = Some name -> name <> "" ->
    let once := _on_header_clicked self column_name in
    let twice := _on_header_clicked once column_name in
    current_page once = 1
    /\ order_by once = Some column_name
    /\ order_by twice = Some column_name
    /\ order_desc twice = negb (order_desc once)
    /\ _on_header_clicked twice column_name = once.
Proof.
  intros [conn tname cp size rows ob od] name column_name Hname Hne.
  cbn in Hname.
  subst tname.
  apply String.eqb_neq in Hne.
  unfold _on_header_clicked. cbn. rewrite Hne.
  destruct ob as [current | ]; cbn.
  - destruct (current =? column_name)%string eqn:E; cbn; rewrite Hne.
    + rewrite E. cbn. rewrite Hne, E. cbn.
      apply String.eqb_eq in E. subst.
      rewrite negb_involutive. repeat split; reflexivity.
    + rewrite String.eqb_refl. cbn. rewrite Hne, String.eqb_refl. cbn.
      repeat split; reflexivity.
  - rewrite Hne, String.eqb_refl. cbn. rewrite Hne, String.eqb_refl. cbn.
    repeat split; reflexivity.
Qed.

End Pagination.

(* ------------------------------------------------------------------ *)
(** ** The query text shown in the history table *)

Section ShownText.

Lemma all_chars_append (p : ascii -> bool) (a b : string) :
  all_chars p (a ++ b) = all_chars p a && all_chars p b.
Proof.
  induction a as [ | c a IH]; cbn; [ reflexivity | ].
  now rewrite IH, andb_assoc.
Qed.

Lemma all_chars_substring (p : ascii -> bool) (n : nat) (s : string) :
  all_chars p s = true -> all_chars p (substring 0 n s) = true.
Proof.
  revert s. induction n as [ | n IH]; intros [ | c s] H; try reflexivity.
  cbn in H |- *. apply andb_prop in H. destruct H as [Hc Hs].
  now rewrite Hc, (IH s Hs).
Qed.

Lemma length_substring_le (n : nat) (s : string) :
  (String.length (substring 0 n s) <= n)%nat.
Proof.
  revert s. induction n as [ | n IH]; intros [ | c s]; cbn; try lia.
  specialize (IH s). lia.
Qed.

Lemma length_string_append (a b : string) :
  String.length (a ++ b) = (String.length a + String.length b)%nat.
Proof. induction a as [ | c a IH]; cbn; [ reflexivity | now rewrite IH ]. Qed.

Lemma all_chars_strip (p : ascii -> bool) (s : string) :
  all_chars p s = true -> all_chars p (Py.strip s) = true.
Proof.
  intros H. unfold Py.strip.
  destruct (lstrip_split s) as (ws & Hs & _).
  rewrite Hs, all_chars_append in H. apply andb_prop in H.
  destruct H as [_ H].
  destruct (rstrip_split (Py.lstrip s)) as (tail & Ht).
  rewrite Ht, all_chars_append in H. apply andb_prop in H. tauto.
Qed.

Lemma one_line_replace_newlines (s : string) :
  one_line (HistoryViewer.replace_newlines s) = true.
Proof.
  unfold one_line, HistoryViewer.replace_newlines.
  induction s as [ | c s IH]; cbn; [ reflexivity | ].
  rewrite IH, andb_true_r.
  destruct (Ascii.eqb c "010") eqn:E; [ reflexivity | now rewrite E ].
Qed.

(** X16.  The query text shown in the history table is on one line and at
    most 103 characters long, whatever the stored text, and its first 100
    characters are the beginning of the stored text with line breaks turned
    into blanks and the ends stripped. *)
Theorem shown_query_text_fits :
  forall query_text : string,
    one_line (HistoryViewer.shown_query_text query_text) = true
    /\ (String.length (HistoryViewer.shown_query_text query_text) <= 103)%nat
    /\ String.prefix
         (substring 0 100 (HistoryViewer.shown_query_text query_text))
         (Py.strip (HistoryViewer.replace_newlines query_text)) = true.
Proof.
  intros query_text. unfold HistoryViewer.shown_query_text.
  set (clean := Py.strip (HistoryViewer.replace_newlines query_text)).
  assert (Hclean : one_line clean = true)
    by apply all_chars_strip, one_line_replace_newlines.
  assert (Hpre : forall n s, String.prefix (substring 0 n s) s = true).
  { intros n. induction n as [ | n IH]; intros [ | c s]; try reflexivity.
    cbn. destruct (ascii_dec c c) as [_ | ne]; [ apply IH | now elim ne ]. }
  destruct (100 <? String.length clean)%nat eqn:E.
  - split; [ | split ].
    + unfold one_line. rewrite all_chars_append.
      apply andb_true_intro. split; [ | reflexivity ].
      now apply all_chars_substring.
    + rewrite length_string_append.
      pose proof (length_substring_le 100 clean). cbn. lia.
    + assert (Hsame : substring 0 100 (substring 0 100 clean ++ "...")
                      = substring 0 100 clean).
      { apply Nat.ltb_lt in E. clear - E.
        generalize dependent clean. generalize 100%nat as n.
        induction n as [ | n IH]; intros s Hs.
        - destruct s; reflexivity.
        - destruct s as [ | c s]; [ cbn in Hs; lia | ].
          cbn. f_equal. apply IH. cbn in Hs. lia. }
      rewrite Hsame. apply Hpre.
  - apply Nat.ltb_ge in E. split; [ exact Hclean | ]. split; [ lia | ].
    apply Hpre.
Qed.

End ShownText.

(* ------------------------------------------------------------------ *)
(** ** Further properties of the factory *)

Section RegistryProperties.

Variable env : Env.

Lemma lower_char_idempotent (c : ascii) :
  Py.lower_char (Py.lower_char c) = Py.lower_char c.
Proof.
  destruct c as [[] [] [] [] [] [] [] []]; vm_compute; reflexivity.
Qed.

Lemma lower_char_dot (c : ascii) :
  Ascii.eqb (Py.lower_char c) "." = Ascii.eqb c ".".
Proof.
  destruct c as [[] [] [] [] [] [] [] []]; vm_compute; reflexivity.
Qed.

Lemma lower_idempotent (s : string) : Py.lower (Py.lower s) = Py.lower s.
Proof.
  unfold Py.lower. induction s as [ | c s IH]; cbn; [ reflexivity | ].
  now rewrite lower_char_idempotent, IH.
Qed.

Lemma startswith_dot (s : string) :
  Py.startswith s "."
  = match s with
    | EmptyString => false
    | String c _ => Ascii.eqb c "."
    end.
Proof.
  unfold Py.startswith. destruct s as [ | c s]; [ reflexivity | ].
  rewrite prefix_cons_eqb. cbn.
  rewrite Ascii.eqb_sym. destruct s; apply andb_true_r.
Qed.

Lemma startswith_dot_lower (s : string) :
  Py.startswith (Py.lower s) "." = Py.startswith s ".".
Proof.
  rewrite !startswith_dot. destruct s as [ | c s]; [ reflexivity | ].
  apply lower_char_dot.
Qed.

(** The key under which [register_connector] files an extension. *)
Lemma register_connector_key d extension c :
  ConnectorFactory.register_connector d extension c
  = ConnectorFactory.setitem d (registry_key extension) c.
Proof. reflexivity. Qed.

Lemma getitem_setitem_same d k v :
  ConnectorFactory.getitem (ConnectorFactory.setitem d k v) k = Some v.
Proof.
  induction d as [ | [k0 v0] d IH]; cbn.
  - now rewrite String.eqb_refl.
  - destruct (k0 =? k)%string eqn:E; cbn.
    + now rewrite String.eqb_refl.
    + now rewrite E.
Qed.

Lemma getitem_setitem_other d k v k' :
  k' <> k ->
  ConnectorFactory.getitem (ConnectorFactory.setitem d k v) k'
  = ConnectorFactory.getitem d k'.
Proof.
  intros Hne. induction d as [ | [k0 v0] d IH]; cbn.
  - apply not_eq_sym, String.eqb_neq in Hne. now rewrite Hne.
  - destruct (k0 =? k)%string eqn:E; cbn.
    + apply String.eqb_eq in E. subst k0.
      apply not_eq_sym, String.eqb_neq in Hne. now rewrite Hne.
    + destruct (k0 =? k')%string; [ reflexivity | exact IH ].
Qed.

Lemma in_keys_iff_getitem d k :
  In k (map fst d) <-> exists c, ConnectorFactory.getitem d k = Some c.
Proof.
  split; [ apply getitem_of_key | ].
  induction d as [ | [k0 v0] d IH]; cbn; [ intros (c & H); discriminate | ].
  destruct (k0 =? k)%string eqn:E.
  - apply String.eqb_eq in E. now left.
  - intros H. right. exact (IH H).
Qed.

Lemma is_supported_iff_getitem d path :
  ConnectorFactory.is_supported d path = true <->
  exists c, ConnectorFactory.getitem d (Py.lower (Py.path_suffix path))
            = Some c.
Proof.
  unfold ConnectorFactory.is_supported.
  rewrite str_in_iff. apply in_keys_iff_getitem.
Qed.

(** X17.  What [register_connector] files can be created at once: after
    registering an extension, given in any case and with or without its
    dot, every path whose lower-cased suffix is that extension is supported
    and [create_connector] returns a new connector of the registered
    class. *)
Theorem register_then_create :
  forall (d : ConnectorFactory.registry) (extension file_path : string)
         (c : ConnectorFactory.connector_class),
    Py.lower (Py.path_suffix file_path) = registry_key extension ->
    ConnectorFactory.is_supported
      (ConnectorFactory.register_connector d extension c) file_path = true
    /\ ConnectorFactory.create_connector env
         (ConnectorFactory.register_connector d extension c) file_path
       = Returned (ConnectorFactory.instantiate env c).
Proof.
  intros d extension file_path c Hkey.
  rewrite register_connector_key.
  assert (Hsup : ConnectorFactory.is_supported
                   (ConnectorFactory.setitem d (registry_key extension) c)
                   file_path = true).
  { apply is_supported_iff_getitem. rewrite Hkey.
    exists c. apply getitem_setitem_same. }
  split; [ exact Hsup | ].
  unfold ConnectorFactory.create_connector.
  unfold ConnectorFactory.is_supported in Hsup. rewrite Hsup. cbn [negb].
  now rewrite Hkey, getitem_setitem_same.
Qed.

(** X18.  Registering an extension leaves every other extension as it
    was: a path with another suffix is supported after the call exactly
    when it was before, and by the same class. *)
Theorem register_keeps_other_extensions :
  forall (d : ConnectorFactory.registry) (extension file_path : string)
         (c : ConnectorFactory.connector_class),
    Py.lower (Py.path_suffix file_path) <> registry_key extension ->
    ConnectorFactory.getitem
      (ConnectorFactory.register_connector d extension c)
      (Py.lower (Py.path_suffix file_path))
    = ConnectorFactory.getitem d (Py.lower (Py.path_suffix file_path))
    /\ ConnectorFactory.is_supported
         (ConnectorFactory.register_connector d extension c) file_path
       = ConnectorFactory.is_supported d file_path.
Proof.
  intros d extension file_path c Hne.
  rewrite register_connector_key.
  pose proof (getitem_setitem_other d (registry_key extension) c _ Hne) as Hg.
  split; [ exact Hg | ].
  destruct (ConnectorFactory.is_supported d file_path) eqn:E.
  - apply is_supported_iff_getitem. rewrite Hg.
    now apply is_supported_iff_getitem.
  - destruct (ConnectorFactory.is_supported
                (ConnectorFactory.setitem d (registry_key extension) c)
                file_path) eqn:E'; [ | reflexivity ].
    apply is_supported_iff_getitem in E'. rewrite Hg in E'.
    apply is_supported_iff_getitem in E'. congruence.
Qed.

Lemma setitem_keys d k v :
  map fst (ConnectorFactory.setitem d k v)
  = if Py.str_in k (map fst d) then map fst d
    else (map fst d ++ [k])%list.
Proof.
  unfold Py.str_in. induction d as [ | [k0 v0] d IH]; cbn; [ reflexivity | ].
  rewrite (String.eqb_sym k k0).
  destruct (k0 =? k)%string eqn:E; cbn.
  - apply String.eqb_eq in E. now subst.
  - rewrite IH. now destruct (existsb (String.eqb k) (map fst d)).
Qed.

(** X19.  In every state of the registry the supported extensions are
    listed once each, are in lower case and begin with a dot; registering
    an extension that is already there leaves the list as it is, and a new
    one goes to its end. *)
Theorem registry_keys_are_normal :
  forall d : ConnectorFactory.registry,
    ConnectorFactory.reachable d ->
    NoDup (ConnectorFactory.get_supported_extensions d)
    /\ (forall e, In e (ConnectorFactory.get_supported_extensions d) ->
                  Py.lower e = e /\ Py.startswith e "." = true)
    /\ (forall extension c,
          ConnectorFactory.get_supported_extensions
            (ConnectorFactory.register_connector d extension c)
          = if Py.str_in (registry_key extension)
                 (ConnectorFactory.get_supported_extensions d)
            then ConnectorFactory.get_supported_extensions d
            else (ConnectorFactory.get_supported_extensions d
                  ++ [registry_key extension])%list).
Proof.
  intros d Hd. unfold ConnectorFactory.get_supported_extensions.
  split; [ | split ].
  - induction Hd as [ | d extension c _ IH].
    + cbn. repeat constructor; cbn; intuition discriminate.
    + rewrite register_connector_key, setitem_keys.
      destruct (Py.str_in (registry_key extension) (map fst d)) eqn:E;
        [ exact IH | ].
      apply NoDup_app; [ exact IH | repeat constructor; intros [] | ].
      intros k Hk [<- | []].
      apply str_in_iff in Hk. congruence.
  - induction Hd as [ | d extension c _ IH]; intros e He.
    + cbn in He. destruct He as [<- | [<- | [<- | []]]]; split; reflexivity.
    + rewrite register_connector_key, setitem_keys in He.
      assert (Hkey : Py.lower (registry_key extension) = registry_key extension
                     /\ Py.startswith (registry_key extension) "." = true).
      { unfold registry_key. split; [ apply lower_idempotent | ].
        rewrite startswith_dot_lower.
        destruct (Py.startswith extension ".") eqn:E; cbn [negb];
          [ exact E | ].
        rewrite startswith_dot. reflexivity. }
      destruct (Py.str_in (registry_key extension) (map fst d));
        [ exact (IH e He) | ].
      apply in_app_or in He. destruct He as [He | [<- | []]];
        [ exact (IH e He) | exact Hkey ].
  - intros extension c. rewrite register_connector_key. apply setitem_keys.
Qed.

(** X20.  [is_supported] tells what [create_connector] and
    [get_database_type] will do, in every state of the registry: a path is
    supported exactly when [create_connector] returns a connector, and
    then [get_database_type] is "SQLite"; otherwise both raise
    UnsupportedDatabaseError. *)
Theorem is_supported_decides_creation :
  forall (d : ConnectorFactory.registry) (file_path : string),
    (ConnectorFactory.is_supported d file_path = true ->
     (exists c, ConnectorFactory.create_connector env d file_path
                = Returned c)
     /\ ConnectorFactory.get_database_type env d file_path
        = Returned "SQLite")
    /\ (ConnectorFactory.is_supported d file_path = false ->
        exists msg,
          ConnectorFactory.create_connector env d file_path
          = Raised (UnsupportedDatabaseError msg)
          /\ ConnectorFactory.get_database_type env d file_path
             = Raised (UnsupportedDatabaseError msg)).
Proof.
  intros d file_path.
  unfold ConnectorFactory.get_database_type,
    ConnectorFactory.create_connector, ConnectorFactory.is_supported.
  split; intros H; rewrite H; cbn [negb].
  - apply str_in_iff, getitem_of_key in H. destruct H as [c Hc].
    rewrite Hc. split; [ eauto | reflexivity ].
  - eexists. split; reflexivity.
Qed.

(** X21.  The seeded registry and the connector agree on the extensions:
    a path the seeded factory accepts passes the extension check of
    [connect], so on an existing file [connect] either returns True or
    raises the ConnectionError of a driver failure. *)
Theorem seeded_factory_agrees_with_connect :
  forall (fs : filesystem env) (file_path : string)
         (self : SQLiteConnector.t env),
    ConnectorFactory.is_supported ConnectorFactory._connectors file_path
    = Py.str_in (Py.lower (Py.path_suffix file_path))
        SQLiteConnector.SUPPORTED_EXTENSIONS
    /\ (ConnectorFactory.is_supported ConnectorFactory._connectors file_path
        = true ->
        path_exists env fs file_path = true ->
        fst (SQLiteConnector.connect env fs file_path self) = Returned true
        \/ exists msg,
             fst (SQLiteConnector.connect env fs file_path self)
             = Raised (ConnectionError
                         ("Failed to connect to database: " ++ msg))).
Proof.
  intros fs file_path self. split; [ reflexivity | ].
  intros Hsup Hexists.
  change (ConnectorFactory.is_supported ConnectorFactory._connectors file_path)
    with (Py.str_in (Py.lower (Py.path_suffix file_path))
            SQLiteConnector.SUPPORTED_EXTENSIONS) in Hsup.
  unfold SQLiteConnector.connect, try_except_sqlite3, raise.
  rewrite Hexists, Hsup. cbn [negb].
  destruct (sqlite3_connect env fs file_path) as [h | msg]; cbn.
  - destruct (execute env h "PRAGMA foreign_keys = ON" [])
      as [[c | msg] h']; cbn; eauto.
  - eauto.
Qed.

(** The file-dialog filter names every supported extension: each one
    appears in [get_file_filter], and so in [get_all_filters], as a pattern
    [*ext]. *)
Lemma file_filter_lists_every_extension :
  forall (d : ConnectorFactory.registry) (e : string),
    In e (ConnectorFactory.get_supported_extensions d) ->
    Py.contains (ConnectorFactory.get_file_filter d) ("*" ++ e) = true
    /\ Py.contains (ConnectorFactory.get_all_filters d) ("*" ++ e) = true.
Proof.
  intros d e He. unfold ConnectorFactory.get_supported_extensions in He.
  assert (H : Py.contains (ConnectorFactory.get_file_filter d) ("*" ++ e)
              = true).
  { unfold ConnectorFactory.get_file_filter.
    apply (contains_append_r "Database Files (").
    apply contains_append_l, contains_join.
    apply in_map_iff. exists e. split; [ reflexivity | exact He ]. }
  split; [ exact H | ].
  unfold ConnectorFactory.get_all_filters.
  apply contains_join_item with (x := ConnectorFactory.get_file_filter d);
    [ now left | exact H ].
Qed.

End RegistryProperties.

(* ------------------------------------------------------------------ *)
(** ** Further properties of the history store *)

Section StoreInvariant.
Import QueryHistoryDB HistoryFacts.

Lemma fold_max_bound (ids : list Z) (s : Z) :
  (forall i, In i ids -> i <= s) -> fold_right Z.max s ids = s.
Proof.
  induction ids as [ | i ids IH]; intros H; cbn; [ reflexivity | ].
  rewrite IH by (intros j Hj; apply H; now right).
  apply Z.max_r, H. now left.
Qed.

Lemma next_id_well_formed (db : database) :
  well_formed db -> next_id db = sqlite_sequence db + 1.
Proof.
  intros (_ & Hids & _). unfold next_id.
  rewrite fold_max_bound; [ reflexivity | ].
  intros i Hi. apply in_map_iff in Hi. destruct Hi as (x & <- & Hx).
  apply Hids, Hx.
Qed.

Lemma nodup_map_filter {A B : Type} (f : A -> B) (p : A -> bool)
    (l : list A) :
  NoDup (map f l) -> NoDup (map f (filter p l)).
Proof.
  induction l as [ | x l IH]; cbn; [ auto | ].
  intros H. inversion H as [ | ? ? Hx Hl]; subst.
  destruct (p x); cbn; [ | exact (IH Hl) ].
  constructor; [ | exact (IH Hl) ].
  intros Hin. apply Hx. apply in_map_iff in Hin.
  destruct Hin as (y & Hy & Hf). apply filter_In in Hf.
  apply in_map_iff. exists y. tauto.
Qed.

Lemma well_formed_empty : well_formed empty.
Proof.
  unfold well_formed. cbn. repeat split; try lia; try constructor;
    intros x [].
Qed.

(** The row [add_query] writes for a record, under a given id. *)
Definition row_of (record_id : Z) (now : string) (record : QueryRecord.t)
  : stored :=
  mkStored record_id
    (QueryRecord.database_path record)
    (QueryRecord.query_text record)
    (if (QueryRecord.timestamp record =? "")%string then now
     else QueryRecord.timestamp record)
    (bind_real (QueryRecord.execution_time record))
    (QueryRecord.row_count record)
    (int_of_bool (QueryRecord.success record))
    (QueryRecord.error_message record).

(** What a call of [add_query] that writes does to a well-formed store. *)
Lemma add_query_writes (now : string) (record : QueryRecord.t)
    (db : database) :
  well_formed db ->
  fits_int64 (QueryRecord.row_count record) = true ->
  add_query None now record db
  = (Returned (sqlite_sequence db + 1),
     (if (QueryRecord.timestamp record =? "")%string
      then QueryRecord.set_timestamp record now else record),
     mkDatabase
       (query_history db ++ [row_of (sqlite_sequence db + 1) now record])
       (sqlite_sequence db + 1)).
Proof.
  intros Hwf Hfit. unfold add_query.
  rewrite stamped_row_count, Hfit, (next_id_well_formed db Hwf).
  cbn [negb]. unfold row_of.
  destruct (QueryRecord.timestamp record =? "")%string; reflexivity.
Qed.

(** Every other call leaves the store as it was, and returns -1 or raises
    OverflowError. *)
Lemma add_query_keeps (f : fault) (now : string) (record : QueryRecord.t)
    (db : database) :
  f <> None \/ fits_int64 (QueryRecord.row_count record) = false ->
  snd (add_query f now record db) = db
  /\ (fst (fst (add_query f now record db)) = Returned (-1)
      \/ fst (fst (add_query f now record db)) = Raised int_too_large).
Proof.
  intros H. unfold add_query. rewrite stamped_row_count.
  destruct f as [[[] msg] | ]; cbn [fst snd]; auto;
    destruct (fits_int64 (QueryRecord.row_count record)); cbn [negb fst snd];
    auto.
  destruct H as [H | H]; [ now elim H | discriminate H ].
Qed.

Lemma add_query_cases (f : fault) (now : string) (record : QueryRecord.t)
    (db : database) :
  (f = None /\ fits_int64 (QueryRecord.row_count record) = true)
  \/ (f <> None \/ fits_int64 (QueryRecord.row_count record) = false).
Proof.
  destruct f; [ right; left; discriminate | ].
  destruct (fits_int64 (QueryRecord.row_count record)); auto.
Qed.

Lemma row_of_success (record_id : Z) (now : string)
    (record : QueryRecord.t) :
  col_success (row_of record_id now record) = 0
  \/ col_success (row_of record_id now record) = 1.
Proof. cbn. destruct (QueryRecord.success record); cbn; auto. Qed.

Lemma well_formed_after_call (db : database) (c : call) :
  well_formed db -> well_formed (after_call db c).
Proof.
  intros Hwf. destruct c as [f now record | f record_id | f];
    cbn [after_call].
  - destruct (add_query_cases f now record db) as [[-> Hfit] | Hkeep].
    + rewrite (add_query_writes now record db Hwf Hfit). cbn [snd].
      pose proof (row_of_success (sqlite_sequence db + 1) now record) as Hok.
      set (x := row_of (sqlite_sequence db + 1) now record) in *.
      assert (Hid : col_id x = sqlite_sequence db + 1) by reflexivity.
      clearbody x.
      destruct Hwf as (Hseq & Hids & Hnodup & Hsucc).
      unfold well_formed. cbn [query_history sqlite_sequence].
      split; [ lia | ]. split; [ | split ].
      * intros y Hy. apply in_app_or in Hy.
        destruct Hy as [Hy | [<- | []]]; [ specialize (Hids y Hy); lia | lia ].
      * rewrite map_app. apply NoDup_app; [ exact Hnodup | | ].
        -- cbn. repeat constructor. intros [].
        -- intros i Hi [<- | []]. apply in_map_iff in Hi.
           destruct Hi as (y & Hy & Hin). specialize (Hids y Hin). lia.
      * intros y Hy. apply in_app_or in Hy.
        destruct Hy as [Hy | [<- | []]]; [ exact (Hsucc y Hy) | exact Hok ].
    + destruct (add_query_keeps f now record db Hkeep) as [-> _]. exact Hwf.
  - destruct f as [flt | ]; [ exact Hwf | ].
    destruct Hwf as (Hseq & Hids & Hnodup & Hsucc).
    unfold well_formed, delete_record. cbn.
    split; [ exact Hseq | ]. split; [ | split ].
    + intros y Hy. apply filter_In in Hy. apply Hids. tauto.
    + now apply nodup_map_filter.
    + intros y Hy. apply filter_In in Hy. apply Hsucc. tauto.
  - destruct f as [flt | ]; [ exact Hwf | ].
    destruct Hwf as (Hseq & _). unfold well_formed, clear_history. cbn.
    split; [ exact Hseq | ].
    split; [ intros y [] | split; [ constructor | intros y [] ] ].
Qed.

Lemma well_formed_after_calls (cs : list call) (db : database) :
  well_formed db -> well_formed (after_calls db cs).
Proof.
  unfold after_calls. revert db.
  induction cs as [ | c cs IH]; intros db Hwf; cbn; [ exact Hwf | ].
  apply IH, well_formed_after_call, Hwf.
Qed.

Lemma sequence_never_decreases (db : database) (c : call) :
  well_formed db -> sqlite_sequence db <= sqlite_sequence (after_call db c).
Proof.
  intros Hwf. destruct c as [f now record | f record_id | f];
    cbn [after_call].
  - destruct (add_query_cases f now record db) as [[-> Hfit] | Hkeep].
    + rewrite (add_query_writes now record db Hwf Hfit). cbn. lia.
    + destruct (add_query_keeps f now record db Hkeep) as [-> _]. lia.
  - destruct f; cbn; lia.
  - destruct f; cbn; lia.
Qed.

Lemma real_ids_increase (cs : list call) :
  forall db : database,
    well_formed db ->
    StronglySorted Z.lt (real_ids (ids_returned db cs))
    /\ Forall (fun i => sqlite_sequence db < i)
         (real_ids (ids_returned db cs)).
Proof.
  unfold real_ids.
  induction cs as [ | c cs IH]; intros db Hwf; cbn [ids_returned];
    [ split; constructor | ].
  pose proof (well_formed_after_call db c Hwf) as Hwf'.
  pose proof (sequence_never_decreases db c Hwf) as Hmono.
  destruct (IH (after_call db c) Hwf') as [Hsorted Hall].
  assert (Hweak : Forall (fun i => sqlite_sequence db < i)
                    (filter (fun i => negb (i =? -1))
                       (ids_returned (after_call db c) cs))).
  { eapply Forall_impl; [ | exact Hall ]. cbn. intros i Hi. lia. }
  destruct c as [f now record | f record_id | f];
    try (split; [ exact Hsorted | exact Hweak ]).
  destruct (add_query_cases f now record db) as [[-> Hfit] | Hkeep].
  - cbn [after_call] in Hall, Hsorted |- *.
    rewrite (add_query_writes now record db Hwf Hfit) in Hall, Hsorted |- *.
    cbn [fst snd sqlite_sequence] in Hall, Hsorted |- *.
    destruct Hwf as (Hseq & _). cbn [filter].
    destruct (sqlite_sequence db + 1 =? -1) eqn:E;
      [ apply Z.eqb_eq in E; lia | ].
    cbn [negb]. split.
    + constructor; [ exact Hsorted | exact Hall ].
    + constructor; [ lia | ].
      eapply Forall_impl; [ | exact Hall ]. cbn. intros i Hi. lia.
  - destruct (add_query_keeps f now record db Hkeep) as [_ [-> | ->]].
    + cbn [filter Z.eqb negb]. split; [ exact Hsorted | exact Hweak ].
    + split; [ exact Hsorted | exact Hweak ].
Qed.

(** X22.  Ids are never given twice: over any sequence of [add_query],
    [delete_record] and [clear_history] calls on a new store, failing or
    not, the ids that the successful [add_query] calls return are positive
    and strictly increasing, also across deletions and a clear. *)
Theorem ids_are_never_reused :
  forall cs : list call,
    StronglySorted Z.lt (real_ids (ids_returned empty cs))
    /\ Forall (fun i => 1 <= i) (real_ids (ids_returned empty cs)).
Proof.
  intros cs.
  destruct (real_ids_increase cs empty well_formed_empty) as [Hs Hall].
  split; [ exact Hs | ].
  eapply Forall_impl; [ | exact Hall ]. cbn. intros i Hi. lia.
Qed.


End StoreInvariant.

Section HistoryReads.
Import QueryHistoryDB HistoryFacts.

Lemma filter_all {A : Type} (l : list A) : filter (fun _ => true) l = l.
Proof. induction l as [ | x l IH]; cbn; [ reflexivity | now rewrite IH ]. Qed.

(** [get_history] in one expression: select, order, limit, read. *)
Lemma get_history_unfold (limit : Z) (path : option string) (db : database) :
  get_history None limit path db
  = map to_record
      (sql_limit limit
         (order_by_timestamp_desc
            (filter (fun x => admits path (to_record x)) (query_history db)))).
Proof.
  unfold get_history, admits. destruct path as [p | ].
  - destruct (p =? "")%string; [ now rewrite filter_all | reflexivity ].
  - now rewrite filter_all.
Qed.

(** X24.  [get_history] lists stored records only, the most recent first,
    never more than a non-negative limit, and with a path given (and not
    empty) only records of that path; when the driver fails it returns
    the empty list. *)
Theorem get_history_is_ordered_and_bounded :
  forall (f : fault) (limit : Z) (path : option string) (db : database),
    Sorted not_older (get_history f limit path db)
    /\ (0 <= limit ->
        Z.of_nat (List.length (get_history f limit path db)) <= limit)
    /\ (forall r, In r (get_history f limit path db) ->
          admits path r = true
          /\ exists x, In x (query_history db) /\ r = to_record x)
    /\ (f <> None -> get_history f limit path db = []).
Proof.
  intros f limit path db. destruct f as [flt | ].
  - cbn. repeat split; try constructor; try lia; try contradiction.
  - rewrite get_history_unfold. split; [ | split; [ | split ] ].
    + apply sorted_to_record, sorted_sql_limit, sorted_order_by.
    + intros Hl. rewrite length_map. now apply length_sql_limit.
    + intros r Hr. apply in_map_iff in Hr. destruct Hr as (x & <- & Hx).
      apply in_sql_limit in Hx. apply (proj1 (in_order_by _ _)) in Hx.
      apply filter_In in Hx. destruct Hx as [Hx Hp].
      split; [ exact Hp | eauto ].
    + intros H. now elim H.
Qed.

Lemma in_get_history_unlimited (limit : Z) (path : option string)
    (db : database) :
  limit < 0 ->
  forall r, In r (get_history None limit path db) <->
            exists x, In x (query_history db)
                      /\ r = to_record x /\ admits path r = true.
Proof.
  intros Hl r. rewrite get_history_unfold.
  rewrite sql_limit_all by (left; exact Hl).
  rewrite in_map_iff. split.
  - intros (x & <- & Hx). apply (proj1 (in_order_by _ _)) in Hx.
    apply filter_In in Hx. destruct Hx as [Hx Hp]. eauto.
  - intros (x & Hx & -> & Hp). exists x. split; [ reflexivity | ].
    apply in_order_by, filter_In. tauto.
Qed.

(** X25.  Without a limit (a negative one) [get_history] is complete: it
    returns exactly the stored records the path admits, as many as there
    are; and an empty path admits every record, as no path does. *)
Theorem get_history_without_limit_is_complete :
  forall (limit : Z) (path : option string) (db : database),
    limit < 0 ->
    (forall r, In r (get_history None limit path db) <->
               exists x, In x (query_history db)
                         /\ r = to_record x /\ admits path r = true)
    /\ List.length (get_history None limit path db)
       = List.length
           (filter (fun x => admits path (to_record x)) (query_history db))
    /\ get_history None limit (Some "") db = get_history None limit None db.
Proof.
  intros limit path db Hl.
  split; [ exact (in_get_history_unlimited limit path db Hl) | ].
  rewrite !get_history_unfold.
  rewrite !sql_limit_all by (left; exact Hl).
  split.
  - now rewrite length_map, length_order_by.
  - reflexivity.
Qed.

(** X26.  Deletions show in the history: after [delete_record] the
    unlimited history holds the records it held before but for those with
    the deleted id, and after [clear_history] both [get_history] and
    [search_history] return the empty list. *)
Theorem deletions_show_in_history :
  forall (db : database) (record_id limit : Z) (path : option string)
         (f : fault) (term : string),
    limit < 0 ->
    (forall r,
        In r (get_history None limit path
                (snd (delete_record None record_id db))) <->
        In r (get_history None limit path db)
        /\ QueryRecord.id r <> Some record_id)
    /\ get_history f limit path (snd (clear_history None db)) = []
    /\ search_history f term limit (snd (clear_history None db)) = [].
Proof.
  intros db record_id limit path f term Hl.
  split; [ | split ].
  - intros r.
    pose proof (in_get_history_unlimited limit path db Hl) as Hbefore.
    pose proof (in_get_history_unlimited limit path
                  (snd (delete_record None record_id db)) Hl) as Hafter.
    rewrite Hafter, Hbefore. cbn. split.
    + intros (x & Hx & -> & Hp). apply filter_In in Hx.
      destruct Hx as [Hx Hid]. split; [ eauto | ].
      cbn. apply negb_true_iff, Z.eqb_neq in Hid. congruence.
    + intros ((x & Hx & -> & Hp) & Hid). exists x.
      split; [ | tauto ]. apply filter_In. split; [ exact Hx | ].
      apply negb_true_iff, Z.eqb_neq. cbn in Hid. congruence.
  - destruct f; [ reflexivity | ]. rewrite get_history_unfold. cbn.
    unfold sql_limit. destruct (limit <? 0); [ reflexivity | ].
    now rewrite firstn_nil.
  - destruct f; [ reflexivity | ]. unfold search_history. cbn.
    unfold sql_limit. destruct (limit <? 0); [ reflexivity | ].
    now rewrite firstn_nil.
Qed.

(** *** Searching *)

Lemma like_match_all (text : string) : like "%%" text = true.
Proof.
  induction text as [ | c text IH].
  - reflexivity.
  - rewrite like_any_run, like_percent. reflexivity.
Qed.

(** X27.  An empty search term finds everything: [search_history] with
    the term "" returns what [get_history] returns without a path, limit
    for limit. *)
Theorem search_history_empty_term :
  forall (f : fault) (limit : Z) (db : database),
    search_history f "" limit db = get_history f limit None db.
Proof.
  intros f limit db. unfold search_history, get_history.
  destruct f; [ reflexivity | ].
  do 3 f_equal. rewrite <- (filter_all (query_history db)) at 2.
  apply filter_ext. intros x. apply like_match_all.
Qed.

Lemma map_chars_append (g : ascii -> ascii) (a b : string) :
  Py.map_chars g (a ++ b) = Py.map_chars g a ++ Py.map_chars g b.
Proof.
  induction a as [ | c a IH]; cbn; [ reflexivity | now rewrite IH ].
Qed.

(** Recasing a pattern does not change what it matches. *)
Lemma like_recased (g : ascii -> ascii) :
  (forall c, Ascii.eqb (g c) "%" = Ascii.eqb c "%"
             /\ Ascii.eqb (g c) "_" = Ascii.eqb c "_"
             /\ Py.upper_char (g c) = Py.upper_char c) ->
  forall pattern text,
    like (Py.map_chars g pattern) text = like pattern text.
Proof.
  intros Hg pattern.
  induction pattern as [ | c pattern IH]; intros text; [ reflexivity | ].
  destruct (Hg c) as (Hpercent & Hunder & Hup).
  change (Py.map_chars g (String c pattern))
    with (String (g c) (Py.map_chars g pattern)).
  destruct (Ascii.eqb c "%") eqn:E.
  - apply Ascii.eqb_eq in E. subst c.
    apply Ascii.eqb_eq in Hpercent. rewrite Hpercent.
    induction text as [ | d text IHt].
    + rewrite !like_any_run, IH. reflexivity.
    + rewrite (like_any_run (Py.map_chars g pattern)),
        (like_any_run pattern), IH, IHt. reflexivity.
  - cbn [like]. rewrite Hpercent, E.
    destruct text as [ | d text]; [ reflexivity | ].
    now rewrite Hunder, Hup, IH.
Qed.

Lemma upper_char_keeps (c : ascii) :
  Ascii.eqb (Py.upper_char c) "%" = Ascii.eqb c "%"
  /\ Ascii.eqb (Py.upper_char c) "_" = Ascii.eqb c "_"
  /\ Py.upper_char (Py.upper_char c) = Py.upper_char c.
Proof.
  destruct c as [[] [] [] [] [] [] [] []]; vm_compute;
    repeat split; reflexivity.
Qed.

Lemma lower_char_keeps (c : ascii) :
  Ascii.eqb (Py.lower_char c) "%" = Ascii.eqb c "%"
  /\ Ascii.eqb (Py.lower_char c) "_" = Ascii.eqb c "_"
  /\ Py.upper_char (Py.lower_char c) = Py.upper_char c.
Proof.
  destruct c as [[] [] [] [] [] [] [] []]; vm_compute;
    repeat split; reflexivity.
Qed.

(** X28.  The case of the search term does not matter: [search_history]
    returns the same records for a term, for the term in capitals and for
    the term in small letters. *)
Theorem search_history_ignores_case :
  forall (f : fault) (term : string) (limit : Z) (db : database),
    search_history f (Py.upper term) limit db = search_history f term limit db
    /\ search_history f (Py.lower term) limit db
       = search_history f term limit db.
Proof.
  intros f term limit db. unfold search_history.
  destruct f; [ split; reflexivity | ].
  split; do 3 f_equal; apply filter_ext; intros x.
  - change ("%" ++ Py.upper term ++ "%")
      with (Py.map_chars Py.upper_char "%" ++ Py.upper term
            ++ Py.map_chars Py.upper_char "%").
    unfold Py.upper. rewrite <- !map_chars_append.
    apply like_recased, upper_char_keeps.
  - change ("%" ++ Py.lower term ++ "%")
      with (Py.map_chars Py.lower_char "%" ++ Py.lower term
            ++ Py.map_chars Py.lower_char "%").
    unfold Py.lower. rewrite <- !map_chars_append.
    apply like_recased, lower_char_keeps.
Qed.

(** X29.  Whatever the term, [search_history] returns records of the
    history only, the most recent first and never more than a non-negative
    limit; each of them matches the pattern made of the term, and with no
    limit every stored record that matches is returned. *)
Theorem search_history_is_part_of_history :
  forall (f : fault) (term : string) (limit : Z) (db : database),
    Sorted not_older (search_history f term limit db)
    /\ (0 <= limit ->
        Z.of_nat (List.length (search_history f term limit db)) <= limit)
    /\ (forall r, In r (search_history f term limit db) ->
          In r (get_history None (-1) None db)
          /\ like ("%" ++ term ++ "%") (QueryRecord.query_text r) = true)
    /\ (limit < 0 ->
        forall r, In r (get_history None (-1) None db) ->
          like ("%" ++ term ++ "%") (QueryRecord.query_text r) = true ->
          In r (search_history None term limit db)).
Proof.
  intros f term limit db.
  pose proof (in_get_history_unlimited (-1) None db ltac:(lia)) as Hall.
  split; [ | split; [ | split ] ].
  - destruct f; [ constructor | ]. unfold search_history.
    apply sorted_to_record, sorted_sql_limit, sorted_order_by.
  - intros Hl. destruct f; [ cbn; lia | ]. unfold search_history.
    rewrite length_map. now apply length_sql_limit.
  - intros r Hr. destruct f; [ contradiction | ].
    unfold search_history in Hr.
    apply in_map_iff in Hr. destruct Hr as (x & <- & Hx).
    apply in_sql_limit in Hx. apply (proj1 (in_order_by _ _)) in Hx.
    apply filter_In in Hx. destruct Hx as [Hx Hlike].
    split; [ | exact Hlike ].
    apply Hall. exists x. repeat split. exact Hx.
  - intros Hl r Hr Hlike. apply Hall in Hr.
    destruct Hr as (x & Hx & -> & _).
    unfold search_history. rewrite sql_limit_all by (left; exact Hl).
    apply in_map, in_order_by, filter_In. split; [ exact Hx | exact Hlike ].
Qed.

(** *** Statistics *)

Lemma length_filter_insert_desc (p : stored -> bool) (r : stored)
    (l : list stored) :
  List.length (filter p (insert_desc r l))
  = List.length (filter p (r :: l)).
Proof.
  induction l as [ | x l IH]; [ reflexivity | ].
  cbn [insert_desc].
  destruct (String.leb (col_timestamp x) (col_timestamp r));
    [ reflexivity | ].
  cbn [filter] in IH |- *.
  destruct (p x), (p r); cbn [List.length] in IH |- *; lia.
Qed.

Lemma length_filter_order_by (p : stored -> bool) (l : list stored) :
  List.length (filter p (order_by_timestamp_desc l))
  = List.length (filter p l).
Proof.
  unfold order_by_timestamp_desc.
  induction l as [ | x l IH]; [ reflexivity | ].
  cbn [fold_right]. rewrite length_filter_insert_desc.
  cbn [filter]. destruct (p x); cbn [List.length]; now rewrite IH.
Qed.

Lemma filter_map_swap {A B : Type} (f : A -> B) (p : B -> bool)
    (l : list A) :
  filter p (map f l) = map f (filter (fun x => p (f x)) l).
Proof.
  induction l as [ | x l IH]; cbn; [ reflexivity | ].
  destruct (p (f x)); cbn; now rewrite IH.
Qed.

Lemma length_filter_split {A : Type} (p : A -> bool) (l : list A) :
  (List.length (filter p l) + List.length (filter (fun x => negb (p x)) l)
   = List.length l)%nat.
Proof.
  induction l as [ | x l IH]; cbn; [ reflexivity | ].
  destruct (p x); cbn; lia.
Qed.

Lemma length_nodup_le {A : Type} (dec : forall a b : A, {a = b} + {a <> b})
    (l : list A) :
  (List.length (nodup dec l) <= List.length l)%nat.
Proof.
  induction l as [ | x l IH]; cbn; [ lia | ].
  destruct (in_dec dec x l); cbn; lia.
Qed.

Section StatisticsFacts.

Variable AVG : list float -> option float.

(** X30.  The statistics agree with the history.  On a store reached by
    any sequence of calls, [get_statistics] counts as total the records of
    the unlimited history, as successes those with [success] true and as
    failures those with [success] false, so that total = success + failed;
    the number of distinct paths lies between 0 and the total and is 0 only
    for an empty history.  When the driver fails the dict is empty. *)
Theorem statistics_agree_with_history :
  forall (cs : list call) (f : fault),
    (f <> None -> get_statistics AVG f (after_calls empty cs) = None)
    /\ exists st : statistics,
         get_statistics AVG None (after_calls empty cs) = Some st
         /\ total st
            = Z.of_nat (List.length
                          (get_history None (-1) None (after_calls empty cs)))
         /\ success st
            = Z.of_nat (List.length
                          (filter QueryRecord.success
                             (get_history None (-1) None
                                (after_calls empty cs))))
         /\ failed st
            = Z.of_nat (List.length
                          (filter (fun r => negb (QueryRecord.success r))
                             (get_history None (-1) None
                                (after_calls empty cs))))
         /\ total st = success st + failed st
         /\ 0 <= unique_databases st <= total st
         /\ (unique_databases st = 0 <-> total st = 0).
Proof.
  intros cs f.
  pose proof (well_formed_after_calls cs empty well_formed_empty) as Hwf.
  set (db := after_calls empty cs) in *.
  split; [ intros Hf; destruct f; [ reflexivity | now elim Hf ] | ].
  eexists. split; [ reflexivity | ]. cbn [total success failed
    unique_databases].
  rewrite get_history_unfold, sql_limit_all by (left; lia).
  cbn [admits]. rewrite filter_all.
  rewrite !filter_map_swap, !length_map, !length_filter_order_by,
    length_order_by.
  destruct Hwf as (_ & _ & _ & Hsucc).
  assert (Hok : filter (fun x => QueryRecord.success (to_record x))
                  (query_history db)
                = filter (fun r => col_success r =? 1) (query_history db)).
  { apply filter_ext_in. intros x Hx. cbn.
    destruct (Hsucc x Hx) as [-> | ->]; reflexivity. }
  assert (Hko : filter (fun x => negb (QueryRecord.success (to_record x)))
                  (query_history db)
                = filter (fun r => negb (col_success r =? 1))
                    (query_history db)).
  { apply filter_ext_in. intros x Hx. cbn.
    destruct (Hsucc x Hx) as [-> | ->]; reflexivity. }
  rewrite Hok, Hko.
  pose proof (length_filter_split (fun r => col_success r =? 1)
                (query_history db)) as Hsplit.
  pose proof (length_nodup_le string_dec
                (map col_database_path (query_history db))) as Hnodup.
  rewrite length_map in Hnodup.
  split; [ reflexivity | ]. split; [ reflexivity | ].
  split; [ lia | ]. split; [ lia | ]. split; [ lia | ].
  split.
  - intros H0.
    destruct (query_history db) as [ | x l] eqn:El; [ reflexivity | ].
    exfalso.
    assert (Hin : In (col_database_path x)
                    (nodup string_dec (map col_database_path (x :: l))))
      by (apply nodup_In; now left).
    destruct (nodup string_dec (map col_database_path (x :: l)));
      [ exact Hin | cbn in H0; lia ].
  - intros H0.
    destruct (query_history db) as [ | x l]; [ reflexivity | ].
    cbn in H0. lia.
Qed.

End StatisticsFacts.

End HistoryReads.

(* ------------------------------------------------------------------ *)
(** ** The further properties at work *)

Section ConnectorRuns.
Import MiniSqlite Samples.

(** X3, at work on the open sample connector and a missing file. *)
Lemma sample_connector_stays_coherent :
  coherent opened
  /\ coherent (SQLiteConnector.__init__ env)
  /\ coherent (SQLiteConnector.disconnect env opened)
  /\ coherent (snd (SQLiteConnector.connect env disk "/data/missing.db"
                      opened)).
Proof.
  assert (H : coherent opened) by (intros H; discriminate H).
  split; [ exact H | ].
  exact (file_path_only_while_connected env disk "/data/missing.db" opened H).
Defined.

(** X4, at work: connecting the open sample connector again. *)
Lemma reconnect_sample_afresh :
  path_exists env disk "/data/sample.db" = true
  /\ SQLiteConnector.connect env disk "/data/sample.db" opened
     = SQLiteConnector.connect env disk "/data/sample.db"
         (SQLiteConnector.__init__ env).
Proof.
  split; [ reflexivity | ].
  apply (connect_starts_afresh env disk "/data/sample.db" opened).
  - reflexivity.
  - reflexivity.
  - intros H. discriminate H.
Defined.

(** X5, at work: the sample file can no longer be opened. *)
Lemma unreadable_file_loses_the_connection :
  SQLiteConnector.is_connected unreadable opened_before = true
  /\ SQLiteConnector.connect unreadable disk "/data/sample.db" opened_before
     = (Raised (ConnectionError
          "Failed to connect to database: unable to open database file"),
        SQLiteConnector.__init__ unreadable).
Proof.
  split; [ reflexivity | ].
  apply (connect_driver_failure_loses_the_connection unreadable disk
           "/data/sample.db" "unable to open database file" opened_before).
  - reflexivity.
  - reflexivity.
  - intros H. discriminate H.
  - reflexivity.
Defined.

(** X9, at work: the columns of [orders], the last without a declared
    type. *)
Lemma orders_columns_follow_table_info :
  exists (cursor : Cursor) (h1 : connection env) (schema : TableSchema.t)
         (self' : SQLiteConnector.t env),
    execute env fresh (SQLiteConnector.table_info_statement "orders") []
    = (Ok cursor, h1)
    /\ SQLiteConnector.get_schema env "orders" opened
       = (Returned schema, self')
    /\ map ColumnInfo.data_type (TableSchema.columns schema)
       = [VStr "TEXT"; VStr "INTEGER"; VStr "INTEGER"; VStr "BLOB"]
    /\ TableSchema.name schema = "orders"
    /\ map column_core (TableSchema.columns schema)
       = map column_of_row (fetchall cursor)
    /\ Forall (fun c => truthy (ColumnInfo.data_type c) = true)
         (TableSchema.columns schema).
Proof.
  do 4 eexists.
  split; [ reflexivity | ].
  split; [ reflexivity | ].
  split; [ reflexivity | ].
  refine (get_schema_columns_follow_table_info env fresh _
            (Some "/data/sample.db") "orders" _ _ _ _ _);
    reflexivity.
Defined.

(** X10, at work: in [orders] the column [who] is the one marked. *)
Lemma orders_foreign_keys_agree :
  exists (schema : TableSchema.t) (self' : SQLiteConnector.t env),
    SQLiteConnector.get_schema env "orders" opened = (Returned schema, self')
    /\ map ColumnInfo.foreign_key (TableSchema.columns schema)
       = [None; None; Some "t.id"; None]
    /\ forall c, In c (TableSchema.columns schema) ->
         (ColumnInfo.foreign_key c <> None <->
          exists fk, In fk (TableSchema.foreign_keys schema)
                     /\ py_eq env (ColumnInfo.name c) (ForeignKey.column fk)
                        = true).
Proof.
  do 2 eexists.
  split; [ reflexivity | ].
  split; [ reflexivity | ].
  refine (get_schema_foreign_keys_agree env opened _ "orders" _ _).
  reflexivity.
Defined.

End ConnectorRuns.

Section ViewerRuns.
Import DataViewer Samples.

Lemma viewer_on_a_page : on_a_page viewer.
Proof. vm_compute. split; intros H; discriminate H. Qed.

(** X11, at work on page 2 of 3. *)
Lemma second_page_navigation :
  on_a_page viewer
  /\ on_a_page (_on_first_page viewer)
  /\ on_a_page (_on_prev_page viewer)
  /\ on_a_page (_on_next_page viewer)
  /\ on_a_page (_on_last_page viewer)
  /\ on_a_page (_on_page_changed viewer 7)
  /\ on_a_page (_on_header_clicked viewer "name").
Proof.
  split; [ exact viewer_on_a_page | ].
  exact (navigation_stays_on_a_page viewer 7 "name" viewer_on_a_page).
Defined.

(** X12, at work: page 2 of 120 rows by 50 starts at row 50. *)
Lemma second_page_starts_at_50 :
  _load_data viewer = Some ("t", 50, 50, None, false)
  /\ 50 = page_size viewer
  /\ 0 <= 50
  /\ (0 < total_rows viewer -> 50 < total_rows viewer)
  /\ (total_rows viewer = 0 -> 50 = 0).
Proof.
  split; [ reflexivity | ].
  apply (page_starts_inside_the_table viewer "t" 50 50 None false).
  - reflexivity.
  - intros H. discriminate H.
  - exact viewer_on_a_page.
  - reflexivity.
Defined.

(** X13, at work: the last of 120 rows is on one page, the third. *)
Lemma last_row_is_on_one_page :
  exists page : Z,
    1 <= page <= total_pages viewer
    /\ (page - 1) * page_size viewer <= 119 < page * page_size viewer
    /\ (forall other : Z,
          (other - 1) * page_size viewer <= 119 < other * page_size viewer ->
          other = page).
Proof.
  apply (pages_cover_every_row viewer 119).
  - reflexivity.
  - split; [ intros H; discriminate H | reflexivity ].
Defined.

(** X14, at work on page 2 of 3. *)
Lemma second_page_next_and_previous :
  _on_prev_page (_on_next_page viewer) = viewer
  /\ _on_next_page (_on_prev_page viewer) = viewer.
Proof.
  destruct (next_and_previous_undo viewer viewer_on_a_page) as [Hn Hp].
  split; [ apply Hn | apply Hp ]; reflexivity.
Defined.

(** X15, at work: three clicks on the header of [name]. *)
Lemma name_header_clicked_thrice :
  table_name viewer = Some "t"
  /\ (let once := _on_header_clicked viewer "name" in
      let twice := _on_header_clicked once "name" in
      current_page once = 1
      /\ order_by once = Some "name"
      /\ order_by twice = Some "name"
      /\ order_desc twice = negb (order_desc once)
      /\ _on_header_clicked twice "name" = once).
Proof.
  split; [ reflexivity | ].
  apply (header_clicks_alternate viewer "t" "name").
  - reflexivity.
  - intros H. discriminate H.
Defined.

End ViewerRuns.

Section RegistryRuns.
Import MiniSqlite Samples.

(** X17, at work: [MDB] registered, a file [old.Mdb] created. *)
Lemma mdb_registered_then_created :
  registry_key "MDB" = ".mdb"
  /\ ConnectorFactory.is_supported
       (ConnectorFactory.register_connector ConnectorFactory._connectors
          "MDB" ConnectorFactory.SQLiteConnector_class) "/data/old.Mdb"
     = true
  /\ ConnectorFactory.create_connector env
       (ConnectorFactory.register_connector ConnectorFactory._connectors
          "MDB" ConnectorFactory.SQLiteConnector_class) "/data/old.Mdb"
     = Returned (ConnectorFactory.instantiate env
                   ConnectorFactory.SQLiteConnector_class).
Proof.
  split; [ reflexivity | ].
  apply (register_then_create env ConnectorFactory._connectors "MDB"
           "/data/old.Mdb" ConnectorFactory.SQLiteConnector_class).
  reflexivity.
Defined.

(** X18, at work: [MDB] registered, the sample file as before. *)
Lemma mdb_registered_keeps_db :
  ConnectorFactory.getitem with_mdb ".db"
  = ConnectorFactory.getitem ConnectorFactory._connectors ".db"
  /\ ConnectorFactory.is_supported with_mdb "/data/sample.db"
     = ConnectorFactory.is_supported ConnectorFactory._connectors
         "/data/sample.db".
Proof.
  apply (register_keeps_other_extensions ConnectorFactory._connectors "MDB"
           "/data/sample.db" ConnectorFactory.SQLiteConnector_class).
  vm_compute. intros H. discriminate H.
Defined.

(** X19, at work on the registry with [MDB] registered. *)
Lemma registry_with_mdb_is_normal :
  ConnectorFactory.get_supported_extensions with_mdb
  = [".db"; ".sqlite"; ".sqlite3"; ".mdb"]
  /\ NoDup (ConnectorFactory.get_supported_extensions with_mdb)
  /\ (forall e, In e (ConnectorFactory.get_supported_extensions with_mdb) ->
                Py.lower e = e /\ Py.startswith e "." = true)
  /\ (forall extension c,
        ConnectorFactory.get_supported_extensions
          (ConnectorFactory.register_connector with_mdb extension c)
        = if Py.str_in (registry_key extension)
               (ConnectorFactory.get_supported_extensions with_mdb)
          then ConnectorFactory.get_supported_extensions with_mdb
          else (ConnectorFactory.get_supported_extensions with_mdb
                ++ [registry_key extension])%list).
Proof.
  split; [ reflexivity | ].
  apply (registry_keys_are_normal with_mdb).
  apply ConnectorFactory.reachable_register, ConnectorFactory.reachable_seed.
Defined.

End RegistryRuns.

Section HistoryReadRuns.
Import QueryHistoryDB SampleHistory.

(** X25, at work on the sample history of two records. *)
Lemma sample_history_is_complete :
  List.length (get_history None (-1) (Some "/data/sample.db") two) = 2%nat
  /\ (forall r,
        In r (get_history None (-1) (Some "/data/sample.db") two) <->
        exists x, In x (query_history two)
                  /\ r = to_record x
                  /\ admits (Some "/data/sample.db") r = true)
  /\ List.length (get_history None (-1) (Some "/data/sample.db") two)
     = List.length
         (filter (fun x => admits (Some "/data/sample.db") (to_record x))
            (query_history two))
  /\ get_history None (-1) (Some "") two = get_history None (-1) None two.
Proof.
  split; [ reflexivity | ].
  apply (get_history_without_limit_is_complete (-1)
           (Some "/data/sample.db") two).
  reflexivity.
Defined.

(** X26, at work: record 1 deleted from the sample history. *)
Lemma sample_deletion_shows :
  map QueryRecord.id
    (get_history None (-1) None (snd (delete_record None 1 two)))
  = [Some 2]
  /\ (forall r,
        In r (get_history None (-1) None (snd (delete_record None 1 two))) <->
        In r (get_history None (-1) None two)
        /\ QueryRecord.id r <> Some 1)
  /\ get_history None (-1) None (snd (clear_history None two)) = []
  /\ search_history None "select" (-1) (snd (clear_history None two)) = [].
Proof.
  split; [ reflexivity | ].
  apply (deletions_show_in_history two 1 (-1) None None "select").
  reflexivity.
Defined.

End HistoryReadRuns.
